(** * Cyces: the Bannerbear render-job client of the three Streamlit front-ends

    A shallow embedding of the job-submission and polling code of
    [banner/app.py] and of the modification handlers of
    [banchat/chatbot_app.py], with the properties the specification states
    about them.

    Python values are embedded as a JSON-like inductive type, dictionaries as
    [gmap string pyval].  The network and the Streamlit page are an explicit
    [world] threaded through a small state-and-exception monad: an HTTP call
    consumes the next answer of a simulated provider and is recorded in a log
    of exchanges, [st.error] / [st.warning] append to a log of page events,
    [time.sleep] adds to a clock.  A Python exception that the code does not
    catch is the [Raise] outcome; in the blocks that also call into
    Streamlit or use a method of a value, it is the [Fails] ending. *)

From Stdlib Require Import ZArith.
From stdpp Require Import gmap strings list fin_maps functions.

#[local] Set Warnings "-register-all".

(** ** Python values *)

Module Py.

(** The values that [json.loads] / [response.json()] produce and that
    [json=payload] serialises.  JSON numbers are kept as integers. *)
Inductive pyval :=
| PyNone
| PyBool (b : bool)
| PyInt (z : Z)
| PyStr (s : string)
| PyList (l : list pyval)
| PyDict (d : gmap string pyval).

(** The exceptions that subscripting can raise. *)
Inductive pyexn :=
| KeyError (key : string)
| TypeError.

(** What evaluating an expression or running a statement ends with. *)
Inductive outcome (A : Type) :=
| Return (a : A)
| Raise (e : pyexn).
Arguments Return {A} a.
Arguments Raise {A} e.

Definition dict_all2 {A B} (f : A → B → bool)
    (x : gmap string A) (y : gmap string B) : bool :=
  map_fold (λ _ b acc, b && acc) true
    (merge (λ a b, match a, b with
                   | Some a, Some b => Some (f a b)
                   | None, None => None
                   | _, _ => Some false
                   end) x y).

(** Python's [==] on these values: structural, with [True == 1] and
    [False == 0]. *)
Fixpoint py_eq (a b : pyval) {struct a} : bool :=
  match a, b with
  | PyNone, PyNone => true
  | PyBool x, PyBool y => Bool.eqb x y
  | PyBool x, PyInt y => Z.eqb (Z.b2z x) y
  | PyInt x, PyBool y => Z.eqb x (Z.b2z y)
  | PyInt x, PyInt y => Z.eqb x y
  | PyStr x, PyStr y => String.eqb x y
  | PyList x, PyList y =>
      (fix go (x y : list pyval) {struct x} : bool :=
         match x, y with
         | [], [] => true
         | a :: x', b :: y' => py_eq a b && go x' y'
         | _, _ => false
         end) x y
  | PyDict x, PyDict y => dict_all2 (λ f v, f v) (py_eq <$> x) y
  | _, _ => false
  end.

(** [v is None] *)
Definition py_is_none (v : pyval) : bool :=
  match v with PyNone => true | _ => false end.

(** Truth value of [v] in [if v:] / [if not v:]. *)
Definition py_truthy (v : pyval) : bool :=
  match v with
  | PyNone => false
  | PyBool b => b
  | PyInt z => negb (Z.eqb z 0)
  | PyStr s => negb (String.eqb s "")
  | PyList l => match l with [] => false | _ => true end
  | PyDict d => negb (Nat.eqb (size d) 0)
  end.

(** [v[key]] for a string key: [KeyError] on a dict without the key,
    [TypeError] on anything that is not a dict. *)
Definition py_getitem (v : pyval) (key : string) : outcome pyval :=
  match v with
  | PyDict d => match d !! key with
                | Some x => Return x
                | None => Raise (KeyError key)
                end
  | _ => Raise TypeError
  end.

End Py.
Export Py.

(** ** State and exceptions *)

Module Monad.

Definition M (S A : Type) : Type := S → outcome A * S.

Definition ret {S A} (a : A) : M S A := λ s, (Return a, s).

Definition bind {S A B} (c : M S A) (k : A → M S B) : M S B :=
  λ s, match c s with
       | (Return a, s') => k a s'
       | (Raise e, s') => (Raise e, s')
       end.

(** An expression evaluated for its value, the state untouched. *)
Definition eval {S A} (o : outcome A) : M S A := λ s, (o, s).

End Monad.
Export Monad.

Notation "'let!' x ':=' c 'in' k" := (bind c (λ x, k))
  (at level 10, x name, c at level 100, k at level 200).
Notation "c '>>' k" := (bind c (λ _, k))
  (at level 90, right associativity).

(** ** The network and the page *)

Module World.

Inductive http_method := GET | POST.

(** The two Bannerbear URLs of the render-job client:
    [https://api.bannerbear.com/v2/images] and
    [https://api.bannerbear.com/v2/images/{image_uid}]. *)
Inductive endpoint :=
| Images
| Image (image_uid : pyval).

Record http_request := {
  req_method : http_method;
  req_url : endpoint;
  req_bearer : string;
  req_json : option pyval;
}.

(** What [requests.get] / [requests.post], [response.raise_for_status()] and
    [response.json()] give together: one of them raises a
    [requests.exceptions.RequestException] (network failure, 4xx / 5xx
    answer), or the decoded body is obtained. *)
Inductive http_result :=
| RequestException (e : string)
| JsonBody (data : pyval).

Inductive ui_event :=
| StError (text : string)
| StWarning (text : string).

Record world := {
  net : nat → http_result;      (* the provider's answers still to come *)
  exchanges : list (http_request * http_result);
  ui : list ui_event;
  slept : nat;                  (* seconds spent in time.sleep *)
}.

Definition http_exchange (req : http_request) : M world http_result :=
  λ w, let r := net w 0 in
       (Return r,
        {| net := λ k, net w (S k);
           exchanges := exchanges w ++ [(req, r)];
           ui := ui w;
           slept := slept w |}).

Definition st_error (text : string) : M world unit :=
  λ w, (Return tt,
        {| net := net w; exchanges := exchanges w;
           ui := ui w ++ [StError text]; slept := slept w |}).

Definition st_warning (text : string) : M world unit :=
  λ w, (Return tt,
        {| net := net w; exchanges := exchanges w;
           ui := ui w ++ [StWarning text]; slept := slept w |}).

Definition time_sleep (seconds : nat) : M world unit :=
  λ w, (Return tt,
        {| net := net w; exchanges := exchanges w;
           ui := ui w; slept := slept w + seconds |}).

(** A provider that answers from a finite script and then with [dflt]. *)
Definition script (answers : list http_result) (dflt : http_result)
    : nat → http_result :=
  λ k, nth k answers dflt.

Definition fresh_world (provider : nat → http_result) : world :=
  {| net := provider; exchanges := []; ui := []; slept := 0 |}.

End World.
Export World.

(** ** banner/app.py *)

Module Banner.

Section WithKey.

Variable BANNERBEAR_API_KEY : string.

(** [generate_bannerbear_image(template_id, modifications)], lines 52-62 *)
Definition generate_bannerbear_image (template_id modifications : pyval)
    : M world pyval :=
  let payload :=
    PyDict {[ "template" := template_id; "modifications" := modifications ]} in
  let! r := http_exchange
              {| req_method := POST; req_url := Images;
                 req_bearer := BANNERBEAR_API_KEY;
                 req_json := Some payload |} in
  match r with
  | JsonBody data => ret data
  | RequestException e =>
      st_error ("Failed to generate Bannerbear image: " +:+ e) >> ret PyNone
  end.

(** The body of [poll_for_image_completion], lines 68-84:
    [for _ in range(n)] with its
    [try] / [except requests.exceptions.RequestException], followed by the
    warning of the exhausted loop.  A [KeyError] or [TypeError] of a
    subscript is not caught.  The [st.spinner] around the loop only decorates
    the page and is left out. *)
Fixpoint poll_attempts (n : nat) (image_uid : pyval) : M world pyval :=
  match n with
  | 0 =>
      st_warning "Image generation is taking longer than expected." >>
      ret PyNone
  | S n' =>
      let! r := http_exchange
                  {| req_method := GET; req_url := Image image_uid;
                     req_bearer := BANNERBEAR_API_KEY;
                     req_json := None |} in
      match r with
      | RequestException e =>
          st_error ("Polling failed: " +:+ e) >> ret PyNone
      | JsonBody data =>
          let! status := eval (py_getitem data "status") in
          if py_eq status (PyStr "completed") then
            eval (py_getitem data "image_url_png")
          else
            let! status := eval (py_getitem data "status") in
            if py_eq status (PyStr "failed") then
              st_error "Image generation failed on Bannerbear's side." >>
              ret PyNone
            else
              time_sleep 2 >> poll_attempts n' image_uid
      end
  end.

(** [poll_for_image_completion(image_uid)], lines 64-84: the loop is
    [range(20)]. *)
Definition poll_for_image_completion (image_uid : pyval) : M world pyval :=
  poll_attempts 20 image_uid.

End WithKey.

End Banner.

(** ** banchat/chatbot_app.py *)

Module Banchat.

(** The dictionaries of [st.session_state.current_modifications] are shared
    objects: the list holds references, and [mod["text"] = ...] updates the
    object in place.  [loc] names an object, [objects] is the store. *)
Abbreviation loc := nat.

(** The texts the handlers append to the chat, by the f-string that builds
    them. *)
Inductive content :=
| UpdatedLayer (layer_name : pyval)         (* "Updated `{layer_name}`." *)
| LayerNotFound (layer_name : pyval)        (* "I couldn't find a layer named ..." *)
| ChooseTemplateFirst                       (* "Please `choose template` before ..." *)
| GeneratingImage                           (* "Got it! Generating your image..." *)
| FailedToStart                             (* "Failed to start image generation. ..." *)
| GeneratedImage (image_url : pyval)        (* "Here is your generated image! ... ![Generated Image]({image_url})" *)
| DownloadButton                            (* "DOWNLOAD_BUTTON" *)
| DownloadFailed                            (* "Could not prepare image for download: {e}" *)
| GenerationFailed.                         (* "Image generation failed. The final image could not be retrieved." *)

Record message := {
  role : string;
  body : content;
}.

(** [selected_template_details] holds the template's own entries as they
    were fetched; the handlers below read its truth value and its ["uid"]
    only.  The elements of its ["available_modifications"] are in the program
    the very objects that [current_modifications] refers to: what they hold
    after a field update is read in [objects], not in this field. *)
Record session_state := {
  messages : list message;
  selected_template_details : pyval;
  current_modifications : list loc;
  objects : loc → gmap string pyval;
}.

(** [function_call.args] of the Gemini part. *)
Record function_call := {
  name : string;
  args : gmap string pyval;
}.

Definition gets {S A} (f : S → A) : M S A := λ s, (Return (f s), s).

(** [st.session_state.messages.append({"role": "assistant", "content": c})] *)
Definition append_message (c : content) : M session_state unit :=
  λ s, (Return tt,
        {| messages := messages s ++ [{| role := "assistant"; body := c |}];
           selected_template_details := selected_template_details s;
           current_modifications := current_modifications s;
           objects := objects s |}).

(** [mod[key] = value] on the object at [l]; the write is seen through
    every reference to the object, and [objects] is where it is read. *)
Definition setitem (l : loc) (key : string) (value : pyval)
    : M session_state unit :=
  λ s, (Return tt,
        {| messages := messages s;
           selected_template_details := selected_template_details s;
           current_modifications := current_modifications s;
           objects := <[l := <[key := value]> (objects s l)]> (objects s) |}).

(** The [for mod in st.session_state.current_modifications] loop of
    [handle_gemini_function_call], lines 87-96; the value is
    [found_layer]. *)
Fixpoint update_first_layer (layer_name : pyval) (fc : function_call)
    (mods : list loc) : M session_state bool :=
  match mods with
  | [] => ret false
  | l :: rest =>
      let! mod' := gets (λ s, objects s l) in
      let! mod_name := eval (py_getitem (PyDict mod') "name") in
      if py_eq mod_name layer_name then
        match args fc !! "new_text" with
        | Some new_text => setitem l "text" new_text
        | None =>
            match args fc !! "new_image_url" with
            | Some new_image_url => setitem l "image_url" new_image_url
            | None => ret tt
            end
        end >>
        append_message (UpdatedLayer layer_name) >>
        ret true
      else
        update_first_layer layer_name fc rest
  end.

(** [handle_gemini_function_call(function_call)], lines 84-99 *)
Definition handle_gemini_function_call (fc : function_call)
    : M session_state unit :=
  let layer_name := default PyNone (args fc !! "layer_name") in
  let! mods := gets current_modifications in
  let! found_layer := update_first_layer layer_name fc mods in
  if negb found_layer then append_message (LayerNotFound layer_name)
  else ret tt.

(** [{key: value for key, value in mod.items() if value is not None}] *)
Definition clean_mod (mod' : gmap string pyval) : gmap string pyval :=
  filter (λ kv : string * pyval, py_is_none kv.2 = false) mod'.

(** [final_modifications] as built by the loop of [handle_image_generation] *)
Definition final_modifications (s : session_state)
    : list (gmap string pyval) :=
  (λ l, clean_mod (objects s l)) <$> current_modifications s.

Definition in_session {A} (c : M session_state A)
    : M (session_state * world) A :=
  λ sw, let '(r, s') := c sw.1 in (r, (s', sw.2)).

Definition in_world {A} (c : M world A) : M (session_state * world) A :=
  λ sw, let '(r, w') := c sw.2 in (r, (sw.1, w')).

Section WithKey.

Variable BB_API_KEY : string.

(** Modelled from the spec: [bannerbear_helpers.create_image] is imported by
    [chatbot_app.py] and is not among the sources.  Section 4.1 and 6 of the
    specification: one outbound call, a [POST] to the job-creation endpoint,
    bearer-token authenticated, with body [{template, modifications}]; the
    result is the response body, or nothing on a transport failure. *)
Definition create_image (api_key : string) (template_id : pyval)
    (modifications : pyval) : M world pyval :=
  let payload :=
    PyDict {[ "template" := template_id; "modifications" := modifications ]} in
  let! r := http_exchange
              {| req_method := POST; req_url := Images;
                 req_bearer := api_key;
                 req_json := Some payload |} in
  match r with
  | JsonBody data => ret data
  | RequestException e => ret PyNone
  end.

(** [handle_image_generation()], lines 101-123: the guard, the null filter,
    the submission and its check.  The value is [Some initial_response] where
    the source goes on to step 2/2 ([poll_for_image], also of
    [bannerbear_helpers]) and [None] where it returns. *)
Definition handle_image_generation : M (session_state * world) (option pyval) :=
  let! details := in_session (gets selected_template_details) in
  if negb (py_truthy details) then
    in_session (append_message ChooseTemplateFirst) >> ret None
  else
    in_session (append_message GeneratingImage) >>
    let! final := in_session (gets final_modifications) in
    let! uid := eval (py_getitem details "uid") in
    let! initial_response :=
      in_world (create_image BB_API_KEY uid (PyList (PyDict <$> final))) in
    if negb (py_truthy initial_response) then
      in_session (append_message FailedToStart) >> ret None
    else
      ret (Some initial_response).

End WithKey.

End Banchat.

(** ** The vocabulary of the specification *)

Module Spec.

Import Banner.

(** How one iteration of the polling loop reads the provider's answer.  The
    branches are the tests of [poll_for_image_completion] in their order;
    [ObsMalformed] is a body on which a subscript raises. *)
Inductive observation :=
| ObsCompleted (locator : pyval)
| ObsFailed
| ObsPending
| ObsTransportError (e : string)
| ObsMalformed (exn : pyexn).

Definition observe (r : http_result) : observation :=
  match r with
  | RequestException e => ObsTransportError e
  | JsonBody data =>
      match py_getitem data "status" with
      | Raise exn => ObsMalformed exn
      | Return status =>
          if py_eq status (PyStr "completed") then
            match py_getitem data "image_url_png" with
            | Raise exn => ObsMalformed exn
            | Return u => ObsCompleted u
            end
          else if py_eq status (PyStr "failed") then ObsFailed
          else ObsPending
      end
  end.

(** The status responses of section 6:
    [{status: "pending" | "completed" | "failed", image_url_png?: string}]. *)
Definition pending : http_result :=
  JsonBody (PyDict {[ "status" := PyStr "pending" ]}).
Definition completed (url : string) : http_result :=
  JsonBody (PyDict {[ "status" := PyStr "completed";
                      "image_url_png" := PyStr url ]}).
Definition failed : http_result :=
  JsonBody (PyDict {[ "status" := PyStr "failed" ]}).

(** The status fetch that [poll_for_image_completion] issues. *)
Definition status_fetch (key : string) (image_uid : pyval) : http_request :=
  {| req_method := GET; req_url := Image image_uid;
     req_bearer := key; req_json := None |}.

(** The job creation that a submission issues. *)
Definition job_creation (key : string) (template_id modifications : pyval)
    : http_request :=
  {| req_method := POST; req_url := Images; req_bearer := key;
     req_json :=
       Some (PyDict {[ "template" := template_id;
                       "modifications" := modifications ]}) |}.

(** The world after one attempt that went on to the next: the exchange, then
    [time.sleep(2)]. *)
Definition pending_step (req : http_request) (w : world) : world :=
  snd (time_sleep 2 (snd (http_exchange req w))).

Fixpoint skip (k : nat) (req : http_request) (w : world) : world :=
  match k with
  | 0 => w
  | S k' => skip k' req (pending_step req w)
  end.

(** Requests issued and page events shown between two worlds. *)
Definition calls (w w' : world) : nat :=
  length (exchanges w') - length (exchanges w).
Definition shown (w w' : world) : list ui_event :=
  drop (length (ui w)) (ui w').
Definition observed (w w' : world) : list observation :=
  (λ x, observe x.2) <$> drop (length (exchanges w)) (exchanges w').

(** [k] is the first attempt at which the loop sees something other than a
    status to wait on, and it sees [o]. *)
Definition first_seen (w : world) (k : nat) (o : observation) : Prop :=
  observe (net w k) = o ∧ ∀ j, j < k → observe (net w j) = ObsPending.

(** What the loop returns and shows when it stops on [o]. *)
Definition exit_value (o : observation) : outcome pyval :=
  match o with
  | ObsCompleted u => Return u
  | ObsMalformed exn => Raise exn
  | ObsFailed | ObsTransportError _ | ObsPending => Return PyNone
  end.

Definition exit_events (o : observation) : list ui_event :=
  match o with
  | ObsFailed => [StError "Image generation failed on Bannerbear's side."]
  | ObsTransportError e => [StError ("Polling failed: " +:+ e)]
  | ObsCompleted _ | ObsMalformed _ | ObsPending => []
  end.

(** The error kinds of section 7. *)
Inductive failure_kind :=
| SubmissionError
| RenderTimeoutError
| RenderFailedError.

(** The failure a page event announces: the failing paths of
    [generate_bannerbear_image] and [poll_for_image_completion] differ by the
    message they show. *)
Definition failure_of_event (ev : ui_event) : option failure_kind :=
  match ev with
  | StError text =>
      if String.prefix "Failed to generate Bannerbear image: " text
      then Some SubmissionError
      else if String.eqb text "Image generation failed on Bannerbear's side."
      then Some RenderFailedError
      else if String.prefix "Polling failed: " text
      then Some RenderTimeoutError
      else None
  | StWarning text =>
      if String.eqb text "Image generation is taking longer than expected."
      then Some RenderTimeoutError
      else None
  end.

Definition failure_shown (w w' : world) : option failure_kind :=
  match list.last (shown w w') with
  | Some ev => failure_of_event ev
  | None => None
  end.

(** Section 7 as stated: the failure kind can be read off the returned
    value. *)
Definition failure_typed_by_value : Prop :=
  ∃ classify : outcome pyval → option failure_kind,
    ∀ key n image_uid w,
      classify (fst (poll_attempts key n image_uid w))
      = failure_shown w (snd (poll_attempts key n image_uid w)).

(** [RenderJob.status] and the transitions of section 4.1. *)
Inductive job_status := Pending | Completed | Failed.

Definition status_of (o : observation) : option job_status :=
  match o with
  | ObsCompleted _ => Some Completed
  | ObsFailed => Some Failed
  | ObsPending => Some Pending
  | ObsTransportError _ | ObsMalformed _ => None
  end.

Inductive transition : job_status → job_status → Prop :=
| pending_completed : transition Pending Completed
| pending_failed : transition Pending Failed
| pending_pending : transition Pending Pending.

(** The successive pairs of a sequence of statuses. *)
Definition transitions (l : list job_status) : list (job_status * job_status) :=
  zip l (tail l).

Import Banchat.

(** A modification dictionary whose ["name"] equals [layer_name]. *)
Definition name_matches (layer_name : pyval) (d : gmap string pyval) : Prop :=
  ∃ v, d !! "name" = Some v ∧ py_eq v layer_name = true.

(** [l] is the first entry of [mods] whose name equals [layer_name]. *)
Definition first_match_in (objs : loc → gmap string pyval) (mods : list loc)
    (layer_name : pyval) (l : loc) : Prop :=
  ∃ i, mods !! i = Some l
       ∧ name_matches layer_name (objs l)
       ∧ ∀ j l', j < i → mods !! j = Some l' →
                 ¬ name_matches layer_name (objs l').

Definition first_match (s : session_state) (layer_name : pyval) (l : loc)
    : Prop :=
  first_match_in (objects s) (current_modifications s) layer_name l.

Definition layer_of (fc : function_call) : pyval :=
  default PyNone (args fc !! "layer_name").

(** The key and value a call writes: [new_text] wins over
    [new_image_url]. *)
Definition written (fc : function_call) : option (string * pyval) :=
  match args fc !! "new_text" with
  | Some v => Some ("text", v)
  | None => match args fc !! "new_image_url" with
            | Some v => Some ("image_url", v)
            | None => None
            end
  end.

(** The other value kind. *)
Definition other_key (key : string) : string :=
  if String.eqb key "text" then "image_url" else "text".

(** Section 3: at most one value kind per submitted modification. *)
Definition one_kind (d : gmap string pyval) : Prop :=
  ¬ (is_Some (d !! "text") ∧ is_Some (d !! "image_url")).

Definition submission_one_kind (s : session_state) : Prop :=
  Forall one_kind (final_modifications s).

(** The invariant as stated: every field update preserves it. *)
Definition one_kind_preserved : Prop :=
  ∀ fc s, submission_one_kind s →
          submission_one_kind (snd (handle_gemini_function_call fc s)).

End Spec.
Import Spec.

(** ** Sessions and calls used as examples *)

Module Examples.

Import Banchat.

(** A template with a text layer and an image layer, as loaded by
    [handle_template_selection] from [available_modifications]; the title
    has been set. *)
Definition title_layer : gmap string pyval :=
  {[ "name" := PyStr "title"; "text" := PyStr "Hello"; "color" := PyNone ]}.
Definition photo_layer : gmap string pyval :=
  {[ "name" := PyStr "photo"; "image_url" := PyNone ]}.

Definition two_layers : session_state :=
  {| messages := [];
     selected_template_details :=
       PyDict {[ "uid" := PyStr "tpl-1"; "name" := PyStr "Promo" ]};
     current_modifications := [0; 1];
     objects := λ l, match l with 0 => title_layer | _ => photo_layer end |}.

(** "Set the title to Welcome". *)
Definition set_title_text : function_call :=
  {| name := "update_modifications";
     args := {[ "layer_name" := PyStr "title";
                "new_text" := PyStr "Welcome" ]} |}.

(** "Use this picture for the title". *)
Definition set_title_image : function_call :=
  {| name := "update_modifications";
     args := {[ "layer_name" := PyStr "title";
                "new_image_url" := PyStr "https://img.example/p.png" ]} |}.

(** A layer name that the template does not have. *)
Definition set_footer_text : function_call :=
  {| name := "update_modifications";
     args := {[ "layer_name" := PyStr "footer";
                "new_text" := PyStr "Bye" ]} |}.

End Examples.

(** ** Locating a layer *)

Module Layers.

Import Banchat.

(** Where the loop of [handle_gemini_function_call] stops: at the first
    modification whose name equals [layer_name], at the end of the list, or
    on a modification on which [mod["name"]] raises. *)
Fixpoint locate (layer_name : pyval) (objs : loc → gmap string pyval)
    (mods : list loc) : outcome (option loc) :=
  match mods with
  | [] => Return None
  | l :: rest =>
      match py_getitem (PyDict (objs l)) "name" with
      | Raise e => Raise e
      | Return v =>
          if py_eq v layer_name then Return (Some l)
          else locate layer_name objs rest
      end
  end.

(** The session once the layer at [l] has been updated by the call. *)
Definition after_update (s : session_state) (fc : function_call) (l : loc)
    : session_state :=
  {| messages := messages s
                 ++ [{| role := "assistant";
                        body := UpdatedLayer (layer_of fc) |}];
     selected_template_details := selected_template_details s;
     current_modifications := current_modifications s;
     objects := match written fc with
                | Some (key, value) =>
                    <[l := <[key := value]> (objects s l)]> (objects s)
                | None => objects s
                end |}.

(** The session once the call has been answered with "no such layer". *)
Definition after_not_found (s : session_state) (fc : function_call)
    : session_state :=
  {| messages := messages s
                 ++ [{| role := "assistant";
                        body := LayerNotFound (layer_of fc) |}];
     selected_template_details := selected_template_details s;
     current_modifications := current_modifications s;
     objects := objects s |}.

(** Every modification of the session has a ["name"], as after
    [handle_template_selection], which reads [layer_info['name']] of each
    layer it keeps. *)
Definition named (s : session_state) : Prop :=
  ∀ l, l ∈ current_modifications s → is_Some (objects s l !! "name").

(** A session whose second layer has lost its name. *)
Definition nameless_layer : session_state :=
  {| messages := [];
     selected_template_details := PyDict {[ "uid" := PyStr "tpl-1" ]};
     current_modifications := [0; 1];
     objects := λ l, match l with
                     | 0 => {[ "name" := PyStr "title"; "text" := PyNone ]}
                     | _ => {[ "text" := PyStr "orphan" ]}
                     end |}.

(** A call that supplies both kinds of value. *)
Definition set_title_both : function_call :=
  {| name := "update_modifications";
     args := {[ "layer_name" := PyStr "title";
                "new_text" := PyStr "Welcome";
                "new_image_url" := PyStr "https://img.example/p.png" ]} |}.

(** A call that sets the text back to null. *)
Definition clear_title_text : function_call :=
  {| name := "update_modifications";
     args := {[ "layer_name" := PyStr "title"; "new_text" := PyNone ]} |}.

(** A session with no template chosen yet, as [initialize_session_state]
    leaves it. *)
Definition no_template : session_state :=
  {| messages := [];
     selected_template_details := PyNone;
     current_modifications := [];
     objects := λ _, ∅ |}.

(** A session whose template details came without a ["uid"]. *)
Definition template_without_uid : session_state :=
  {| messages := [];
     selected_template_details := PyDict {[ "name" := PyStr "Promo" ]};
     current_modifications := [];
     objects := λ _, ∅ |}.

End Layers.
Import Layers.

(** ** Exceptions that leave a block of a page *)

Module Uncaught.

(** What a block of a page can let through: the exception of a subscript, an
    [AttributeError] (a method asked of a value that has none), or the
    exception of a Streamlit call given a value it cannot use. *)
Inductive uncaught :=
| Subscript (e : pyexn)
| AttributeError (attribute : string)
| StreamlitError (call : string).

Inductive ending (A : Type) :=
| Ends (a : A)
| Fails (x : uncaught).
Arguments Ends {A} a.
Arguments Fails {A} x.

Definition E (S A : Type) : Type := S → ending A * S.

Definition finish {S A} (a : A) : E S A := λ s, (Ends a, s).

Definition throw {S A} (x : uncaught) : E S A := λ s, (Fails x, s).

Definition andthen {S A B} (c : E S A) (k : A → E S B) : E S B :=
  λ s, match c s with
       | (Ends a, s') => k a s'
       | (Fails x, s') => (Fails x, s')
       end.

(** A computation of [M] inside a block: its exception is let through. *)
Definition run {S A} (c : M S A) : E S A :=
  λ s, match c s with
       | (Return a, s') => (Ends a, s')
       | (Raise e, s') => (Fails (Subscript e), s')
       end.

End Uncaught.
Export Uncaught.

Notation "'do!' x ':=' c 'in' k" := (andthen c (λ x, k))
  (at level 10, x name, c at level 100, k at level 200).
Notation "c '>>>' k" := (andthen c (λ _, k))
  (at level 90, right associativity).

(** ** banner/app.py: the submitted form *)

Module BannerPage.

(** The page elements that lines 205-218 add besides [st.error] and
    [st.warning], by the call that adds them. *)
Inductive display :=
| InfoSending (count : nat)
    (* st.info(f"Sending {len(modifications)} modification(s) to Bannerbear...") *)
| HeaderReady
    (* st.header("Your Banner is Ready!") *)
| ImageShown (final_image_url : pyval)
    (* st.image(final_image_url, caption="Generated Banner", ...) *)
| SuccessGenerated
    (* st.success("Image generated successfully!") *)
| MarkdownUrl (final_image_url : pyval).
    (* st.markdown(f"**Image URL:** `{final_image_url}`") *)

(** The world, and the elements of [display] in the order they were added. *)
Record page := {
  outside : world;
  displayed : list display;
}.

Definition show (d : display) : M page unit :=
  λ p, (Return tt,
        {| outside := outside p; displayed := displayed p ++ [d] |}).

Definition in_outside {A} (c : M world A) : M page A :=
  λ p, let '(r, w') := c (outside p) in
       (r, {| outside := w'; displayed := displayed p |}).

Section WithKey.

(** Whether [st.image] can use a value: a URL is handed to the browser as it
    is, a path is opened when the call is made, anything else is refused.
    Which values pass is Streamlit's business and is left open. *)
Variable st_image_loads : pyval → bool.

Variable BANNERBEAR_API_KEY : string.

(** [st.image(final_image_url, caption="Generated Banner", ...)]: the image
    is added, or the call raises. *)
Definition st_image (final_image_url : pyval) : E page unit :=
  if st_image_loads final_image_url then run (show (ImageShown final_image_url))
  else throw (StreamlitError "st.image").

(** Lines 205-218, the [if submitted:] block, with
    [st.session_state.selected_template_id] and the [modifications] that the
    form has collected. *)
Definition submitted (selected_template_id : pyval)
    (modifications : list pyval) : E page unit :=
  match modifications with
  | [] =>
      run (in_outside
             (st_warning
                "You haven't made any changes! Please fill out at least one field."))
  | _ :: _ =>
      run (show (InfoSending (length modifications))) >>>
      do! generation_response :=
        run (in_outside
               (Banner.generate_bannerbear_image BANNERBEAR_API_KEY
                  selected_template_id (PyList modifications))) in
      if py_truthy generation_response then
        do! uid := run (eval (py_getitem generation_response "uid")) in
        do! final_image_url :=
          run (in_outside
                 (Banner.poll_for_image_completion BANNERBEAR_API_KEY uid)) in
        if py_truthy final_image_url then
          run (show HeaderReady) >>>
          st_image final_image_url >>>
          run (show SuccessGenerated) >>>
          run (show (MarkdownUrl final_image_url))
        else finish tt
      else finish tt
  end.

End WithKey.

(** An empty page over the given provider. *)
Definition fresh_page (provider : nat → http_result) : page :=
  {| outside := fresh_world provider; displayed := [] |}.

(** The elements that announce the banner. *)
Definition banner_ready (final_image_url : pyval) : list display :=
  [HeaderReady; ImageShown final_image_url; SuccessGenerated;
   MarkdownUrl final_image_url].

(** The world after the job creation has been sent. *)
Definition after_job_creation (key : string) (template_id : pyval)
    (modifications : list pyval) (w : world) : world :=
  snd (http_exchange
         (job_creation key template_id (PyList modifications)) w).

(** The run of a submitted form that obtains the URL [u]: the form was not
    empty, the job creation was answered by a truthy body with a ["uid"], and
    within twenty fetches the first answer other than a status to wait on
    was a completed one carrying [u], which is truthy. *)
Definition obtains (modifications : list pyval) (w : world) (u : pyval)
    : Prop :=
  modifications ≠ [] ∧ py_truthy u = true
  ∧ ∃ data uid k,
      net w 0 = JsonBody data ∧ py_truthy data = true
      ∧ py_getitem data "uid" = Return uid
      ∧ k < 20 ∧ observe (net w (S k)) = ObsCompleted u
      ∧ ∀ j, j < k → observe (net w (S j)) = ObsPending.

(** A Streamlit that shows only what looks like a web address. *)
Definition loads_urls (v : pyval) : bool :=
  match v with
  | PyStr s => String.prefix "http" s
  | _ => false
  end.

End BannerPage.

(** ** banchat/gemini_helpers.py: the conversation sent to the model *)

Module Gemini.

(** [needle in hay] on two strings. *)
Fixpoint contains (needle hay : string) : bool :=
  String.prefix needle hay
  || match hay with
     | EmptyString => false
     | String _ hay' => contains needle hay'
     end.

(** [needle in container] for a string [needle]: a substring test on a
    string, a membership test on a list, a key test on a dict; [None],
    booleans and numbers are not iterable. *)
Definition py_in (needle : string) (container : pyval) : outcome bool :=
  match container with
  | PyStr s => Return (contains needle s)
  | PyList l => Return (existsb (λ x, py_eq x (PyStr needle)) l)
  | PyDict d => Return (bool_decide (is_Some (d !! needle)))
  | PyNone | PyBool _ | PyInt _ => Raise TypeError
  end.

(** [chat_history[-6:]] *)
Definition last_six {A} (chat_history : list A) : list A :=
  drop (length chat_history - 6) chat_history.

(** [{'role': role, 'parts': [part]}] *)
Definition turn (role : string) (part : pyval) : pyval :=
  PyDict {[ "role" := PyStr role; "parts" := PyList [part] ]}.

(** [conversation.append(item)] *)
Definition append (item : pyval) : M (list pyval) unit :=
  λ conversation, (Return tt, conversation ++ [item]).

(** The body of [for msg in chat_history[-6:]], lines 57-60. *)
Definition replay_message (msg : pyval) : M (list pyval) unit :=
  let! role := eval (py_getitem msg "role") in
  if py_eq role (PyStr "user") then
    let! content := eval (py_getitem msg "content") in
    append (turn "user" content)
  else
    let! role := eval (py_getitem msg "role") in
    if py_eq role (PyStr "assistant") then
      let! content := eval (py_getitem msg "content") in
      let! marked := eval (py_in "![Generated Image]" content) in
      if negb marked then
        let! content := eval (py_getitem msg "content") in
        append (turn "model" content)
      else ret tt
    else ret tt.

Fixpoint replay (msgs : list pyval) : M (list pyval) unit :=
  match msgs with
  | [] => ret tt
  | msg :: rest => replay_message msg >> replay rest
  end.

(** The model's canned acknowledgement of the context. *)
Definition understood : pyval :=
  PyStr "Understood. I am ready to assist based on the provided context.".

(** Lines 52-62 of [generate_gemini_response]: the conversation handed to
    [model.generate_content], from the context prompt built above them, the
    chat history and the user's prompt.  These lines are outside the [try],
    so an exception raised here leaves the function. *)
Definition build_conversation (context_prompt : pyval)
    (chat_history : list pyval) (user_prompt : pyval)
    : outcome (list pyval) :=
  let conversation := [turn "user" context_prompt; turn "model" understood] in
  fst ((replay (last_six chat_history) >>
        append (turn "user" user_prompt) >>
        λ conversation, (Return conversation, conversation))
         conversation).

(** What one message of the chat contributes to the conversation. *)
Definition translate (msg : pyval) : outcome (list pyval) :=
  fst ((replay_message msg >> λ c, (Return c, c)) []).

(** What a run of messages contributes, or the first exception. *)
Fixpoint translate_all (msgs : list pyval) : outcome (list pyval) :=
  match msgs with
  | [] => Return []
  | msg :: rest =>
      match translate msg with
      | Raise e => Raise e
      | Return items =>
          match translate_all rest with
          | Raise e => Raise e
          | Return more => Return (items ++ more)
          end
      end
  end.

(** A message as the application itself appends them to
    [st.session_state.messages]: a dict with a string ["role"] and a
    ["content"] that is a string or, for the template picker, a dict. *)
Definition chat_message (msg : pyval) : Prop :=
  ∃ d role content,
    msg = PyDict d ∧ d !! "role" = Some (PyStr role)
    ∧ d !! "content" = Some content
    ∧ ((∃ text, content = PyStr text) ∨ (∃ fields, content = PyDict fields)).

(** [{"role": "user", "content": prompt}], as [main] appends it before it
    calls [process_prompt]. *)
Definition user_message (prompt : pyval) : pyval :=
  PyDict {[ "role" := PyStr "user"; "content" := prompt ]}.

Definition assistant_message (content : pyval) : pyval :=
  PyDict {[ "role" := PyStr "assistant"; "content" := content ]}.

End Gemini.

(** ** banchat/chatbot_app.py: selecting a template *)

Module Selection.

Import Banchat.

(** The session as [handle_template_selection] sees it.  The chat is the
    list of Python dicts that [st.session_state.messages] holds; the other
    three fields are those of [session_state]. *)
Record chat := {
  transcript : list pyval;
  details : pyval;
  layers : list loc;
  store : loc → gmap string pyval;
}.

(** The same template and modifications under a chat [ms] of the handlers
    above. *)
Definition session_of (c : chat) (ms : list message) : session_state :=
  {| messages := ms;
     selected_template_details := details c;
     current_modifications := layers c;
     objects := store c |}.

(** [{"role": role, "content": text}] *)
Definition chat_entry (role text : string) : pyval :=
  PyDict {[ "role" := PyStr role; "content" := PyStr text ]}.

(** [isinstance(content, dict) and content.get("type") == "template_picker"] *)
Definition is_picker (content : pyval) : bool :=
  match content with
  | PyDict d => py_eq (default PyNone (d !! "type")) (PyStr "template_picker")
  | _ => false
  end.

(** The list comprehension of line 43: the messages that are not a template
    picker, or the exception of the first [msg["content"]] that raises. *)
Fixpoint without_pickers (msgs : list pyval) : outcome (list pyval) :=
  match msgs with
  | [] => Return []
  | msg :: rest =>
      match py_getitem msg "content" with
      | Raise e => Raise e
      | Return content =>
          match without_pickers rest with
          | Raise e => Raise e
          | Return kept =>
              Return (if is_picker content then kept else msg :: kept)
          end
      end
  end.

(** The loop of lines 61-66 over a list: the layers kept and their names, or
    the exception of the first layer on which [layer_info['name']] raises. *)
Fixpoint scan_layers (layers_data : list pyval)
    : outcome (list (gmap string pyval) * list pyval) :=
  match layers_data with
  | [] => Return ([], [])
  | layer_info :: rest =>
      match py_getitem layer_info "name" with
      | Raise e => Raise e
      | Return layer_name =>
          match layer_info, scan_layers rest with
          | PyDict d, Return (mods, names) =>
              Return (d :: mods, layer_name :: names)
          | _, Return _ => Raise TypeError
          | _, Raise e => Raise e
          end
      end
  end.

(** [for layer_info in layers_data] for any value: a list is scanned; a
    string or a dict yields strings (its characters, its keys), on the first
    of which [layer_info['name']] is a [TypeError], so only the empty ones
    pass; anything else is not iterable. *)
Definition scan (layers_data : pyval)
    : outcome (list (gmap string pyval) * list pyval) :=
  match layers_data with
  | PyList l => scan_layers l
  | PyStr s => if String.eqb s "" then Return ([], []) else Raise TypeError
  | PyDict d => if Nat.eqb (size d) 0 then Return ([], []) else Raise TypeError
  | PyNone | PyBool _ | PyInt _ => Raise TypeError
  end.

(** The [try] block of lines 58-66 up to the assignment: the subscript
    [full_template_details['available_modifications']], then the loop. *)
Definition read_layers (full_template_details : pyval)
    : outcome (list (gmap string pyval) * list pyval) :=
  match py_getitem full_template_details "available_modifications" with
  | Raise e => Raise e
  | Return layers_data => scan layers_data
  end.

Definition newline : string := String (Ascii.ascii_of_nat 10) EmptyString.

(** [separator.join(items)] *)
Fixpoint join (separator : string) (items : list string) : string :=
  match items with
  | [] => ""
  | [item] => item
  | item :: rest => item +:+ separator +:+ join separator rest
  end.

Definition in_world_of_chat {A} (c : M world A) : M (chat * world) A :=
  λ cw, let '(r, w') := c cw.2 in (r, (cw.1, w')).

Definition say (role text : string) : M (chat * world) unit :=
  λ cw, (Return tt,
         ({| transcript := transcript cw.1 ++ [chat_entry role text];
             details := details cw.1;
             layers := layers cw.1;
             store := store cw.1 |}, cw.2)).

Definition set_transcript (msgs : list pyval) : M (chat * world) unit :=
  λ cw, (Return tt,
         ({| transcript := msgs; details := details cw.1;
             layers := layers cw.1; store := store cw.1 |}, cw.2)).

Definition set_details (v : pyval) : M (chat * world) unit :=
  λ cw, (Return tt,
         ({| transcript := transcript cw.1; details := v;
             layers := layers cw.1; store := store cw.1 |}, cw.2)).

(** [st.session_state.current_modifications = modifications]: the layer
    dictionaries become the objects [0 .. n-1], the list refers to them in
    order.  The objects of the previous list are no longer referred to. *)
Definition set_modifications (mods : list (gmap string pyval))
    : M (chat * world) unit :=
  λ cw, (Return tt,
         ({| transcript := transcript cw.1; details := details cw.1;
             layers := seq 0 (length mods);
             store := λ l, default (store cw.1 l) (mods !! l) |}, cw.2)).

Section WithCollaborators.

(** Python's [str()], which the f-strings apply to the values they embed. *)
Variable py_str : pyval → string.

(** [bannerbear_helpers.get_template_details], which is not among the
    sources: any function of the key and the uid that may use the network. *)
Variable get_template_details : string → pyval → M world pyval.

Variable BB_API_KEY : string.

(** Lines 49-82 of [handle_template_selection]: what is done with the
    details that [get_template_details] returned. *)
Definition loaded_template (full_template_details : pyval)
    : M (chat * world) unit :=
  if negb (py_truthy full_template_details) then
    say "assistant"
      "Sorry, I failed to load the detailed information for that template."
  else
    set_details full_template_details >>
    match read_layers full_template_details with
    | Raise (KeyError _) =>
        say "assistant"
          "Critical Error: The key 'available_modifications' was not found in the template data."
    | Raise TypeError => eval (Raise TypeError)
    | Return (mods, layer_names) =>
        set_modifications mods >>
        let layer_list_str :=
          join (newline +:+ "- ")
            ((λ layer_name, "`" +:+ py_str layer_name +:+ "`")
               <$> layer_names) in
        let! template_name := eval (py_getitem full_template_details "name") in
        say "assistant"
          ("Success! I've loaded the **'" +:+ py_str template_name
           +:+ "'** template." +:+ newline +:+ newline
           +:+ "Here are the layers you can edit:" +:+ newline +:+ "- "
           +:+ layer_list_str +:+ newline +:+ newline
           +:+ "You can now ask me to change things, like 'Set the title to...'. "
           +:+ "When you're ready, type **generate image**.")
    end.

(** [handle_template_selection(template_summary)], lines 38-82.  The
    spinner only decorates the page. *)
Definition handle_template_selection (template_summary : pyval)
    : M (chat * world) unit :=
  let! msgs := λ cw, (without_pickers (transcript cw.1), cw) in
  set_transcript msgs >>
  let! summary_name := eval (py_getitem template_summary "name") in
  say "user" ("I'll use the '" +:+ py_str summary_name +:+ "' template.") >>
  let! uid := eval (py_getitem template_summary "uid") in
  let! full_template_details :=
    in_world_of_chat (get_template_details BB_API_KEY uid) in
  loaded_template full_template_details.

End WithCollaborators.

(** The handler gets as far as the details: no message of the chat raises
    on [msg["content"]], the summary has a name and a uid, and the
    collaborator returns [full], leaving the world [w']. *)
Definition fetched (get_template_details : string → pyval → M world pyval)
    (key : string) (template_summary : pyval) (c : chat) (w : world)
    (full : pyval) (w' : world) : Prop :=
  (∃ kept, without_pickers (transcript c) = Return kept)
  ∧ (∃ summary_name, py_getitem template_summary "name" = Return summary_name)
  ∧ ∃ uid, py_getitem template_summary "uid" = Return uid
           ∧ get_template_details key uid w = (Return full, w').

(** A message that is not a template picker. *)
Definition not_picker (msg : pyval) : Prop :=
  ∃ content, py_getitem msg "content" = Return content
             ∧ is_picker content = false.

(** A stand-in for [str()] that is right on strings. *)
Definition str_of (v : pyval) : string :=
  match v with PyStr s => s | _ => "" end.

(** A collaborator that answers [full] without using the network. *)
Definition answers (full : pyval) : string → pyval → M world pyval :=
  λ _ _, ret full.

(** What the picker hands over, and two template details: one as the
    provider documents them, one whose second layer has no name. *)
Definition promo_summary : pyval :=
  PyDict {[ "uid" := PyStr "tpl-2"; "name" := PyStr "Promo" ]}.

Definition promo_details : pyval :=
  PyDict {[ "uid" := PyStr "tpl-2"; "name" := PyStr "Promo";
            "available_modifications" :=
              PyList [PyDict {[ "name" := PyStr "headline";
                                "text" := PyNone; "color" := PyNone ]};
                      PyDict {[ "name" := PyStr "logo";
                                "image_url" := PyNone ]}] ]}.

Definition broken_details : pyval :=
  PyDict {[ "uid" := PyStr "tpl-2"; "name" := PyStr "Promo";
            "available_modifications" :=
              PyList [PyDict {[ "name" := PyStr "headline";
                                "text" := PyNone ]};
                      PyDict {[ "text" := PyNone ]}] ]}.

(** A chat in which an earlier template is loaded and its title set, and
    the picker is on display. *)
Definition earlier_chat : chat :=
  {| transcript :=
       [chat_entry "assistant" "Hello!";
        PyDict {[ "role" := PyStr "assistant";
                  "content" :=
                    PyDict {[ "type" := PyStr "template_picker";
                              "data" := PyList [promo_summary] ]} ]}];
     details := PyDict {[ "uid" := PyStr "tpl-1"; "name" := PyStr "Flyer" ]};
     layers := [0];
     store := λ _, {[ "name" := PyStr "title"; "text" := PyStr "Hello" ]} |}.

End Selection.

(** ** banchat/chatbot_app.py: step 2/2 of an image generation *)

Module Rendering.

Import Banchat.

(** [st.session_state.download_image]: the bytes, and the uid that the file
    name [f"generated_{final_image['uid']}.png"] embeds. *)
Record download := {
  file_bytes : string;
  file_uid : pyval;
}.

(** The session, the download it offers, and the world. *)
Record app := {
  session : session_state;
  download_image : option download;
  outside : world;
}.

(** A handler of the session and the world, as a step of the application. *)
Definition on_session {A} (c : M (session_state * world) A) : M app A :=
  λ a, let '(r, sw) := c (session a, outside a) in
       (r, {| session := sw.1; download_image := download_image a;
              outside := sw.2 |}).

(** [st.session_state.messages.append({"role": "assistant", "content": c})] *)
Definition say (c : content) : E app unit :=
  run (on_session (in_session (append_message c))).

(** [st.session_state.download_image = {...}] *)
Definition set_download (d : download) : E app unit :=
  λ a, (Ends tt,
        {| session := session a; download_image := Some d;
           outside := outside a |}).

(** [v.get(key)]: of these values only a dict has the method. *)
Definition py_get (v : pyval) (key : string) : ending pyval :=
  match v with
  | PyDict d => Ends (default PyNone (d !! key))
  | _ => Fails (AttributeError "get")
  end.

(** [final_image and final_image.get("image_url_png")] as the test of an
    [if]. *)
Definition retrieved (final_image : pyval) : ending bool :=
  if py_truthy final_image then
    match py_get final_image "image_url_png" with
    | Ends image_url => Ends (py_truthy image_url)
    | Fails x => Fails x
    end
  else Ends false.

Section WithCollaborators.

(** [bannerbear_helpers.poll_for_image], which is not among the sources: any
    function of the key and the response of the job creation that may use
    the network. *)
Variable poll_for_image : string → pyval → M world pyval.

(** [requests.get(image_url).content]: the bytes, or nothing when the call
    raises; what the call does to the world is left open. *)
Variable requests_get_content : pyval → world → option string * world.

Variable BB_API_KEY : string.

(** The [try] block of lines 131-136: every exception raised in it, that of
    [final_image['uid']] included, ends in the message of the [except]. *)
Definition prepare_download (final_image image_url : pyval) : E app unit :=
  do! fetched :=
    (λ a, let '(r, w') := requests_get_content image_url (outside a) in
          (Ends r, {| session := session a;
                      download_image := download_image a;
                      outside := w' |})) in
  match fetched, py_getitem final_image "uid" with
  | Some image_bytes, Return uid =>
      set_download {| file_bytes := image_bytes; file_uid := uid |} >>>
      say DownloadButton
  | _, _ => say DownloadFailed
  end.

(** Lines 125-138 of [handle_image_generation]: step 2/2.  The spinner only
    decorates the page. *)
Definition render_image (initial_response : pyval) : E app unit :=
  do! final_image :=
    run (on_session (in_world (poll_for_image BB_API_KEY initial_response))) in
  do! has_image := (λ a, (retrieved final_image, a)) in
  if has_image : bool then
    do! image_url := run (eval (py_getitem final_image "image_url_png")) in
    say (GeneratedImage image_url) >>>
    prepare_download final_image image_url
  else say GenerationFailed.

(** [handle_image_generation()], lines 101-138: the submission of
    [Banchat.handle_image_generation], then step 2/2 where it goes on. *)
Definition handle_image_generation : E app unit :=
  do! started := run (on_session (Banchat.handle_image_generation BB_API_KEY)) in
  match started with
  | None => finish tt
  | Some initial_response => render_image initial_response
  end.

End WithCollaborators.

(** A result of [poll_for_image] that carries no image: a falsy value, or a
    dict whose ["image_url_png"] is missing or falsy. *)
Definition no_image (final_image : pyval) : Prop :=
  py_truthy final_image = false
  ∨ ∃ d, final_image = PyDict d
         ∧ py_truthy (default PyNone (d !! "image_url_png")) = false.

(** The session with more messages of the assistant. *)
Definition with_messages (s : session_state) (more : list content)
    : session_state :=
  {| messages := messages s
                 ++ ((λ c, {| role := "assistant"; body := c |}) <$> more);
     selected_template_details := selected_template_details s;
     current_modifications := current_modifications s;
     objects := objects s |}.

(** A stand-in for [poll_for_image] that uses no network and hands back a
    failed status. *)
Definition reports_failed : string → pyval → M world pyval :=
  λ _ _, ret (PyDict {[ "status" := PyStr "failed"; "uid" := PyStr "job-1" ]}).

(** An image host that is never reached. *)
Definition no_host : pyval → world → option string * world :=
  λ _ w, (None, w).

End Rendering.

(** ** The payload of a submission *)

Module Payload.



End Payload.

(** * Properties *)

(** ** One iteration of the polling loop *)

Section PollingLoop.

Import Banner.

Variable key : string.
Variable image_uid : pyval.

Let req := status_fetch key image_uid.

Lemma poll_attempts_step n w :
  poll_attempts key (S n) image_uid w =
  let w1 := snd (http_exchange req w) in
  match observe (net w 0) with
  | ObsCompleted u => (Return u, w1)
  | ObsFailed =>
      (Return PyNone,
       snd (st_error "Image generation failed on Bannerbear's side." w1))
  | ObsPending => poll_attempts key n image_uid (pending_step req w)
  | ObsTransportError e =>
      (Return PyNone, snd (st_error ("Polling failed: " +:+ e) w1))
  | ObsMalformed exn => (Raise exn, w1)
  end.
Proof.
  unfold observe, pending_step. cbn [poll_attempts].
  unfold bind at 1. cbn [http_exchange fst snd].
  destruct (net w 0) as [e | data]; [reflexivity |].
  destruct (py_getitem data "status") as [status | exn] eqn:Hst;
    [| reflexivity].
  unfold bind at 1, eval at 1. cbv beta iota.
  destruct (py_eq status (PyStr "completed")).
  - unfold eval. destruct (py_getitem data "image_url_png"); reflexivity.
  - unfold bind at 1, eval at 1. cbv beta iota.
    destruct (py_eq status (PyStr "failed")); reflexivity.
Qed.

Lemma poll_attempts_pending n w :
  observe (net w 0) = ObsPending →
  poll_attempts key (S n) image_uid w
  = poll_attempts key n image_uid (pending_step req w).
Proof. intros H. rewrite poll_attempts_step, H. reflexivity. Qed.

(** A terminal observation ends the loop whatever is left of the range. *)
Lemma poll_attempts_terminal n w :
  observe (net w 0) ≠ ObsPending →
  poll_attempts key (S n) image_uid w = poll_attempts key 1 image_uid w.
Proof.
  intros H. rewrite !poll_attempts_step.
  destruct (observe (net w 0)); congruence.
Qed.

(** ** The world after [k] attempts that all went on *)

Lemma skip_net k w j : net (skip k req w) j = net w (k + j).
Proof.
  revert w. induction k as [| k IH]; intros w; [reflexivity |].
  cbn [skip]. rewrite IH. reflexivity.
Qed.

Lemma skip_exchanges k w :
  exchanges (skip k req w)
  = exchanges w ++ ((λ j, (req, net w j)) <$> seq 0 k).
Proof.
  revert w. induction k as [| k IH]; intros w.
  - cbn. by rewrite app_nil_r.
  - cbn [skip]. rewrite IH. cbn [pending_step time_sleep http_exchange
      exchanges net snd].
    rewrite <- app_assoc. f_equal. cbn [seq fmap list_fmap app].
    f_equal. rewrite <- fmap_S_seq, <- list_fmap_compose. reflexivity.
Qed.

Lemma skip_ui k w : ui (skip k req w) = ui w.
Proof.
  revert w. induction k as [| k IH]; intros w; [reflexivity |].
  cbn [skip]. rewrite IH. reflexivity.
Qed.

Lemma skip_slept k w : slept (skip k req w) = slept w + 2 * k.
Proof.
  revert w. induction k as [| k IH]; intros w; [cbn [skip]; lia |].
  cbn [skip]. rewrite IH. unfold pending_step. cbn. lia.
Qed.

Lemma poll_attempts_skip k m w :
  (∀ j, j < k → observe (net w j) = ObsPending) →
  poll_attempts key (k + m) image_uid w
  = poll_attempts key m image_uid (skip k req w).
Proof.
  revert w. induction k as [| k IH]; intros w Hp; [reflexivity |].
  cbn [Nat.add skip]. rewrite poll_attempts_pending by (apply Hp; lia).
  apply IH. intros j Hj.
  cbn [pending_step time_sleep http_exchange net snd]. apply Hp. lia.
Qed.

(** Within [n] attempts the answers are either all to wait on, or there is a
    first one that is not. *)
Lemma first_terminal_dec n w :
  (∀ j, j < n → observe (net w j) = ObsPending)
  ∨ ∃ k o, k < n ∧ o ≠ ObsPending ∧ first_seen w k o.
Proof.
  induction n as [| n [IH | (k & o & Hk & Ho & Hf)]].
  - left. intros j Hj. lia.
  - destruct (observe (net w n)) eqn:Hn.
    all: try (right; eexists n, _; split; [lia |]; split;
              [| split; [exact Hn | exact IH]]; discriminate).
    left. intros j Hj. destruct (decide (j = n)) as [-> |]; [done |].
    apply IH. lia.
  - right. exists k, o. split; [lia | done].
Qed.

(** The loop stopping at attempt [k] (counted from 0): value, log of
    exchanges, page and clock. *)
Lemma poll_attempts_stops n w k o :
  k < n → o ≠ ObsPending → first_seen w k o →
  let r := poll_attempts key n image_uid w in
  fst r = exit_value o
  ∧ exchanges (snd r)
    = exchanges w ++ ((λ j, (req, net w j)) <$> seq 0 (S k))
  ∧ ui (snd r) = ui w ++ exit_events o
  ∧ slept (snd r) = slept w + 2 * k.
Proof.
  intros Hk Ho [Hobs Hp]. cbv zeta.
  replace n with (k + S (n - S k)) by lia.
  rewrite poll_attempts_skip by exact Hp.
  rewrite poll_attempts_step. cbv zeta.
  rewrite skip_net, Nat.add_0_r, Hobs.
  assert (Hex : exchanges (snd (http_exchange req (skip k req w)))
                = exchanges w ++ ((λ j, (req, net w j)) <$> seq 0 (S k))).
  { cbn [http_exchange snd exchanges]. rewrite skip_exchanges, skip_net.
    rewrite Nat.add_0_r, seq_S, fmap_app, <- app_assoc. reflexivity. }
  destruct o; try congruence; cbn [fst snd exit_value exit_events].
  all: repeat split; try exact Hex.
  all: cbn [http_exchange st_error snd ui slept];
    rewrite ?skip_ui, ?skip_slept, ?app_nil_r; reflexivity.
Qed.

(** The loop running out of attempts. *)
Lemma poll_attempts_exhausted n w :
  (∀ j, j < n → observe (net w j) = ObsPending) →
  let r := poll_attempts key n image_uid w in
  fst r = Return PyNone
  ∧ exchanges (snd r) = exchanges w ++ ((λ j, (req, net w j)) <$> seq 0 n)
  ∧ ui (snd r)
    = ui w ++ [StWarning "Image generation is taking longer than expected."]
  ∧ slept (snd r) = slept w + 2 * n.
Proof.
  intros Hp. cbv zeta.
  pose proof (poll_attempts_skip n 0 w Hp) as E.
  rewrite Nat.add_0_r in E. rewrite E.
  cbn [poll_attempts]. unfold bind, st_warning, ret. cbn [fst snd ui
    exchanges slept].
  rewrite skip_exchanges, skip_ui, skip_slept. done.
Qed.

End PollingLoop.

(** ** Reading the logs *)

Lemma calls_app w w' l :
  exchanges w' = exchanges w ++ l → calls w w' = length l.
Proof. unfold calls. intros ->. rewrite length_app. lia. Qed.

Lemma shown_app w w' l : ui w' = ui w ++ l → shown w w' = l.
Proof. unfold shown. intros ->. by rewrite drop_app_length. Qed.

Lemma observed_app w w' l :
  exchanges w' = exchanges w ++ l →
  observed w w' = (λ x, observe x.2) <$> l.
Proof. unfold observed. intros ->. by rewrite drop_app_length. Qed.

Lemma length_seq_log (req : http_request) (f : nat → http_result) c :
  length ((λ j, (req, f j)) <$> seq 0 c) = c.
Proof. by rewrite length_fmap, length_seq. Qed.

Lemma poll_for_image_completion_range key image_uid :
  Banner.poll_for_image_completion key image_uid
  = Banner.poll_attempts key 20 image_uid.
Proof. reflexivity. Qed.

Lemma failure_of_polling_failed e :
  failure_of_event (StError ("Polling failed: " +:+ e))
  = Some RenderTimeoutError.
Proof. cbn. destruct e; reflexivity. Qed.

Lemma failure_of_submit_failed e :
  failure_of_event (StError ("Failed to generate Bannerbear image: " +:+ e))
  = Some SubmissionError.
Proof. cbn. destruct e; reflexivity. Qed.

Lemma exit_value_locator o url :
  exit_value o = Return (PyStr url) → o = ObsCompleted (PyStr url).
Proof. destruct o; cbn; congruence. Qed.

(** ** The polling loop and its three exits *)

(** C1.  [poll_for_image_completion] returns an artifact locator exactly when
    a completed status is the first thing other than a status to wait on
    that the loop sees within its [n] attempts; the value returned is the
    [image_url_png] of that response, and the loop has then issued as many
    status fetches as the attempt's rank.  For the answers
    [pending, pending, completed] and 5 attempts: 3 fetches, and the URL of
    the third response; the same with the 20 attempts of the source. *)
Theorem poll_returns_locator_iff_completed_seen :
  ∀ key n image_uid w url,
    let r := Banner.poll_attempts key n image_uid w in
    (fst r = Return (PyStr url)
     ↔ ∃ k, k < n ∧ first_seen w k (ObsCompleted (PyStr url)))
    ∧ (∀ k u, k < n → first_seen w k (ObsCompleted u) →
         fst r = Return u ∧ calls w (snd r) = S k ∧ shown w (snd r) = [])
    ∧ (∀ dflt,
         let w0 := fresh_world (script [pending; pending; completed url] dflt) in
         let r5 := Banner.poll_attempts key 5 image_uid w0 in
         let r20 := Banner.poll_for_image_completion key image_uid w0 in
         fst r5 = Return (PyStr url) ∧ calls w0 (snd r5) = 3
         ∧ fst r20 = Return (PyStr url) ∧ calls w0 (snd r20) = 3).
Proof.
  intros key n image_uid w url. cbv zeta.
  assert (Hstop : ∀ k u, k < n → first_seen w k (ObsCompleted u) →
            fst (Banner.poll_attempts key n image_uid w) = Return u
            ∧ calls w (snd (Banner.poll_attempts key n image_uid w)) = S k
            ∧ shown w (snd (Banner.poll_attempts key n image_uid w)) = []).
  { intros k u Hk Hf.
    destruct (poll_attempts_stops key image_uid n w k (ObsCompleted u) Hk
                ltac:(discriminate) Hf) as (Hv & Hex & Hui & _).
    split; [exact Hv |]. split.
    - rewrite (calls_app _ _ _ Hex). apply length_seq_log.
    - apply (shown_app _ _ _ Hui). }
  split; [| split; [exact Hstop |]].
  - split.
    + intros Hr.
      destruct (first_terminal_dec n w) as [Hp | (k & o & Hk & Ho & Hf)].
      * destruct (poll_attempts_exhausted key image_uid n w Hp) as (Hv & _).
        congruence.
      * destruct (poll_attempts_stops key image_uid n w k o Hk Ho Hf)
          as (Hv & _).
        rewrite Hv in Hr.
        apply exit_value_locator in Hr. subst o. eauto.
    + intros (k & Hk & Hf). apply (Hstop k _ Hk Hf).
  - intros dflt. repeat split; reflexivity.
Qed.

Lemma poll_returns_locator_iff_completed_seen_witness :
  let w0 := fresh_world
              (script [pending; pending; completed "https://cdn.example/a.png"]
                 (RequestException "no answer")) in
  let r := Banner.poll_attempts "key" 5 (PyStr "job-1") w0 in
  (2 < 5 ∧ first_seen w0 2 (ObsCompleted (PyStr "https://cdn.example/a.png")))
  ∧ fst r = Return (PyStr "https://cdn.example/a.png")
  ∧ calls w0 (snd r) = 3 ∧ shown w0 (snd r) = [].
Proof.
  cbv zeta.
  assert (Hf : first_seen
                 (fresh_world
                    (script [pending; pending;
                             completed "https://cdn.example/a.png"]
                       (RequestException "no answer")))
                 2 (ObsCompleted (PyStr "https://cdn.example/a.png"))).
  { split; [reflexivity |].
    intros [| [| j]] Hj; [reflexivity | reflexivity | lia]. }
  split; [split; [lia | exact Hf] |].
  apply (poll_returns_locator_iff_completed_seen "key" 5 (PyStr "job-1") _
           "https://cdn.example/a.png"); [lia | exact Hf].
Defined.

(** C2.  When each of the [n] answers carries a status other than completed
    and failed, the loop issues exactly [n] status fetches and then gives up:
    it returns no locator and shows the warning of the exhausted loop, the
    exit the specification calls RenderTimeoutError with
    [attempts_made = max_attempts]. *)
Theorem poll_exhausts_all_attempts :
  ∀ key n image_uid w,
    (∀ j, j < n → observe (net w j) = ObsPending) →
    let r := Banner.poll_attempts key n image_uid w in
    fst r = Return PyNone
    ∧ calls w (snd r) = n
    ∧ shown w (snd r)
      = [StWarning "Image generation is taking longer than expected."]
    ∧ failure_shown w (snd r) = Some RenderTimeoutError.
Proof.
  intros key n image_uid w Hp. cbv zeta.
  destruct (poll_attempts_exhausted key image_uid n w Hp)
    as (Hv & Hex & Hui & _).
  split; [exact Hv |]. split; [| split].
  - rewrite (calls_app _ _ _ Hex). apply length_seq_log.
  - apply (shown_app _ _ _ Hui).
  - unfold failure_shown. rewrite (shown_app _ _ _ Hui). reflexivity.
Qed.

Lemma poll_exhausts_all_attempts_witness :
  let w0 := fresh_world (script [pending; pending; pending] (completed "late")) in
  let r := Banner.poll_attempts "key" 3 (PyStr "job-1") w0 in
  (∀ j, j < 3 → observe (net w0 j) = ObsPending)
  ∧ fst r = Return PyNone
  ∧ calls w0 (snd r) = 3
  ∧ shown w0 (snd r)
    = [StWarning "Image generation is taking longer than expected."]
  ∧ failure_shown w0 (snd r) = Some RenderTimeoutError.
Proof.
  cbv zeta.
  assert (Hp : ∀ j, j < 3 →
            observe (net (fresh_world
                            (script [pending; pending; pending]
                               (completed "late"))) j) = ObsPending).
  { intros [| [| [| j]]] Hj; [reflexivity | reflexivity | reflexivity | lia]. }
  split; [exact Hp |].
  exact (poll_exhausts_all_attempts "key" 3 (PyStr "job-1") _ Hp).
Defined.

(** C3.  A failed status at attempt [k] (counted from 0, the earlier answers
    being statuses to wait on) ends the loop there: [k + 1] status fetches,
    none after it, whatever is left of the range; no locator is returned and
    the page shows the provider-side failure, the exit the specification
    calls RenderFailedError. *)
Theorem poll_stops_on_failed :
  ∀ key n image_uid w k,
    k < n → first_seen w k ObsFailed →
    let r := Banner.poll_attempts key n image_uid w in
    fst r = Return PyNone
    ∧ calls w (snd r) = S k
    ∧ shown w (snd r)
      = [StError "Image generation failed on Bannerbear's side."]
    ∧ failure_shown w (snd r) = Some RenderFailedError.
Proof.
  intros key n image_uid w k Hk Hf. cbv zeta.
  destruct (poll_attempts_stops key image_uid n w k ObsFailed Hk
              ltac:(discriminate) Hf) as (Hv & Hex & Hui & _).
  split; [exact Hv |]. split; [| split].
  - rewrite (calls_app _ _ _ Hex). apply length_seq_log.
  - apply (shown_app _ _ _ Hui).
  - unfold failure_shown. rewrite (shown_app _ _ _ Hui). reflexivity.
Qed.

Lemma poll_stops_on_failed_witness :
  let w0 := fresh_world (script [pending; failed] pending) in
  let r := Banner.poll_attempts "key" 5 (PyStr "job-1") w0 in
  (1 < 5 ∧ first_seen w0 1 ObsFailed)
  ∧ fst r = Return PyNone
  ∧ calls w0 (snd r) = 2
  ∧ shown w0 (snd r)
    = [StError "Image generation failed on Bannerbear's side."]
  ∧ failure_shown w0 (snd r) = Some RenderFailedError.
Proof.
  cbv zeta.
  assert (Hf : first_seen (fresh_world (script [pending; failed] pending))
                 1 ObsFailed).
  { split; [reflexivity |]. intros [| j] Hj; [reflexivity | lia]. }
  split; [split; [lia | exact Hf] |].
  apply (poll_stops_on_failed "key" 5 (PyStr "job-1") _ 1); [lia | exact Hf].
Defined.

(** C4.  A status fetch that raises a [RequestException] at attempt [k]
    (counted from 0, so the attempt of rank [k + 1]) aborts the loop: [k + 1]
    fetches have been made and no other follows, no locator is returned and
    the page shows the polling error, which the specification files under
    RenderTimeoutError. *)
Theorem poll_aborts_on_transport_error :
  ∀ key n image_uid w k e,
    k < n →
    (∀ j, j < k → observe (net w j) = ObsPending) →
    net w k = RequestException e →
    let r := Banner.poll_attempts key n image_uid w in
    fst r = Return PyNone
    ∧ calls w (snd r) = S k
    ∧ shown w (snd r) = [StError ("Polling failed: " +:+ e)]
    ∧ failure_shown w (snd r) = Some RenderTimeoutError.
Proof.
  intros key n image_uid w k e Hk Hp He. cbv zeta.
  assert (Hf : first_seen w k (ObsTransportError e)).
  { split; [| exact Hp]. rewrite He. reflexivity. }
  destruct (poll_attempts_stops key image_uid n w k (ObsTransportError e) Hk
              ltac:(discriminate) Hf) as (Hv & Hex & Hui & _).
  split; [exact Hv |]. split; [| split].
  - rewrite (calls_app _ _ _ Hex). apply length_seq_log.
  - apply (shown_app _ _ _ Hui).
  - unfold failure_shown. rewrite (shown_app _ _ _ Hui).
    apply failure_of_polling_failed.
Qed.

Lemma poll_aborts_on_transport_error_witness :
  let w0 := fresh_world
              (script [pending; RequestException "connection reset"] pending) in
  let r := Banner.poll_for_image_completion "key" (PyStr "job-1") w0 in
  (1 < 20
   ∧ (∀ j, j < 1 → observe (net w0 j) = ObsPending)
   ∧ net w0 1 = RequestException "connection reset")
  ∧ fst r = Return PyNone
  ∧ calls w0 (snd r) = 2
  ∧ shown w0 (snd r) = [StError "Polling failed: connection reset"]
  ∧ failure_shown w0 (snd r) = Some RenderTimeoutError.
Proof.
  cbv zeta.
  assert (Hp : ∀ j, j < 1 →
            observe (net (fresh_world
                            (script [pending;
                                     RequestException "connection reset"]
                               pending)) j) = ObsPending).
  { intros [| j] Hj; [reflexivity | lia]. }
  split; [split; [lia | split; [exact Hp | reflexivity]] |].
  apply (poll_aborts_on_transport_error "key" 20 (PyStr "job-1") _ 1
           "connection reset"); [lia | exact Hp | reflexivity].
Defined.

(** C10.  The subscripts [data["status"]] and [data["image_url_png"]] are not
    guarded: a JSON object without the ["status"] key, or one that reports
    completed without an ["image_url_png"] key, makes the loop raise
    [KeyError], which the [except RequestException] clause does not catch; no
    value is returned and nothing is shown on the page. *)
Theorem poll_raises_key_error :
  ∀ key n image_uid w k d,
    k < n →
    (∀ j, j < k → observe (net w j) = ObsPending) →
    net w k = JsonBody (PyDict d) →
    let r := Banner.poll_attempts key n image_uid w in
    (d !! "status" = None →
       fst r = Raise (KeyError "status") ∧ shown w (snd r) = [])
    ∧ (d !! "status" = Some (PyStr "completed") →
       d !! "image_url_png" = None →
       fst r = Raise (KeyError "image_url_png") ∧ shown w (snd r) = []).
Proof.
  intros key n image_uid w k d Hk Hp Hd. cbv zeta.
  assert (Hraise : ∀ missing, observe (net w k) = ObsMalformed (KeyError missing) →
            fst (Banner.poll_attempts key n image_uid w)
              = Raise (KeyError missing)
            ∧ shown w (snd (Banner.poll_attempts key n image_uid w)) = []).
  { intros missing Hobs.
    destruct (poll_attempts_stops key image_uid n w k
                (ObsMalformed (KeyError missing)) Hk ltac:(discriminate)
                (conj Hobs Hp)) as (Hv & _ & Hui & _).
    split; [exact Hv | apply (shown_app _ _ _ Hui)]. }
  split.
  - intros Hs. apply Hraise. rewrite Hd. cbn. rewrite Hs. reflexivity.
  - intros Hs Hu. apply Hraise. rewrite Hd. cbn. rewrite Hs. cbn.
    rewrite Hu. reflexivity.
Qed.

Lemma poll_raises_key_error_witness :
  let no_status : gmap string pyval := {[ "uid" := PyStr "job-1" ]} in
  let no_url : gmap string pyval := {[ "status" := PyStr "completed" ]} in
  let w1 := fresh_world (script [JsonBody (PyDict no_status)] pending) in
  let w2 := fresh_world (script [pending; JsonBody (PyDict no_url)] pending) in
  (no_status !! "status" = None
   ∧ fst (Banner.poll_for_image_completion "key" (PyStr "job-1") w1)
     = Raise (KeyError "status"))
  ∧ (no_url !! "status" = Some (PyStr "completed")
     ∧ no_url !! "image_url_png" = None
     ∧ fst (Banner.poll_for_image_completion "key" (PyStr "job-1") w2)
       = Raise (KeyError "image_url_png")).
Proof.
  cbv zeta. split.
  - split; [reflexivity |].
    apply (poll_raises_key_error "key" 20 (PyStr "job-1") _ 0
             {[ "uid" := PyStr "job-1" ]});
      [lia | intros j Hj; lia | reflexivity | reflexivity].
  - split; [reflexivity | split; [reflexivity |]].
    apply (poll_raises_key_error "key" 20 (PyStr "job-1") _ 1
             {[ "status" := PyStr "completed" ]});
      [lia | intros [| j] Hj; [reflexivity | lia] | reflexivity
      | reflexivity | reflexivity].
Defined.

(** ** The statuses the loop goes through *)

Lemma observed_seq_log (req : http_request) (f : nat → http_result) c :
  (λ x : http_request * http_result, observe x.2)
    <$> ((λ j, (req, f j)) <$> seq 0 c)
  = (λ j, observe (f j)) <$> seq 0 c.
Proof. rewrite <- list_fmap_compose. reflexivity. Qed.

Lemma observed_pending_prefix (f : nat → http_result) k :
  (∀ j, j < k → observe (f j) = ObsPending) →
  (λ j, observe (f j)) <$> seq 0 k = replicate k ObsPending.
Proof.
  induction k as [| k IH]; intros Hp; [reflexivity |].
  rewrite seq_S, fmap_app, IH by (intros j Hj; apply Hp; lia).
  cbn [fmap list_fmap Nat.add]. rewrite Hp by lia.
  by rewrite replicate_S_end.
Qed.

(** What the loop has seen when it ends: statuses to wait on, then at most
    one other thing. *)
Lemma poll_attempts_observed key n image_uid w :
  let tr := observed w (snd (Banner.poll_attempts key n image_uid w)) in
  tr = replicate n ObsPending
  ∨ ∃ k o, k < n ∧ o ≠ ObsPending ∧ tr = replicate k ObsPending ++ [o].
Proof.
  cbv zeta.
  destruct (first_terminal_dec n w) as [Hp | (k & o & Hk & Ho & Hf)].
  - left.
    destruct (poll_attempts_exhausted key image_uid n w Hp) as (_ & Hex & _).
    rewrite (observed_app _ _ _ Hex), observed_seq_log.
    by apply observed_pending_prefix.
  - right. exists k, o. split; [exact Hk |]. split; [exact Ho |].
    destruct (poll_attempts_stops key image_uid n w k o Hk Ho Hf)
      as (_ & Hex & _).
    rewrite (observed_app _ _ _ Hex), observed_seq_log.
    destruct Hf as [Hobs Hp].
    rewrite seq_S, fmap_app, (observed_pending_prefix _ _ Hp).
    cbn. by rewrite Hobs.
Qed.

Lemma omap_status_pending k :
  omap status_of (replicate k ObsPending) = replicate k Pending.
Proof. induction k as [| k IH]; [reflexivity |]. cbn. by rewrite IH. Qed.

Lemma transitions_cons a b l :
  transitions (a :: b :: l) = (a, b) :: transitions (b :: l).
Proof. reflexivity. Qed.

Lemma length_transitions l : length (transitions l) = length l - 1.
Proof.
  unfold transitions. rewrite length_zip.
  destruct l as [| a l]; [reflexivity |]. cbn [tail length]. lia.
Qed.

Lemma transitions_from_pending k x :
  length x ≤ 1 →
  Forall (λ p, transition p.1 p.2) (transitions (replicate k Pending ++ x)).
Proof.
  intros Hx. induction k as [| k IH].
  - destruct x as [| a [| b x]]; cbn in *; [constructor | constructor | lia].
  - cbn [replicate app].
    destruct (replicate k Pending ++ x) as [| b l] eqn:E; [constructor |].
    rewrite transitions_cons. constructor; [| exact IH].
    cbn. destruct b; constructor.
Qed.

(** C7.  Take the statuses the loop reads off its successive fetches.  Every
    step from one to the next starts in pending and is one of
    pending → completed, pending → failed, pending → pending; there are at
    most [n - 1] steps in all, so at most that many self-loops; and a
    response that is not a status to wait on is the last one fetched: no
    request follows a completed or a failed status. *)
Theorem poll_status_transitions :
  ∀ key n image_uid w,
    let tr := observed w (snd (Banner.poll_attempts key n image_uid w)) in
    let statuses := omap status_of tr in
    Forall (λ p, transition p.1 p.2) (transitions statuses)
    ∧ length (transitions statuses) ≤ n - 1
    ∧ length tr ≤ n
    ∧ (∀ i o, tr !! i = Some o → o ≠ ObsPending → length tr = S i).
Proof.
  intros key n image_uid w. cbv zeta.
  destruct (poll_attempts_observed key n image_uid w)
    as [-> | (k & o & Hk & Ho & ->)].
  - rewrite omap_status_pending. split; [| split; [| split]].
    + rewrite <- (app_nil_r (replicate n Pending)).
      apply transitions_from_pending. cbn. lia.
    + rewrite length_transitions, length_replicate. lia.
    + rewrite length_replicate. lia.
    + intros i o Hi Ho. apply lookup_replicate in Hi as [-> _]. done.
  - rewrite omap_app, omap_status_pending. split; [| split; [| split]].
    + apply transitions_from_pending. cbn. destruct (status_of o); cbn; lia.
    + rewrite length_transitions, length_app, length_replicate.
      cbn. destruct (status_of o); cbn; lia.
    + rewrite length_app, length_replicate. cbn. lia.
    + intros i o' Hi Ho'. rewrite length_app, length_replicate. cbn.
      apply lookup_app_Some in Hi as [Hi | [Hlen Hi]].
      * apply lookup_replicate in Hi as [-> _]. done.
      * rewrite length_replicate in Hlen, Hi.
        apply list_lookup_singleton_Some in Hi as [Hi _]. lia.
Qed.

Lemma poll_status_transitions_witness :
  let w0 := fresh_world (script [pending; failed] pending) in
  let tr := observed w0 (snd (Banner.poll_attempts "key" 5 (PyStr "job-1") w0)) in
  (tr !! 1 = Some ObsFailed ∧ ObsFailed ≠ ObsPending)
  ∧ length tr = 2
  ∧ transitions (omap status_of tr) = [(Pending, Failed)].
Proof.
  cbv zeta. split; [split; [reflexivity | discriminate] |]. split.
  - apply (proj2 (proj2 (proj2
             (poll_status_transitions "key" 5 (PyStr "job-1")
                (fresh_world (script [pending; failed] pending)))))
             1 ObsFailed); [reflexivity | discriminate].
  - reflexivity.
Defined.

(** ** Field updates *)

Section FieldUpdate.

Import Banchat.

Variable fc : function_call.
Variable layer_name : pyval.

Lemma first_match_in_here objs l rest :
  name_matches layer_name (objs l) →
  first_match_in objs (l :: rest) layer_name l.
Proof.
  intros Hm. exists 0. split; [reflexivity |]. split; [exact Hm |].
  intros j l' Hj. lia.
Qed.

Lemma first_match_in_later objs l rest l' :
  ¬ name_matches layer_name (objs l) →
  first_match_in objs rest layer_name l' →
  first_match_in objs (l :: rest) layer_name l'.
Proof.
  intros Hn (i & Hi & Hm & Hfirst). exists (S i).
  split; [exact Hi |]. split; [exact Hm |].
  intros [| j] l'' Hj Hl''; cbn in Hl''.
  - by injection Hl'' as <-.
  - apply (Hfirst j); [lia | exact Hl''].
Qed.

Lemma name_matches_getitem d v :
  py_getitem (PyDict d) "name" = Return v →
  py_eq v layer_name = true → name_matches layer_name d.
Proof.
  cbn. destruct (d !! "name") as [x |] eqn:E; [| discriminate].
  intros [= ->] Heq. by exists v.
Qed.

Lemma not_name_matches_getitem d v :
  py_getitem (PyDict d) "name" = Return v →
  py_eq v layer_name = false → ¬ name_matches layer_name d.
Proof.
  cbn. destruct (d !! "name") as [x |] eqn:E; [| discriminate].
  intros [= ->] Heq (v' & Hv' & Heq'). congruence.
Qed.

(** One iteration of the loop of [handle_gemini_function_call]. *)
Lemma update_first_layer_cons l rest s :
  update_first_layer layer_name fc (l :: rest) s =
  match py_getitem (PyDict (objects s l)) "name" with
  | Raise exn => (Raise exn, s)
  | Return v =>
      if py_eq v layer_name then
        (Return true,
         {| messages := messages s
                        ++ [{| role := "assistant";
                               body := UpdatedLayer layer_name |}];
            selected_template_details := selected_template_details s;
            current_modifications := current_modifications s;
            objects := match written fc with
                       | Some (key, value) =>
                           <[l := <[key := value]> (objects s l)]> (objects s)
                       | None => objects s
                       end |})
      else update_first_layer layer_name fc rest s
  end.
Proof.
  cbn [update_first_layer]. unfold bind at 1, gets at 1. cbv beta iota.
  unfold bind at 1, eval at 1.
  destruct (py_getitem (PyDict (objects s l)) "name") as [v | exn];
    [| reflexivity].
  destruct (py_eq v layer_name); [| reflexivity].
  unfold written.
  destruct (args fc !! "new_text") as [t |]; [reflexivity |].
  destruct (args fc !! "new_image_url") as [u |]; [reflexivity |].
  destruct s; reflexivity.
Qed.

(** The loop leaves the list, the template and every object but the first
    match alone; the first match gets at most the one key of [written]. *)
Lemma update_first_layer_effect mods s :
  let s' := snd (update_first_layer layer_name fc mods s) in
  current_modifications s' = current_modifications s
  ∧ selected_template_details s' = selected_template_details s
  ∧ ∀ l, objects s' l = objects s l
         ∨ (first_match_in (objects s) mods layer_name l
            ∧ ∃ key v, written fc = Some (key, v)
                       ∧ objects s' l = <[key := v]> (objects s l)).
Proof.
  cbv zeta. induction mods as [| l rest IH].
  - cbn. auto.
  - rewrite update_first_layer_cons.
    destruct (py_getitem (PyDict (objects s l)) "name") as [v | exn] eqn:Hn;
      [| cbn; auto].
    destruct (py_eq v layer_name) eqn:Heq.
    + pose proof (name_matches_getitem _ _ Hn Heq) as Hm.
      cbn [snd current_modifications selected_template_details objects].
      split; [reflexivity |]. split; [reflexivity |]. intros l'.
      destruct (written fc) as [[key value] |]; [| by left].
      destruct (decide (l = l')) as [<- | Hne].
      * right. split; [by apply first_match_in_here |].
        exists key, value. by rewrite fn_lookup_insert.
      * left. by rewrite fn_lookup_insert_ne.
    + pose proof (not_name_matches_getitem _ _ Hn Heq) as Hm.
      destruct IH as (Hc & Hd & Ho). split; [exact Hc |].
      split; [exact Hd |]. intros l'.
      destruct (Ho l') as [Hsame | (Hf & Hw)]; [by left |].
      right. split; [| exact Hw]. by apply first_match_in_later.
Qed.

End FieldUpdate.

Lemma handle_gemini_function_call_unfold fc s :
  Banchat.handle_gemini_function_call fc s =
  match Banchat.update_first_layer (layer_of fc) fc
          (Banchat.current_modifications s) s with
  | (Return true, s1) => (Return tt, s1)
  | (Return false, s1) =>
      Banchat.append_message (Banchat.LayerNotFound (layer_of fc)) s1
  | (Raise e, s1) => (Raise e, s1)
  end.
Proof.
  unfold Banchat.handle_gemini_function_call, layer_of, bind, Banchat.gets.
  destruct (Banchat.update_first_layer _ fc _ s) as [[[|] | e] s1];
    reflexivity.
Qed.

Lemma handle_gemini_function_call_effect fc s :
  let s' := snd (Banchat.handle_gemini_function_call fc s) in
  Banchat.current_modifications s' = Banchat.current_modifications s
  ∧ Banchat.selected_template_details s' = Banchat.selected_template_details s
  ∧ ∀ l, Banchat.objects s' l = Banchat.objects s l
         ∨ (first_match s (layer_of fc) l
            ∧ ∃ key v, written fc = Some (key, v)
                       ∧ Banchat.objects s' l
                         = <[key := v]> (Banchat.objects s l)).
Proof.
  cbv zeta. rewrite handle_gemini_function_call_unfold.
  pose proof (update_first_layer_effect fc (layer_of fc)
                (Banchat.current_modifications s) s) as H.
  cbv zeta in H.
  destruct (Banchat.update_first_layer (layer_of fc) fc
              (Banchat.current_modifications s) s) as [[[|] | exn] s1];
    cbn [snd] in H |- *; exact H.
Qed.

Lemma written_key_cases fc key v :
  written fc = Some (key, v) → key = "text" ∨ key = "image_url".
Proof.
  unfold written. destruct (Banchat.args fc !! "new_text").
  - intros [= <- _]. by left.
  - destruct (Banchat.args fc !! "new_image_url"); [| discriminate].
    intros [= <- _]. by right.
Qed.

Lemma clean_mod_lookup d k v :
  Banchat.clean_mod d !! k = Some v ↔ d !! k = Some v ∧ v ≠ PyNone.
Proof.
  unfold Banchat.clean_mod. rewrite map_lookup_filter_Some. cbn.
  split; intros [H1 H2]; (split; [exact H1 |]).
  - intros ->. discriminate.
  - by destruct v.
Qed.

Lemma clean_mod_insert_ne d key v k :
  k ≠ key →
  Banchat.clean_mod (<[key := v]> d) !! k = Banchat.clean_mod d !! k.
Proof.
  intros Hne. apply option_eq. intros x.
  rewrite !clean_mod_lookup, lookup_insert_ne by done. reflexivity.
Qed.

Lemma final_modifications_lookup s i l :
  Banchat.current_modifications s !! i = Some l →
  Banchat.final_modifications s !! i
  = Some (Banchat.clean_mod (Banchat.objects s l)).
Proof.
  intros H. unfold Banchat.final_modifications.
  by rewrite list_lookup_fmap, H.
Qed.

(** C9.  A field update leaves the list of modifications as it is and
    changes no modification other than the first one whose name equals the
    requested layer name; in that one it changes at most the key it writes.
    When no modification has that name, every modification is as before. *)
Theorem field_update_frame :
  ∀ fc s,
    let s' := snd (Banchat.handle_gemini_function_call fc s) in
    Banchat.current_modifications s' = Banchat.current_modifications s
    ∧ (∀ l, ¬ first_match s (layer_of fc) l →
            Banchat.objects s' l = Banchat.objects s l)
    ∧ ((∀ l, l ∈ Banchat.current_modifications s →
             ¬ name_matches (layer_of fc) (Banchat.objects s l)) →
       ∀ l, Banchat.objects s' l = Banchat.objects s l)
    ∧ (∀ l key, (∀ v, written fc ≠ Some (key, v)) →
                Banchat.objects s' l !! key = Banchat.objects s l !! key).
Proof.
  intros fc s. cbv zeta.
  destruct (handle_gemini_function_call_effect fc s) as (Hc & _ & Ho).
  split; [exact Hc |].
  assert (Hframe : ∀ l, ¬ first_match s (layer_of fc) l →
            Banchat.objects (snd (Banchat.handle_gemini_function_call fc s)) l
            = Banchat.objects s l).
  { intros l Hn. destruct (Ho l) as [H | [H _]]; [exact H | done]. }
  split; [exact Hframe |]. split.
  - intros Hnone l. apply Hframe. intros (i & Hi & Hm & _).
    apply (Hnone l); [| exact Hm]. apply list_elem_of_lookup. eauto.
  - intros l key Hk. destruct (Ho l) as [-> | (_ & k & v & Hw & ->)];
      [reflexivity |].
    apply lookup_insert_ne. intros ->. by apply (Hk v).
Qed.

Lemma field_update_frame_witness :
  let s := Examples.two_layers in
  let s1 := snd (Banchat.handle_gemini_function_call Examples.set_title_text s) in
  let s2 := snd (Banchat.handle_gemini_function_call Examples.set_footer_text s) in
  (¬ first_match s (layer_of Examples.set_title_text) 1
   ∧ Banchat.objects s1 1 = Banchat.objects s 1
   ∧ Banchat.objects s1 0 !! "text" = Some (PyStr "Welcome"))
  ∧ ((∀ l, l ∈ Banchat.current_modifications s →
           ¬ name_matches (layer_of Examples.set_footer_text)
               (Banchat.objects s l))
     ∧ ∀ l, Banchat.objects s2 l = Banchat.objects s l).
Proof.
  cbv zeta.
  assert (Hphoto : ¬ name_matches (PyStr "title") Examples.photo_layer).
  { intros (v & Hv & Heq). vm_compute in Hv. injection Hv as <-.
    vm_compute in Heq. discriminate. }
  assert (H1 : ¬ first_match Examples.two_layers
                   (layer_of Examples.set_title_text) 1).
  { intros (i & Hi & Hm & _). exact (Hphoto Hm). }
  assert (H2 : ∀ l, l ∈ Banchat.current_modifications Examples.two_layers →
             ¬ name_matches (layer_of Examples.set_footer_text)
                 (Banchat.objects Examples.two_layers l)).
  { intros l Hl (v & Hv & Heq).
    apply list_elem_of_In in Hl. cbn in Hl.
    destruct Hl as [<- | [<- | []]]; vm_compute in Hv; injection Hv as <-;
      vm_compute in Heq; discriminate. }
  split; [split; [exact H1 | split; [| reflexivity]] | split; [exact H2 |]].
  - exact (proj1 (proj2 (field_update_frame Examples.set_title_text
                           Examples.two_layers)) 1 H1).
  - exact (proj1 (proj2 (proj2 (field_update_frame Examples.set_footer_text
                                  Examples.two_layers))) H2).
Defined.

(** C8, as stated, fails: the title carries a text; a call that gives it an
    image URL adds ["image_url"] and keeps ["text"], and the modification
    that would be submitted then carries both kinds. *)
Lemma field_update_breaks_one_kind : ¬ one_kind_preserved.
Proof.
  intros H. specialize (H Examples.set_title_image Examples.two_layers).
  assert (H0 : submission_one_kind Examples.two_layers).
  { repeat constructor; intros [[x Hx] [y Hy]]; vm_compute in Hx, Hy;
      discriminate. }
  specialize (H H0).
  pose proof (Forall_lookup_1 _ _ 0 _ H
                (final_modifications_lookup
                   (snd (Banchat.handle_gemini_function_call
                           Examples.set_title_image Examples.two_layers))
                   0 0 eq_refl)) as Hbad.
  apply Hbad. split; eexists; vm_compute; reflexivity.
Qed.

(** C8, amended.  One field update writes at most one of the two value
    kinds, [text] when [new_text] is supplied and otherwise [image_url], and
    touches no other key; it does not remove the other kind.  So the
    submitted modifications keep at most one value kind each provided the
    modification that is updated does not already carry the other kind. *)
Theorem field_update_one_kind :
  ∀ fc s,
    let s' := snd (Banchat.handle_gemini_function_call fc s) in
    (∀ l key, (∀ v, written fc ≠ Some (key, v)) →
              Banchat.objects s' l !! key = Banchat.objects s l !! key)
    ∧ (submission_one_kind s →
       (∀ l key v, first_match s (layer_of fc) l →
                   written fc = Some (key, v) →
                   Banchat.clean_mod (Banchat.objects s l) !! other_key key
                   = None) →
       submission_one_kind s').
Proof.
  intros fc s. cbv zeta.
  destruct (handle_gemini_function_call_effect fc s) as (Hc & _ & Ho).
  split.
  - intros l key Hk. destruct (Ho l) as [-> | (_ & k & v & Hw & ->)];
      [reflexivity |].
    apply lookup_insert_ne. intros ->. by apply (Hk v).
  - unfold submission_one_kind, Banchat.final_modifications.
    rewrite Hc, !Forall_fmap. intros Hinv Hother.
    eapply Forall_impl; [| exact Hinv]. intros l Hl.
    unfold compose in Hl |- *.
    destruct (Ho l) as [-> | (Hf & key & v & Hw & ->)]; [exact Hl |].
    specialize (Hother l key v Hf Hw).
    intros [[t Ht] [u Hu]].
    destruct (written_key_cases _ _ _ Hw) as [-> | ->].
    + rewrite clean_mod_insert_ne in Hu by done.
      cbn in Hother. congruence.
    + rewrite clean_mod_insert_ne in Ht by done.
      cbn in Hother. congruence.
Qed.

Lemma field_update_one_kind_witness :
  let s := Examples.two_layers in
  let fc := Examples.set_title_text in
  (submission_one_kind s
   ∧ (∀ l key v, first_match s (layer_of fc) l →
                 written fc = Some (key, v) →
                 Banchat.clean_mod (Banchat.objects s l) !! other_key key
                 = None))
  ∧ submission_one_kind (snd (Banchat.handle_gemini_function_call fc s)).
Proof.
  cbv zeta.
  assert (H0 : submission_one_kind Examples.two_layers).
  { repeat constructor; intros [[x Hx] [y Hy]]; vm_compute in Hx, Hy;
      discriminate. }
  assert (H1 : ∀ l key v,
             first_match Examples.two_layers
               (layer_of Examples.set_title_text) l →
             written Examples.set_title_text = Some (key, v) →
             Banchat.clean_mod (Banchat.objects Examples.two_layers l)
               !! other_key key = None).
  { intros l key v (i & Hi & _) Hw. vm_compute in Hw.
    injection Hw as <- <-.
    destruct i as [| [| i]]; cbn in Hi; [| | discriminate];
      injection Hi as <-; vm_compute; reflexivity. }
  split; [split; [exact H0 | exact H1] |].
  exact (proj2 (field_update_one_kind Examples.set_title_text
                  Examples.two_layers) H0 H1).
Defined.

(** ** Submission *)

Lemma handle_image_generation_exchanges key s w uid :
  py_truthy (Banchat.selected_template_details s) = true →
  py_getitem (Banchat.selected_template_details s) "uid" = Return uid →
  exchanges (snd (Banchat.handle_image_generation key (s, w))).2
  = exchanges w
    ++ [(job_creation key uid
           (PyList (PyDict <$> Banchat.final_modifications s)),
         net w 0)].
Proof.
  intros Ht Hu.
  cbv [Banchat.handle_image_generation bind Banchat.in_session
       Banchat.in_world Banchat.gets Banchat.append_message eval ret
       Banchat.create_image http_exchange fst snd].
  rewrite Ht. cbv [negb]. rewrite Hu.
  destruct (net w 0) as [e | data]; [reflexivity |].
  destruct (py_truthy data); reflexivity.
Qed.








(** ** Failures *)

(** The submission phase of the chat handler once a template is selected,
    in terms of the one call of [create_image]. *)
Lemma handle_image_generation_submits key s w uid :
  py_truthy (Banchat.selected_template_details s) = true →
  py_getitem (Banchat.selected_template_details s) "uid" = Return uid →
  Banchat.handle_image_generation key (s, w) =
  let c := Banchat.create_image key uid
             (PyList (PyDict <$> Banchat.final_modifications s)) w in
  match fst c with
  | Raise e =>
      (Raise e,
       (Rendering.with_messages s [Banchat.GeneratingImage], snd c))
  | Return initial_response =>
      if py_truthy initial_response then
        (Return (Some initial_response),
         (Rendering.with_messages s [Banchat.GeneratingImage], snd c))
      else
        (Return None,
         (Rendering.with_messages s
            [Banchat.GeneratingImage; Banchat.FailedToStart], snd c))
  end.
Proof.
  intros Ht Hu. cbv zeta.
  cbv [Banchat.handle_image_generation bind Banchat.in_session
       Banchat.in_world Banchat.gets Banchat.append_message eval ret
       fst snd].
  rewrite Ht. cbv [negb]. rewrite Hu.
  unfold Banchat.final_modifications, Rendering.with_messages.
  cbn [Banchat.current_modifications Banchat.objects Banchat.messages
       Banchat.selected_template_details fmap list_fmap].
  destruct (Banchat.create_image key uid _ w) as [[data | e] w1];
    [| reflexivity].
  destruct (py_truthy data); [reflexivity |].
  cbn [Banchat.current_modifications Banchat.objects Banchat.messages
       Banchat.selected_template_details].
  by rewrite <- app_assoc.
Qed.

(** The two failing ends of the chat handler. *)
Lemma handle_image_generation_not_started
    poll_for_image requests_get_content key a uid initial_response w1 :
  let s := Rendering.session a in
  py_truthy (Banchat.selected_template_details s) = true →
  py_getitem (Banchat.selected_template_details s) "uid" = Return uid →
  Banchat.create_image key uid
    (PyList (PyDict <$> Banchat.final_modifications s)) (Rendering.outside a)
  = (Return initial_response, w1) →
  py_truthy initial_response = false →
  Rendering.handle_image_generation poll_for_image requests_get_content key a
  = (Ends tt,
     {| Rendering.session :=
          Rendering.with_messages s
            [Banchat.GeneratingImage; Banchat.FailedToStart];
        Rendering.download_image := Rendering.download_image a;
        Rendering.outside := w1 |}).
Proof.
  cbv zeta. intros Ht Hu Hc Hf.
  unfold Rendering.handle_image_generation, andthen, run,
    Rendering.on_session.
  rewrite (handle_image_generation_submits key _ _ uid Ht Hu). cbv zeta.
  rewrite Hc. cbn [fst snd]. rewrite Hf. reflexivity.
Qed.

Lemma handle_image_generation_not_retrieved
    poll_for_image requests_get_content key a uid initial_response w1
    final_image w2 :
  let s := Rendering.session a in
  py_truthy (Banchat.selected_template_details s) = true →
  py_getitem (Banchat.selected_template_details s) "uid" = Return uid →
  Banchat.create_image key uid
    (PyList (PyDict <$> Banchat.final_modifications s)) (Rendering.outside a)
  = (Return initial_response, w1) →
  py_truthy initial_response = true →
  poll_for_image key initial_response w1 = (Return final_image, w2) →
  Rendering.no_image final_image →
  Rendering.handle_image_generation poll_for_image requests_get_content key a
  = (Ends tt,
     {| Rendering.session :=
          Rendering.with_messages s
            [Banchat.GeneratingImage; Banchat.GenerationFailed];
        Rendering.download_image := Rendering.download_image a;
        Rendering.outside := w2 |}).
Proof.
  cbv zeta. intros Ht Hu Hc Hi Hp Hno.
  assert (Hr : Rendering.retrieved final_image = Ends false).
  { unfold Rendering.retrieved.
    destruct Hno as [-> | (d & -> & Hd)]; [reflexivity |].
    cbn [Rendering.py_get]. rewrite Hd.
    by destruct (py_truthy (PyDict d)). }
  unfold Rendering.handle_image_generation, andthen at 1, run at 1,
    Rendering.on_session at 1.
  rewrite (handle_image_generation_submits key _ _ uid Ht Hu). cbv zeta.
  rewrite Hc. cbn [fst snd]. rewrite Hi.
  unfold Rendering.render_image, andthen, run, Rendering.on_session,
    Banchat.in_world, Rendering.say, Banchat.in_session,
    Banchat.append_message.
  cbn [fst snd Rendering.session Rendering.outside Rendering.download_image].
  rewrite Hp, Hr. cbn [fst snd Rendering.session Rendering.outside
    Rendering.download_image].
  unfold Rendering.with_messages, run, Rendering.on_session.
  cbn [fst snd Rendering.session Rendering.outside Rendering.download_image
       Banchat.current_modifications Banchat.objects Banchat.messages
       Banchat.selected_template_details fmap list_fmap].
  by rewrite <- app_assoc.
Qed.

(** C5, as stated, fails: with a provider that answers failed at once, and
    with one that answers pending twenty times, [poll_for_image_completion]
    returns [None] both times, so no reading of the returned value tells a
    provider-side failure from a timeout. *)
Lemma returned_value_hides_failure_kind : ¬ failure_typed_by_value.
Proof.
  intros [classify H].
  pose proof (H "key" 20 (PyStr "job-1")
                (fresh_world (script [failed] pending))) as H1.
  pose proof (H "key" 20 (PyStr "job-1")
                (fresh_world (script [] pending))) as H2.
  vm_compute in H1, H2. congruence.
Qed.

(** C5, amended.  The failures are not typed values.  In [banner/app.py]
    every failure returns [None] after one page message: a failed status
    makes the polling loop return [None] after the provider-side failure
    message, a transport error after the polling error, exhausted attempts
    after the warning, and a failed submission makes
    [generate_bannerbear_image] return [None] after the generation error.
    The message is the only trace of the kind, and it is a faithful one:
    each of these messages is shown on its failure only.  In the chat
    front-end [handle_image_generation] returns nothing either way: a falsy
    answer of [create_image] ends in the "Failed to start" message, and
    every answer of [poll_for_image] that carries no image ends in the one
    "Image generation failed" message, whatever made the rendering fail. *)
Theorem failures_return_none :
  ∀ key,
    (∀ n image_uid w,
       let r := Banner.poll_attempts key n image_uid w in
       (∀ k, k < n → first_seen w k ObsFailed →
             fst r = Return PyNone
             ∧ shown w (snd r)
               = [StError "Image generation failed on Bannerbear's side."]
             ∧ failure_shown w (snd r) = Some RenderFailedError)
       ∧ (∀ k e, k < n → first_seen w k (ObsTransportError e) →
                 fst r = Return PyNone
                 ∧ shown w (snd r) = [StError ("Polling failed: " +:+ e)]
                 ∧ failure_shown w (snd r) = Some RenderTimeoutError)
       ∧ ((∀ j, j < n → observe (net w j) = ObsPending) →
          fst r = Return PyNone
          ∧ shown w (snd r)
            = [StWarning "Image generation is taking longer than expected."]
          ∧ failure_shown w (snd r) = Some RenderTimeoutError)
       ∧ (∀ kind,
            failure_shown w (snd r) = Some kind →
            fst r = Return PyNone
            ∧ ((kind = RenderFailedError
                ∧ ∃ k, k < n ∧ first_seen w k ObsFailed)
               ∨ (kind = RenderTimeoutError
                  ∧ ((∃ k e, k < n ∧ first_seen w k (ObsTransportError e))
                     ∨ ∀ j, j < n → observe (net w j) = ObsPending)))))
    ∧ (∀ template_id modifications w,
         let g := Banner.generate_bannerbear_image key template_id
                    modifications w in
         (∀ e, net w 0 = RequestException e →
               fst g = Return PyNone
               ∧ shown w (snd g)
                 = [StError ("Failed to generate Bannerbear image: " +:+ e)]
               ∧ failure_shown w (snd g) = Some SubmissionError)
         ∧ (∀ kind,
              failure_shown w (snd g) = Some kind →
              fst g = Return PyNone
              ∧ kind = SubmissionError
              ∧ ∃ e, net w 0 = RequestException e))
    ∧ (∀ poll_for_image requests_get_content a uid initial_response w1,
         let s := Rendering.session a in
         let h := Rendering.handle_image_generation poll_for_image
                    requests_get_content key a in
         py_truthy (Banchat.selected_template_details s) = true →
         py_getitem (Banchat.selected_template_details s) "uid" = Return uid →
         Banchat.create_image key uid
           (PyList (PyDict <$> Banchat.final_modifications s))
           (Rendering.outside a)
         = (Return initial_response, w1) →
         (py_truthy initial_response = false →
          h = (Ends tt,
               {| Rendering.session :=
                    Rendering.with_messages s
                      [Banchat.GeneratingImage; Banchat.FailedToStart];
                  Rendering.download_image := Rendering.download_image a;
                  Rendering.outside := w1 |}))
         ∧ (∀ final_image w2,
              py_truthy initial_response = true →
              poll_for_image key initial_response w1
              = (Return final_image, w2) →
              Rendering.no_image final_image →
              h = (Ends tt,
                   {| Rendering.session :=
                        Rendering.with_messages s
                          [Banchat.GeneratingImage; Banchat.GenerationFailed];
                      Rendering.download_image := Rendering.download_image a;
                      Rendering.outside := w2 |}))).
Proof.
  intros key. split; [| split].
  - intros n image_uid w. cbv zeta.
    split; [| split; [| split]].
    + intros k Hk Hf.
      destruct (poll_attempts_stops key image_uid n w k ObsFailed Hk
                  ltac:(discriminate) Hf) as (Hv & _ & Hui & _).
      split; [exact Hv |]. unfold failure_shown.
      rewrite (shown_app _ _ _ Hui). split; reflexivity.
    + intros k e Hk Hf.
      destruct (poll_attempts_stops key image_uid n w k (ObsTransportError e)
                  Hk ltac:(discriminate) Hf) as (Hv & _ & Hui & _).
      split; [exact Hv |]. unfold failure_shown.
      rewrite (shown_app _ _ _ Hui). split; [reflexivity |].
      cbn [exit_events list.last]. apply failure_of_polling_failed.
    + intros Hp.
      destruct (poll_attempts_exhausted key image_uid n w Hp)
        as (Hv & _ & Hui & _).
      split; [exact Hv |]. unfold failure_shown.
      rewrite (shown_app _ _ _ Hui). split; reflexivity.
    + intros kind. unfold failure_shown.
      destruct (first_terminal_dec n w) as [Hp | (k & o & Hk & Ho & Hf)].
      * destruct (poll_attempts_exhausted key image_uid n w Hp)
          as (Hv & _ & Hui & _).
        rewrite (shown_app _ _ _ Hui). cbn. intros [= <-].
        split; [exact Hv |]. right. split; [reflexivity |]. by right.
      * destruct (poll_attempts_stops key image_uid n w k o Hk Ho Hf)
          as (Hv & _ & Hui & _).
        rewrite (shown_app _ _ _ Hui), Hv.
        destruct o as [u | | | e | exn];
          cbn [exit_events exit_value list.last];
          try discriminate; try congruence.
        -- cbn. intros [= <-]. split; [reflexivity |]. left. eauto.
        -- rewrite failure_of_polling_failed. intros [= <-].
           split; [reflexivity |]. right. split; [reflexivity |]. left.
           eauto.
  - intros template_id modifications w. cbv zeta. unfold failure_shown.
    unfold Banner.generate_bannerbear_image, bind, http_exchange.
    split.
    + intros e ->. cbn [fst snd st_error ret]. unfold shown. cbn [ui].
      rewrite drop_app_length. cbn [list.last].
      rewrite failure_of_submit_failed. done.
    + intros kind. destruct (net w 0) as [e | data].
      * cbn [fst snd st_error ret]. unfold shown. cbn [ui].
        rewrite drop_app_length. cbn [list.last].
        rewrite failure_of_submit_failed. intros [= <-]. eauto.
      * cbn [fst snd ret]. unfold shown. cbn [ui]. rewrite drop_all.
        discriminate.
  - intros poll_for_image requests_get_content a uid initial_response w1.
    cbv zeta. intros Ht Hu Hc. split.
    + intros Hf.
      by apply (handle_image_generation_not_started _ _ key a uid
                  initial_response w1).
    + intros final_image w2 Hi Hp Hno.
      by apply (handle_image_generation_not_retrieved _ _ key a uid
                  initial_response w1 final_image w2).
Qed.

Lemma failures_return_none_witness :
  let w1 := fresh_world (script [pending; failed] pending) in
  let w2 := fresh_world (script [RequestException "connection refused"] pending) in
  let w3 := fresh_world
              (script [JsonBody (PyDict {[ "uid" := PyStr "job-1" ]})]
                 pending) in
  let r := Banner.poll_for_image_completion "key" (PyStr "job-1") w1 in
  let t := Banner.poll_for_image_completion "key" (PyStr "job-1") w2 in
  let g := Banner.generate_bannerbear_image "key" (PyStr "tpl-1") (PyList []) w2 in
  let a := {| Rendering.session := Examples.two_layers;
              Rendering.download_image := None;
              Rendering.outside := w3 |} in
  let h := Rendering.handle_image_generation Rendering.reports_failed
             Rendering.no_host "key" a in
  (first_seen w1 1 ObsFailed
   ∧ fst r = Return PyNone
   ∧ failure_shown w1 (snd r) = Some RenderFailedError)
  ∧ (first_seen w2 0 (ObsTransportError "connection refused")
     ∧ fst t = Return PyNone
     ∧ failure_shown w2 (snd t) = Some RenderTimeoutError)
  ∧ (net w2 0 = RequestException "connection refused"
     ∧ fst g = Return PyNone
     ∧ failure_shown w2 (snd g) = Some SubmissionError)
  ∧ (Rendering.no_image
       (PyDict {[ "status" := PyStr "failed"; "uid" := PyStr "job-1" ]})
     ∧ fst h = Ends tt
     ∧ Banchat.messages (Rendering.session (snd h))
       = [ {| Banchat.role := "assistant";
              Banchat.body := Banchat.GeneratingImage |};
           {| Banchat.role := "assistant";
              Banchat.body := Banchat.GenerationFailed |} ]).
Proof.
  cbv zeta.
  assert (H1 : first_seen (fresh_world (script [pending; failed] pending)) 1
                 ObsFailed).
  { split; [reflexivity |]. intros j Hj.
    destruct j as [| j]; [reflexivity | lia]. }
  assert (H2 : first_seen
                 (fresh_world
                    (script [RequestException "connection refused"] pending))
                 0 (ObsTransportError "connection refused")).
  { split; [reflexivity |]. intros j Hj. lia. }
  assert (H3 : Rendering.no_image
                 (PyDict {[ "status" := PyStr "failed";
                            "uid" := PyStr "job-1" ]})).
  { right. eexists. split; reflexivity. }
  split; [| split; [| split]].
  - destruct (proj1 (proj1 (failures_return_none "key") 20 (PyStr "job-1")
                       (fresh_world (script [pending; failed] pending)))
                1 ltac:(lia) H1) as (Hv & _ & Hk).
    split; [exact H1 |]. split; [exact Hv | exact Hk].
  - destruct (proj1 (proj2 (proj1 (failures_return_none "key") 20
                              (PyStr "job-1")
                              (fresh_world
                                 (script
                                    [RequestException "connection refused"]
                                    pending))))
                0 "connection refused" ltac:(lia) H2) as (Hv & _ & Hk).
    split; [exact H2 |]. split; [exact Hv | exact Hk].
  - destruct (proj1 (proj1 (proj2 (failures_return_none "key"))
                       (PyStr "tpl-1") (PyList [])
                       (fresh_world
                          (script [RequestException "connection refused"]
                             pending)))
                "connection refused" ltac:(reflexivity)) as (Hv & _ & Hk).
    split; [reflexivity |]. split; [exact Hv | exact Hk].
  - split; [exact H3 |].
    rewrite (proj2 (proj2 (proj2 (failures_return_none "key"))
                      Rendering.reports_failed Rendering.no_host
                      {| Rendering.session := Examples.two_layers;
                         Rendering.download_image := None;
                         Rendering.outside :=
                           fresh_world
                             (script
                                [JsonBody (PyDict {[ "uid" := PyStr "job-1" ]})]
                                pending) |}
                      (PyStr "tpl-1") (PyDict {[ "uid" := PyStr "job-1" ]})
                      _ ltac:(reflexivity) ltac:(reflexivity)
                      ltac:(reflexivity))
               (PyDict {[ "status" := PyStr "failed";
                          "uid" := PyStr "job-1" ]})
               _ ltac:(reflexivity) ltac:(reflexivity) H3).
    split; reflexivity.
Defined.

(** * Further properties of the handlers *)

(** ** Field updates as a function of where the loop stops *)

Lemma update_first_layer_locate fc mods s :
  Banchat.update_first_layer (layer_of fc) fc mods s =
  match locate (layer_of fc) (Banchat.objects s) mods with
  | Raise e => (Raise e, s)
  | Return None => (Return false, s)
  | Return (Some l) => (Return true, after_update s fc l)
  end.
Proof.
  induction mods as [| l rest IH]; [reflexivity |].
  rewrite update_first_layer_cons. cbn [locate].
  destruct (py_getitem (PyDict (Banchat.objects s l)) "name") as [v | e];
    [| reflexivity].
  destruct (py_eq v (layer_of fc)); [reflexivity | exact IH].
Qed.

Lemma handle_gemini_function_call_locate fc s :
  Banchat.handle_gemini_function_call fc s =
  match locate (layer_of fc) (Banchat.objects s)
          (Banchat.current_modifications s) with
  | Raise e => (Raise e, s)
  | Return None => (Return tt, after_not_found s fc)
  | Return (Some l) => (Return tt, after_update s fc l)
  end.
Proof.
  rewrite handle_gemini_function_call_unfold, update_first_layer_locate.
  destruct (locate _ _ _) as [[l |] | e]; reflexivity.
Qed.

Lemma locate_raises layer_name objs mods e :
  locate layer_name objs mods = Raise e → e = KeyError "name".
Proof.
  induction mods as [| l rest IH]; cbn; [discriminate |].
  destruct (objs l !! "name") as [v |]; [| congruence].
  destruct (py_eq v layer_name); [discriminate | exact IH].
Qed.

Lemma locate_named layer_name objs mods :
  (∀ l, l ∈ mods → is_Some (objs l !! "name")) →
  ∃ r, locate layer_name objs mods = Return r.
Proof.
  induction mods as [| l rest IH]; intros Hn; cbn; [eauto |].
  destruct (Hn l) as [v ->]; [left |].
  destruct (py_eq v layer_name); [eauto |].
  apply IH. intros l' Hl'. apply Hn. by right.
Qed.

Lemma locate_some_elem layer_name objs mods l :
  locate layer_name objs mods = Return (Some l) →
  l ∈ mods ∧ name_matches layer_name (objs l).
Proof.
  induction mods as [| l0 rest IH]; cbn; [discriminate |].
  destruct (objs l0 !! "name") as [v |] eqn:Hv; [| discriminate].
  destruct (py_eq v layer_name) eqn:Heq.
  - intros [= <-]. split; [left | by exists v].
  - intros H. destruct (IH H) as [Hin Hm]. split; [by right | exact Hm].
Qed.

Lemma locate_none_no_match layer_name objs mods l :
  locate layer_name objs mods = Return None →
  l ∈ mods → ¬ name_matches layer_name (objs l).
Proof.
  induction mods as [| l0 rest IH]; cbn; [intros _ Hl; inversion Hl |].
  destruct (objs l0 !! "name") as [v |] eqn:Hv; [| discriminate].
  destruct (py_eq v layer_name) eqn:Heq; [discriminate |].
  intros H Hl. apply elem_of_cons in Hl as [-> | Hl]; [| by apply IH].
  intros (v' & Hv' & Heq'). congruence.
Qed.

(** The loop only reads the names. *)
Lemma locate_ext layer_name objs objs' mods :
  (∀ l, l ∈ mods → objs' l !! "name" = objs l !! "name") →
  locate layer_name objs' mods = locate layer_name objs mods.
Proof.
  induction mods as [| l rest IH]; intros Hn; cbn; [reflexivity |].
  rewrite Hn by left.
  destruct (objs l !! "name") as [v |]; [| reflexivity].
  destruct (py_eq v layer_name); [reflexivity |].
  apply IH. intros l' Hl'. apply Hn. by right.
Qed.

Lemma written_not_name fc key v : written fc = Some (key, v) → key ≠ "name".
Proof. intros H. by destruct (written_key_cases _ _ _ H) as [-> | ->]. Qed.

Lemma after_update_names s fc l l' :
  Banchat.objects (after_update s fc l) l' !! "name"
  = Banchat.objects s l' !! "name".
Proof.
  cbn. destruct (written fc) as [[key v] |] eqn:Hw; [| reflexivity].
  destruct (decide (l = l')) as [<- | Hne].
  - rewrite fn_lookup_insert. apply lookup_insert_ne.
    by apply written_not_name in Hw.
  - by rewrite fn_lookup_insert_ne.
Qed.

Lemma locate_first_match layer_name objs mods l :
  (∀ l', l' ∈ mods → is_Some (objs l' !! "name")) →
  first_match_in objs mods layer_name l →
  locate layer_name objs mods = Return (Some l).
Proof.
  induction mods as [| l0 rest IH]; intros Hn (i & Hi & Hm & Hfirst).
  - by rewrite lookup_nil in Hi.
  - cbn. destruct (Hn l0) as [v Hv]; [left |]. rewrite Hv.
    destruct i as [| i].
    + injection Hi as ->. destruct Hm as (v' & Hv' & Heq).
      rewrite Hv in Hv'. injection Hv' as <-. by rewrite Heq.
    + destruct (py_eq v layer_name) eqn:Heq.
      * exfalso. apply (Hfirst 0 l0); [lia | reflexivity |]. by exists v.
      * apply IH; [intros l' Hl'; apply Hn; by right |].
        exists i. split; [exact Hi |]. split; [exact Hm |].
        intros j l' Hj Hl'. apply (Hfirst (S j) l'); [lia | exact Hl'].
Qed.

Lemma named_after_update s fc l : named s → named (after_update s fc l).
Proof.
  intros Hn l' Hl'. rewrite after_update_names. by apply Hn.
Qed.

(** X1.  In a session whose modifications all have a name, a field update
    never raises, and the modifications all have a name afterwards: the
    handler can be called again and again. *)
Theorem field_update_total_on_named :
  ∀ fc s,
    named s →
    fst (Banchat.handle_gemini_function_call fc s) = Return tt
    ∧ named (snd (Banchat.handle_gemini_function_call fc s)).
Proof.
  intros fc s Hn. rewrite handle_gemini_function_call_locate.
  destruct (locate_named (layer_of fc) (Banchat.objects s)
              (Banchat.current_modifications s) Hn) as [[l |] ->];
    cbn [fst snd].
  - split; [reflexivity | by apply named_after_update].
  - split; [reflexivity | exact Hn].
Qed.

Lemma two_layers_named : named Examples.two_layers.
Proof.
  intros l Hl. apply list_elem_of_In in Hl. cbn in Hl.
  destruct Hl as [<- | [<- | []]]; eexists; reflexivity.
Defined.

Lemma field_update_total_on_named_witness :
  named Examples.two_layers
  ∧ fst (Banchat.handle_gemini_function_call Examples.set_footer_text
           Examples.two_layers) = Return tt.
Proof.
  split; [exact two_layers_named |].
  apply (field_update_total_on_named Examples.set_footer_text
           Examples.two_layers two_layers_named).
Defined.

(** X2.  Update, then read: when the session's modifications all have a name
    and [l] is the first one named as the call asks, the value of the call
    is what [l] holds under the written key afterwards, and the chat gains
    exactly the confirmation message. *)
Theorem field_update_then_read :
  ∀ fc s l key v,
    named s →
    first_match s (layer_of fc) l →
    written fc = Some (key, v) →
    let s' := snd (Banchat.handle_gemini_function_call fc s) in
    Banchat.objects s' l !! key = Some v
    ∧ Banchat.messages s'
      = Banchat.messages s
        ++ [{| Banchat.role := "assistant";
               Banchat.body := Banchat.UpdatedLayer (layer_of fc) |}].
Proof.
  intros fc s l key v Hn Hf Hw. cbv zeta.
  rewrite handle_gemini_function_call_locate.
  rewrite (locate_first_match _ _ _ l Hn Hf). cbn [snd after_update
    Banchat.objects Banchat.messages].
  rewrite Hw, fn_lookup_insert, lookup_insert_eq. done.
Qed.

Lemma title_first_in_two_layers :
  first_match Examples.two_layers (PyStr "title") 0.
Proof.
  exists 0. split; [reflexivity |]. split.
  - exists (PyStr "title"). split; reflexivity.
  - intros j l' Hj. lia.
Defined.

Lemma field_update_then_read_witness :
  (named Examples.two_layers
   ∧ first_match Examples.two_layers (layer_of Examples.set_title_text) 0
   ∧ written Examples.set_title_text = Some ("text", PyStr "Welcome"))
  ∧ Banchat.objects
      (snd (Banchat.handle_gemini_function_call Examples.set_title_text
              Examples.two_layers)) 0 !! "text"
    = Some (PyStr "Welcome").
Proof.
  split; [split; [exact two_layers_named
                 | split; [exact title_first_in_two_layers | reflexivity]] |].
  apply (field_update_then_read Examples.set_title_text Examples.two_layers
           0 "text" (PyStr "Welcome") two_layers_named
           title_first_in_two_layers eq_refl).
Defined.

(** X3.  A failing field update has no effect at all: when the handler
    raises, the exception is the [KeyError] of a modification without a
    ["name"], and the session, chat included, is exactly as before. *)
Theorem field_update_failure_is_clean :
  ∀ fc s e,
    fst (Banchat.handle_gemini_function_call fc s) = Raise e →
    e = KeyError "name"
    ∧ snd (Banchat.handle_gemini_function_call fc s) = s.
Proof.
  intros fc s e. rewrite handle_gemini_function_call_locate.
  destruct (locate _ _ _) as [[l |] | e'] eqn:Hl; cbn [fst snd];
    try discriminate.
  intros [= ->]. split; [| reflexivity]. exact (locate_raises _ _ _ _ Hl).
Qed.

Lemma field_update_failure_is_clean_witness :
  fst (Banchat.handle_gemini_function_call Examples.set_footer_text
         nameless_layer) = Raise (KeyError "name")
  ∧ snd (Banchat.handle_gemini_function_call Examples.set_footer_text
           nameless_layer) = nameless_layer.
Proof.
  split; [reflexivity |].
  apply (field_update_failure_is_clean Examples.set_footer_text
           nameless_layer (KeyError "name")). reflexivity.
Defined.

(** X4.  An unknown layer name changes nothing but the chat: with named
    modifications none of which has the requested name, the handler returns
    normally and the session is the old one plus the one "couldn't find a
    layer" message. *)
Theorem field_update_unknown_layer :
  ∀ fc s,
    named s →
    (∀ l, l ∈ Banchat.current_modifications s →
          ¬ name_matches (layer_of fc) (Banchat.objects s l)) →
    Banchat.handle_gemini_function_call fc s
    = (Return tt,
       {| Banchat.messages :=
            Banchat.messages s
            ++ [{| Banchat.role := "assistant";
                   Banchat.body := Banchat.LayerNotFound (layer_of fc) |}];
          Banchat.selected_template_details :=
            Banchat.selected_template_details s;
          Banchat.current_modifications := Banchat.current_modifications s;
          Banchat.objects := Banchat.objects s |}).
Proof.
  intros fc s Hn Hnone. rewrite handle_gemini_function_call_locate.
  destruct (locate_named (layer_of fc) (Banchat.objects s)
              (Banchat.current_modifications s) Hn) as [[l |] Hl];
    rewrite Hl; [| reflexivity].
  apply locate_some_elem in Hl as [Hin Hm]. destruct (Hnone l Hin Hm).
Qed.

Lemma field_update_unknown_layer_witness :
  (named Examples.two_layers
   ∧ ∀ l, l ∈ Banchat.current_modifications Examples.two_layers →
          ¬ name_matches (layer_of Examples.set_footer_text)
              (Banchat.objects Examples.two_layers l))
  ∧ Banchat.messages
      (snd (Banchat.handle_gemini_function_call Examples.set_footer_text
              Examples.two_layers))
    = [{| Banchat.role := "assistant";
          Banchat.body := Banchat.LayerNotFound (PyStr "footer") |}].
Proof.
  assert (H : ∀ l, l ∈ Banchat.current_modifications Examples.two_layers →
            ¬ name_matches (layer_of Examples.set_footer_text)
                (Banchat.objects Examples.two_layers l)).
  { intros l Hl (v & Hv & Heq). apply list_elem_of_In in Hl. cbn in Hl.
    destruct Hl as [<- | [<- | []]]; vm_compute in Hv; injection Hv as <-;
      vm_compute in Heq; discriminate. }
  split; [split; [exact two_layers_named | exact H] |].
  rewrite (field_update_unknown_layer Examples.set_footer_text
             Examples.two_layers two_layers_named H).
  reflexivity.
Defined.

(** X5.  Repeating a field update is harmless: the same call applied a
    second time leaves every modification as the first application left it
    (only the chat grows). *)
Theorem field_update_idempotent :
  ∀ fc s,
    let s1 := snd (Banchat.handle_gemini_function_call fc s) in
    let s2 := snd (Banchat.handle_gemini_function_call fc s1) in
    Banchat.current_modifications s2 = Banchat.current_modifications s1
    ∧ ∀ l, Banchat.objects s2 l = Banchat.objects s1 l.
Proof.
  intros fc s. cbv zeta. rewrite (handle_gemini_function_call_locate fc s).
  destruct (locate (layer_of fc) (Banchat.objects s)
              (Banchat.current_modifications s)) as [[l |] | e] eqn:Hl;
    cbn [snd]; rewrite handle_gemini_function_call_locate.
  - replace (locate (layer_of fc) (Banchat.objects (after_update s fc l))
               (Banchat.current_modifications (after_update s fc l)))
      with (Return (A:=option nat) (Some l)).
    2:{ rewrite <- Hl. symmetry. apply locate_ext.
        intros l' _. apply after_update_names. }
    cbn [snd]. split; [reflexivity |]. intros l'. cbn.
    destruct (written fc) as [[key v] |]; [| reflexivity].
    destruct (decide (l = l')) as [<- | Hne].
    + rewrite !fn_lookup_insert. apply insert_insert_eq.
    + by rewrite !fn_lookup_insert_ne.
  - change (Banchat.objects (after_not_found s fc)) with (Banchat.objects s).
    change (Banchat.current_modifications (after_not_found s fc))
      with (Banchat.current_modifications s).
    rewrite Hl. split; reflexivity.
  - rewrite Hl. split; reflexivity.
Qed.

(** X6.  [new_text] wins: when the call supplies a [new_text], no
    modification's ["image_url"] changes, whether or not a [new_image_url]
    came with it. *)
Theorem field_update_text_wins :
  ∀ fc s t,
    Banchat.args fc !! "new_text" = Some t →
    ∀ l, Banchat.objects (snd (Banchat.handle_gemini_function_call fc s)) l
           !! "image_url"
         = Banchat.objects s l !! "image_url".
Proof.
  intros fc s t Ht l.
  destruct (handle_gemini_function_call_effect fc s) as (_ & _ & Ho).
  destruct (Ho l) as [-> | (_ & key & v & Hw & ->)]; [reflexivity |].
  unfold written in Hw. rewrite Ht in Hw. injection Hw as <- <-.
  by rewrite lookup_insert_ne.
Qed.

Lemma field_update_text_wins_witness :
  Banchat.args set_title_both !! "new_text" = Some (PyStr "Welcome")
  ∧ Banchat.objects
      (snd (Banchat.handle_gemini_function_call set_title_both
              Examples.two_layers)) 0 !! "image_url" = None
  ∧ Banchat.objects
      (snd (Banchat.handle_gemini_function_call set_title_both
              Examples.two_layers)) 0 !! "text" = Some (PyStr "Welcome").
Proof.
  split; [reflexivity |]. split; [| reflexivity].
  rewrite (field_update_text_wins set_title_both Examples.two_layers
             (PyStr "Welcome") eq_refl 0).
  reflexivity.
Defined.

(** ** From a field update to the submission *)

Lemma clean_mod_insert_eq d key v :
  Banchat.clean_mod (<[key := v]> d) !! key
  = if py_is_none v then None else Some v.
Proof.
  destruct (py_is_none v) eqn:Hv.
  - apply eq_None_not_Some. intros [x Hx].
    apply clean_mod_lookup in Hx as [Hx Hne].
    rewrite lookup_insert_eq in Hx. injection Hx as <-. by destruct v.
  - apply clean_mod_lookup. split; [apply lookup_insert_eq |].
    intros ->. discriminate.
Qed.

(** X7.  What is typed in the chat is what is sent: after a field update
    that wrote [v] under [field] of layer [l], the next image generation
    issues one job creation whose modification for [l] carries [v] under
    [field] (or no such field when [v] is [None], the null filter dropping
    it), and whose other modifications are those the session would have sent
    before the update. *)
Theorem field_update_then_submit :
  ∀ key fc s w l field v uid,
    named s →
    first_match s (layer_of fc) l →
    written fc = Some (field, v) →
    py_truthy (Banchat.selected_template_details s) = true →
    py_getitem (Banchat.selected_template_details s) "uid" = Return uid →
    let s1 := snd (Banchat.handle_gemini_function_call fc s) in
    let sent := Banchat.final_modifications s1 in
    exchanges (snd (Banchat.handle_image_generation key (s1, w))).2
    = exchanges w
      ++ [(job_creation key uid (PyList (PyDict <$> sent)), net w 0)]
    ∧ (∀ i, Banchat.current_modifications s !! i = Some l →
         ∃ m, sent !! i = Some m
              ∧ m !! field = if py_is_none v then None else Some v)
    ∧ (∀ i l', Banchat.current_modifications s !! i = Some l' → l' ≠ l →
         sent !! i = Banchat.final_modifications s !! i).
Proof.
  intros key fc s w l field v uid Hn Hf Hw Ht Hu. cbv zeta.
  rewrite handle_gemini_function_call_locate.
  rewrite (locate_first_match _ _ _ l Hn Hf). cbn [snd].
  split; [| split].
  - by apply handle_image_generation_exchanges.
  - intros i Hi. eexists. split.
    + by apply (final_modifications_lookup (after_update s fc l) i l).
    + cbn. rewrite Hw, fn_lookup_insert. apply clean_mod_insert_eq.
  - intros i l' Hi Hne.
    rewrite (final_modifications_lookup (after_update s fc l) i l' Hi).
    rewrite (final_modifications_lookup s i l' Hi).
    cbn. rewrite Hw. by rewrite fn_lookup_insert_ne.
Qed.

Lemma field_update_then_submit_witness :
  let s1 := snd (Banchat.handle_gemini_function_call clear_title_text
                   Examples.two_layers) in
  (named Examples.two_layers
   ∧ first_match Examples.two_layers (layer_of clear_title_text) 0
   ∧ written clear_title_text = Some ("text", PyNone)
   ∧ py_truthy (Banchat.selected_template_details Examples.two_layers) = true
   ∧ py_getitem (Banchat.selected_template_details Examples.two_layers) "uid"
     = Return (PyStr "tpl-1"))
  ∧ Banchat.final_modifications s1
    = [ {[ "name" := PyStr "title" ]}; {[ "name" := PyStr "photo" ]} ]
  ∧ ∃ m, Banchat.final_modifications s1 !! 0 = Some m ∧ m !! "text" = None.
Proof.
  cbv zeta.
  split; [split; [exact two_layers_named
                 | split; [exact title_first_in_two_layers
                          | repeat split; reflexivity]] |].
  split; [reflexivity |].
  apply (proj1 (proj2 (field_update_then_submit "key" clear_title_text
           Examples.two_layers (fresh_world (script [] pending)) 0 "text"
           PyNone (PyStr "tpl-1") two_layers_named title_first_in_two_layers
           eq_refl eq_refl eq_refl)) 0).
  reflexivity.
Defined.

(** ** Image generation: guard and frame *)

(** X8.  Without a selected template ([None], or any falsy value) an image
    generation sends nothing: no request is issued, the handler returns, and
    the session only gains the "choose template" message. *)
Theorem generation_needs_a_template :
  ∀ key s w,
    py_truthy (Banchat.selected_template_details s) = false →
    Banchat.handle_image_generation key (s, w)
    = (Return None,
       ({| Banchat.messages :=
             Banchat.messages s
             ++ [{| Banchat.role := "assistant";
                    Banchat.body := Banchat.ChooseTemplateFirst |}];
           Banchat.selected_template_details :=
             Banchat.selected_template_details s;
           Banchat.current_modifications := Banchat.current_modifications s;
           Banchat.objects := Banchat.objects s |}, w)).
Proof.
  intros key s w Ht.
  cbv [Banchat.handle_image_generation bind Banchat.in_session
       Banchat.gets Banchat.append_message ret fst snd].
  rewrite Ht. reflexivity.
Qed.

Lemma generation_needs_a_template_witness :
  py_truthy (Banchat.selected_template_details no_template) = false
  ∧ exchanges
      (snd (Banchat.handle_image_generation "key"
              (no_template, fresh_world (script [] pending)))).2 = [].
Proof.
  split; [reflexivity |].
  rewrite (generation_needs_a_template "key" no_template
             (fresh_world (script [] pending)) eq_refl).
  reflexivity.
Defined.

(** X9.  The submission phase of an image generation never touches the
    modifications: on every path, the raising ones included, the list, the
    stored dictionaries (their [None] fields too: the filter builds new
    dictionaries) and the selected template are as before; the chat only
    grows, by one or two messages; and at most one request is issued. *)
Theorem generation_keeps_modifications :
  ∀ key s w,
    let r := Banchat.handle_image_generation key (s, w) in
    Banchat.current_modifications (snd r).1 = Banchat.current_modifications s
    ∧ Banchat.objects (snd r).1 = Banchat.objects s
    ∧ Banchat.selected_template_details (snd r).1
      = Banchat.selected_template_details s
    ∧ (∃ more, Banchat.messages (snd r).1 = Banchat.messages s ++ more
               ∧ 1 ≤ length more ≤ 2)
    ∧ calls w (snd r).2 ≤ 1.
Proof.
  intros key s w.
  cbv [Banchat.handle_image_generation bind Banchat.in_session
       Banchat.in_world Banchat.gets Banchat.append_message eval ret
       Banchat.create_image http_exchange fst snd].
  destruct (py_truthy (Banchat.selected_template_details s)); cbv [negb].
  2:{ cbn. repeat split; [eexists; split; [reflexivity | cbn; lia] |].
      unfold calls. lia. }
  destruct (py_getitem (Banchat.selected_template_details s) "uid")
    as [uid | e].
  2:{ cbn. repeat split; [eexists; split; [reflexivity | cbn; lia] |].
      unfold calls. lia. }
  assert (Hcalls : ∀ x : http_request * http_result,
            length (exchanges w ++ [x]) - length (exchanges w) ≤ 1).
  { intros x. rewrite length_app. cbn. lia. }
  destruct (net w 0) as [e | data].
  - cbn. repeat split; [| apply Hcalls].
    eexists. split; [by rewrite <- app_assoc | cbn; lia].
  - destruct (py_truthy data); cbn; (repeat split; [| apply Hcalls]).
    + eexists. split; [reflexivity | cbn; lia].
    + eexists. split; [by rewrite <- app_assoc | cbn; lia].
Qed.

(** X10.  A selected template without a ["uid"] makes the image generation
    raise before anything is sent: no request is issued, and the chat is
    left with the "Generating your image" message and nothing after it. *)
Theorem generation_without_uid :
  ∀ key s w e,
    py_truthy (Banchat.selected_template_details s) = true →
    py_getitem (Banchat.selected_template_details s) "uid" = Raise e →
    Banchat.handle_image_generation key (s, w)
    = (Raise e,
       ({| Banchat.messages :=
             Banchat.messages s
             ++ [{| Banchat.role := "assistant";
                    Banchat.body := Banchat.GeneratingImage |}];
           Banchat.selected_template_details :=
             Banchat.selected_template_details s;
           Banchat.current_modifications := Banchat.current_modifications s;
           Banchat.objects := Banchat.objects s |}, w)).
Proof.
  intros key s w e Ht Hu.
  cbv [Banchat.handle_image_generation bind Banchat.in_session
       Banchat.gets Banchat.append_message eval ret fst snd].
  rewrite Ht. cbv [negb]. rewrite Hu. reflexivity.
Qed.

Lemma generation_without_uid_witness :
  let r := Banchat.handle_image_generation "key"
             (template_without_uid, fresh_world (script [] pending)) in
  (py_truthy (Banchat.selected_template_details template_without_uid) = true
   ∧ py_getitem (Banchat.selected_template_details template_without_uid)
       "uid" = Raise (KeyError "uid"))
  ∧ fst r = Raise (KeyError "uid")
  ∧ exchanges (snd r).2 = [].
Proof.
  cbv zeta. split; [split; reflexivity |].
  rewrite (generation_without_uid "key" template_without_uid
             (fresh_world (script [] pending)) (KeyError "uid")
             eq_refl eq_refl).
  split; reflexivity.
Defined.

(** * The submitted form of banner/app.py *)

Section SubmittedForm.

Import BannerPage.

Variable st_image_loads : pyval → bool.
Variable key : string.
Variable template_id : pyval.

(** The block on a non-empty list of modifications, path by path. *)
Lemma submitted_cons m ms p :
  let mods := m :: ms in
  let w1 := after_job_creation key template_id mods (outside p) in
  let shown0 := displayed p ++ [InfoSending (length mods)] in
  submitted st_image_loads key template_id mods p =
  match net (outside p) 0 with
  | RequestException e =>
      (Ends tt,
       {| outside :=
            snd (st_error ("Failed to generate Bannerbear image: " +:+ e) w1);
          displayed := shown0 |})
  | JsonBody data =>
      if py_truthy data then
        match py_getitem data "uid" with
        | Raise e =>
            (Fails (Subscript e), {| outside := w1; displayed := shown0 |})
        | Return uid =>
            let r := Banner.poll_for_image_completion key uid w1 in
            match fst r with
            | Raise e =>
                (Fails (Subscript e),
                 {| outside := snd r; displayed := shown0 |})
            | Return u =>
                if py_truthy u then
                  if st_image_loads u then
                    (Ends tt,
                     {| outside := snd r;
                        displayed := shown0 ++ banner_ready u |})
                  else
                    (Fails (StreamlitError "st.image"),
                     {| outside := snd r;
                        displayed := shown0 ++ [HeaderReady] |})
                else (Ends tt, {| outside := snd r; displayed := shown0 |})
            end
        end
      else (Ends tt, {| outside := w1; displayed := shown0 |})
  end.
Proof.
  cbv zeta.
  unfold submitted, st_image, after_job_creation, andthen, run, finish,
    throw, show, in_outside, Banner.generate_bannerbear_image, bind,
    http_exchange, job_creation, st_error, ret, eval.
  cbn [outside displayed fst snd].
  destruct (net (outside p) 0) as [e | data]; [reflexivity |].
  cbn [outside displayed fst snd].
  destruct (py_truthy data); [| reflexivity].
  destruct (py_getitem data "uid") as [uid | e]; [| reflexivity].
  cbn [outside displayed fst snd].
  destruct (Banner.poll_for_image_completion key uid _) as [[u | e] w2];
    [| reflexivity].
  cbn [outside displayed fst snd].
  destruct (py_truthy u); [| reflexivity].
  cbn [outside displayed fst snd].
  destruct (st_image_loads u); cbn [outside displayed fst snd];
    unfold banner_ready; by rewrite <- ?app_assoc.
Qed.

Lemma after_job_creation_exchanges mods w :
  exchanges (after_job_creation key template_id mods w)
  = exchanges w ++ [(job_creation key template_id (PyList mods), net w 0)].
Proof. reflexivity. Qed.

(** What polling adds to the log, whatever its outcome: at most twenty
    status fetches for [uid], answered by the provider's next answers. *)
Lemma poll_log uid w :
  ∃ c, c ≤ 20
       ∧ exchanges (snd (Banner.poll_for_image_completion key uid w))
         = exchanges w ++ ((λ j, (status_fetch key uid, net w j)) <$> seq 0 c).
Proof.
  unfold Banner.poll_for_image_completion.
  destruct (first_terminal_dec 20 w) as [Hp | (k & o & Hk & Ho & Hf)].
  - exists 20. split; [lia |].
    by destruct (poll_attempts_exhausted key uid 20 w Hp) as (_ & Hex & _).
  - exists (S k). split; [lia |].
    by destruct (poll_attempts_stops key uid 20 w k o Hk Ho Hf)
      as (_ & Hex & _).
Qed.

(** Where a non-empty form ends once the URL [u] has been obtained. *)
Lemma submitted_obtained m ms p u :
  obtains (m :: ms) (outside p) u →
  let r := submitted st_image_loads key template_id (m :: ms) p in
  let shown0 := displayed p ++ [InfoSending (length (m :: ms))] in
  if st_image_loads u then
    fst r = Ends tt ∧ displayed (snd r) = shown0 ++ banner_ready u
  else
    fst r = Fails (StreamlitError "st.image")
    ∧ displayed (snd r) = shown0 ++ [HeaderReady].
Proof.
  intros (_ & Htu & data & uid & k & Hnet & Ht & Hu & Hk & Hobs & Hprev).
  cbv zeta. rewrite submitted_cons. cbv zeta. rewrite Hnet, Ht, Hu.
  unfold Banner.poll_for_image_completion.
  set (w1 := after_job_creation key template_id (m :: ms) (outside p)).
  destruct (poll_attempts_stops key uid 20 w1 k (ObsCompleted u) Hk
              ltac:(discriminate) (conj Hobs Hprev)) as (Hv & _).
  rewrite Hv. cbn [exit_value]. rewrite Htu.
  destruct (st_image_loads u); split; reflexivity.
Qed.

(** The banner on the page tells how the form got there. *)
Lemma submitted_banner_inv m ms p u :
  displayed (snd (submitted st_image_loads key template_id (m :: ms) p))
  = displayed p ++ InfoSending (length (m :: ms)) :: banner_ready u →
  obtains (m :: ms) (outside p) u ∧ st_image_loads u = true.
Proof.
  rewrite submitted_cons. cbv zeta.
  set (w := outside p).
  set (w1 := after_job_creation key template_id (m :: ms) w).
  assert (Hno : displayed p ++ [InfoSending (length (m :: ms))]
                = displayed p
                  ++ InfoSending (length (m :: ms)) :: banner_ready u →
                False).
  { intros H. apply app_inv_head in H. discriminate. }
  destruct (net w 0) as [e | data] eqn:Hnet.
  { cbn [snd displayed]. intros H. destruct (Hno H). }
  destruct (py_truthy data) eqn:Ht.
  2:{ cbn [snd displayed]. intros H. destruct (Hno H). }
  destruct (py_getitem data "uid") as [uid | e] eqn:Hu.
  2:{ cbn [snd displayed]. intros H. destruct (Hno H). }
  unfold Banner.poll_for_image_completion.
  destruct (first_terminal_dec 20 w1) as [Hp | (k & o & Hk & Ho & Hf)].
  - destruct (poll_attempts_exhausted key uid 20 w1 Hp) as (Hv & _).
    rewrite Hv. cbn [snd displayed py_truthy]. intros H. destruct (Hno H).
  - destruct (poll_attempts_stops key uid 20 w1 k o Hk Ho Hf) as (Hv & _).
    rewrite Hv. destruct Hf as [Hobs Hprev]. cbn in Hobs, Hprev.
    destruct o as [u' | | | e | exn]; cbn [exit_value snd displayed py_truthy];
      try (intros H; destruct (Hno H)); try done.
    destruct (py_truthy u') eqn:Hu'; cbn [snd displayed];
      [| intros H; destruct (Hno H)].
    destruct (st_image_loads u') eqn:Hl; cbn [snd displayed];
      rewrite <- app_assoc; intros H; apply app_inv_head in H;
      [| discriminate].
    injection H as <-. split; [| exact Hl].
    split; [done |]. split; [exact Hu' |]. exists data, uid, k. done.
Qed.

End SubmittedForm.

(** X11.  The request budget of a submitted form.  An empty form issues no
    request; any other issues the job creation first, carrying the template
    and the modifications as collected, and then only status fetches, which
    happen only after a truthy answer with a ["uid"], all ask for that uid,
    and number at most twenty: at most 21 requests in all. *)
Theorem submitted_request_budget :
  ∀ st_image_loads key template_id mods p,
    let p' := snd (BannerPage.submitted st_image_loads key template_id mods p) in
    let w := BannerPage.outside p in
    ∃ log,
      exchanges (BannerPage.outside p') = exchanges w ++ log
      ∧ length log ≤ 21
      ∧ (log = [] ↔ mods = [])
      ∧ (∀ x, log !! 0 = Some x →
              x = (job_creation key template_id (PyList mods), net w 0))
      ∧ (∀ i x, log !! (S i) = Some x →
           ∃ data uid,
             net w 0 = JsonBody data ∧ py_truthy data = true
             ∧ py_getitem data "uid" = Return uid
             ∧ x = (status_fetch key uid, net w (S i))).
Proof.
  intros st_image_loads key template_id [| m ms] p; cbv zeta.
  { exists []. split; [cbn; by rewrite app_nil_r |].
    split; [cbn; lia |]. split; [done |].
    split; [intros x Hx | intros i x Hx]; by rewrite lookup_nil in Hx. }
  rewrite submitted_cons. cbv zeta.
  set (w := BannerPage.outside p).
  set (jc := (job_creation key template_id (PyList (m :: ms)), net w 0)).
  assert (Hone : ∀ w',
            exchanges w' = exchanges w ++ [jc] →
            ∃ log,
              exchanges w' = exchanges w ++ log
              ∧ length log ≤ 21
              ∧ (log = [] ↔ m :: ms = [])
              ∧ (∀ x, log !! 0 = Some x → x = jc)
              ∧ (∀ i x, log !! (S i) = Some x →
                   ∃ data uid,
                     net w 0 = JsonBody data ∧ py_truthy data = true
                     ∧ py_getitem data "uid" = Return uid
                     ∧ x = (status_fetch key uid, net w (S i)))).
  { intros w' Hw'. exists [jc]. split; [exact Hw' |]. split; [cbn; lia |].
    split; [split; discriminate |]. split.
    - intros x [= <-]. reflexivity.
    - intros i x Hx. destruct i; discriminate. }
  destruct (net w 0) as [e | data] eqn:Hnet.
  { apply Hone. cbn. by rewrite Hnet. }
  destruct (py_truthy data) eqn:Ht.
  2:{ apply Hone. cbn. by rewrite Hnet. }
  destruct (py_getitem data "uid") as [uid | e] eqn:Hu.
  2:{ apply Hone. cbn. by rewrite Hnet. }
  clear Hone.
  destruct (poll_log key uid
              (BannerPage.after_job_creation key template_id (m :: ms) w))
    as (c & Hc & Hex).
  exists (jc :: ((λ j, (status_fetch key uid, net w (S j))) <$> seq 0 c)).
  assert (Hlog : exchanges
                   (snd (Banner.poll_for_image_completion key uid
                           (BannerPage.after_job_creation key template_id
                              (m :: ms) w)))
                 = exchanges w
                   ++ jc :: ((λ j, (status_fetch key uid, net w (S j)))
                               <$> seq 0 c)).
  { rewrite Hex, after_job_creation_exchanges, <- app_assoc.
    subst jc. rewrite Hnet. reflexivity. }
  split.
  { destruct (fst (Banner.poll_for_image_completion key uid _)) as [u | e];
      [destruct (py_truthy u); [destruct (st_image_loads u) |] |];
      exact Hlog. }
  split; [cbn; rewrite length_fmap, length_seq; lia |].
  split; [split; discriminate |]. split.
  - intros x [= <-]. reflexivity.
  - intros i x Hx.
    change (((λ j, (status_fetch key uid, net w (S j))) <$> seq 0 c) !! i
            = Some x) in Hx.
    rewrite list_lookup_fmap in Hx.
    destruct (seq 0 c !! i) as [j |] eqn:Hj; [| discriminate].
    apply lookup_seq in Hj as [-> _]. injection Hx as <-.
    exists data, uid. done.
Qed.

(** X12.  The banner is announced exactly when everything went well and
    Streamlit can show the image: the form was not empty, the job creation
    was answered by a truthy body with a ["uid"], within twenty fetches the
    first answer other than a status to wait on was a completed one carrying
    a truthy [image_url_png], and [st.image] accepts that value; the URL
    shown is that one.  When [st.image] refuses the value, only the header
    has been added: the call raises, and neither the success notice nor the
    URL is shown. *)
Theorem banner_shown_iff :
  ∀ st_image_loads key template_id mods p u,
    let r := BannerPage.submitted st_image_loads key template_id mods p in
    let w := BannerPage.outside p in
    (BannerPage.displayed (snd r)
     = BannerPage.displayed p
       ++ BannerPage.InfoSending (length mods) :: BannerPage.banner_ready u
     ↔ BannerPage.obtains mods w u ∧ st_image_loads u = true)
    ∧ (BannerPage.obtains mods w u → st_image_loads u = false →
       fst r = Fails (StreamlitError "st.image")
       ∧ BannerPage.displayed (snd r)
         = BannerPage.displayed p
           ++ [BannerPage.InfoSending (length mods); BannerPage.HeaderReady]).
Proof.
  intros st_image_loads key template_id [| m ms] p u; cbv zeta.
  { split; [split |].
    - cbn. intros H. apply (f_equal length) in H. rewrite length_app in H.
      cbn in H. lia.
    - intros [[H _] _]. done.
    - intros [H _]. done. }
  split; [split |].
  - apply submitted_banner_inv.
  - intros [Hob Hl].
    pose proof (submitted_obtained st_image_loads key template_id m ms p u Hob)
      as H.
    cbv zeta in H. rewrite Hl in H. destruct H as [_ ->].
    by rewrite <- app_assoc.
  - intros Hob Hl.
    pose proof (submitted_obtained st_image_loads key template_id m ms p u Hob)
      as H.
    cbv zeta in H. rewrite Hl in H. destruct H as [-> ->].
    by rewrite <- app_assoc.
Qed.

Lemma banner_shown_iff_witness :
  let p := BannerPage.fresh_page
             (script [JsonBody (PyDict {[ "uid" := PyStr "job-1" ]});
                      JsonBody (PyDict {[ "status" := PyStr "completed";
                                          "image_url_png" := PyStr "late" ]})]
                pending) in
  let mods := [PyDict {[ "name" := PyStr "title"; "text" := PyStr "Hi" ]}] in
  let r := BannerPage.submitted BannerPage.loads_urls "key" (PyStr "tpl-1")
             mods p in
  (BannerPage.obtains mods (BannerPage.outside p) (PyStr "late")
   ∧ BannerPage.loads_urls (PyStr "late") = false)
  ∧ fst r = Fails (StreamlitError "st.image")
  ∧ BannerPage.displayed (snd r)
    = [BannerPage.InfoSending 1; BannerPage.HeaderReady].
Proof.
  cbv zeta.
  assert (Hob : BannerPage.obtains
                  [PyDict {[ "name" := PyStr "title"; "text" := PyStr "Hi" ]}]
                  (BannerPage.outside
                     (BannerPage.fresh_page
                        (script
                           [JsonBody (PyDict {[ "uid" := PyStr "job-1" ]});
                            JsonBody
                              (PyDict {[ "status" := PyStr "completed";
                                         "image_url_png" := PyStr "late" ]})]
                           pending)))
                  (PyStr "late")).
  { split; [discriminate |]. split; [reflexivity |].
    exists (PyDict {[ "uid" := PyStr "job-1" ]}), (PyStr "job-1"), 0.
    split; [reflexivity |]. split; [reflexivity |]. split; [reflexivity |].
    split; [lia |]. split; [reflexivity |]. intros j Hj. lia. }
  split; [split; [exact Hob | reflexivity] |].
  exact (proj2 (banner_shown_iff BannerPage.loads_urls "key" (PyStr "tpl-1")
                  [PyDict {[ "name" := PyStr "title"; "text" := PyStr "Hi" ]}]
                  _ (PyStr "late")) Hob eq_refl).
Defined.

(** X13.  Two endings of a submitted form leave the user with nothing but
    the "Sending" notice, no banner and no error or warning: a job creation
    answered by a falsy body (an empty JSON object, [null], ...), after which
    no status is fetched; and a completed status that carries a falsy
    [image_url_png] (an empty string, [null]). *)
Theorem submitted_silent_endings :
  ∀ st_image_loads key template_id m ms p data,
    let r := BannerPage.submitted st_image_loads key template_id (m :: ms) p in
    let p' := snd r in
    let w := BannerPage.outside p in
    net w 0 = JsonBody data →
    (py_truthy data = false
     ∨ ∃ uid k u,
         py_truthy data = true ∧ py_getitem data "uid" = Return uid
         ∧ k < 20 ∧ observe (net w (S k)) = ObsCompleted u
         ∧ (∀ j, j < k → observe (net w (S j)) = ObsPending)
         ∧ py_truthy u = false) →
    fst r = Ends tt
    ∧ shown w (BannerPage.outside p') = []
    ∧ BannerPage.displayed p'
      = BannerPage.displayed p ++ [BannerPage.InfoSending (S (length ms))]
    ∧ (py_truthy data = false → calls w (BannerPage.outside p') = 1).
Proof.
  intros st_image_loads key template_id m ms p data. cbv zeta.
  intros Hnet Hcase.
  rewrite submitted_cons. cbv zeta. rewrite Hnet.
  destruct Hcase as [Ht | (uid & k & u & Ht & Hu & Hk & Hobs & Hprev & Hfalsy)].
  - rewrite Ht. cbn [fst snd BannerPage.outside BannerPage.displayed].
    split; [reflexivity |]. split; [apply shown_app with (l := []);
                                    by rewrite app_nil_r |].
    split; [reflexivity |]. intros _.
    by rewrite (calls_app _ _ _
                  (after_job_creation_exchanges key template_id _ _)).
  - rewrite Ht, Hu. unfold Banner.poll_for_image_completion.
    set (w1 := BannerPage.after_job_creation key template_id (m :: ms)
                 (BannerPage.outside p)).
    destruct (poll_attempts_stops key uid 20 w1 k (ObsCompleted u) Hk
                ltac:(discriminate) (conj Hobs Hprev)) as (Hv & _ & Hui & _).
    rewrite Hv. cbn [exit_value fst snd BannerPage.outside
      BannerPage.displayed]. rewrite Hfalsy.
    cbn [fst snd BannerPage.outside BannerPage.displayed].
    split; [reflexivity |]. split; [| split; [reflexivity | congruence]].
    apply shown_app with (l := []). rewrite Hui. reflexivity.
Qed.

Lemma submitted_silent_endings_witness :
  let p := BannerPage.fresh_page (script [JsonBody (PyDict ∅)] pending) in
  let mods := [PyDict {[ "name" := PyStr "title"; "text" := PyStr "Hi" ]}] in
  let r := BannerPage.submitted BannerPage.loads_urls "key" (PyStr "tpl-1")
             mods p in
  (net (BannerPage.outside p) 0 = JsonBody (PyDict ∅)
   ∧ py_truthy (PyDict ∅) = false)
  ∧ fst r = Ends tt
  ∧ shown (BannerPage.outside p) (BannerPage.outside (snd r)) = []
  ∧ BannerPage.displayed (snd r) = [BannerPage.InfoSending 1]
  ∧ calls (BannerPage.outside p) (BannerPage.outside (snd r)) = 1.
Proof.
  cbv zeta. split; [split; reflexivity |].
  destruct (submitted_silent_endings BannerPage.loads_urls "key"
              (PyStr "tpl-1")
              (PyDict {[ "name" := PyStr "title"; "text" := PyStr "Hi" ]}) []
              (BannerPage.fresh_page (script [JsonBody (PyDict ∅)] pending))
              (PyDict ∅) eq_refl ltac:(left; reflexivity))
    as (H1 & H2 & H3 & H4).
  split; [exact H1 |]. split; [exact H2 |]. split; [exact H3 |].
  exact (H4 eq_refl).
Defined.

(** X14.  A job creation answered by a truthy body without a ["uid"] makes
    the submitted form raise [KeyError] right after that one request: no
    status is fetched, the block itself calls neither [st.error] nor
    [st.warning], and it has added nothing but the "Sending" notice.  The
    exception is not caught by the block. *)
Theorem submitted_without_uid :
  ∀ st_image_loads key template_id m ms p d,
    let r := BannerPage.submitted st_image_loads key template_id (m :: ms) p in
    let w := BannerPage.outside p in
    net w 0 = JsonBody (PyDict d) →
    py_truthy (PyDict d) = true →
    d !! "uid" = None →
    fst r = Fails (Subscript (KeyError "uid"))
    ∧ calls w (BannerPage.outside (snd r)) = 1
    ∧ shown w (BannerPage.outside (snd r)) = []
    ∧ BannerPage.displayed (snd r)
      = BannerPage.displayed p ++ [BannerPage.InfoSending (S (length ms))].
Proof.
  intros st_image_loads key template_id m ms p d. cbv zeta.
  intros Hnet Ht Hu.
  rewrite submitted_cons. cbv zeta. rewrite Hnet, Ht.
  cbn [py_getitem]. rewrite Hu.
  cbn [fst snd BannerPage.outside BannerPage.displayed].
  split; [reflexivity |]. split; [| split; [| reflexivity]].
  - by rewrite (calls_app _ _ _
                  (after_job_creation_exchanges key template_id _ _)).
  - apply shown_app with (l := []). by rewrite app_nil_r.
Qed.

Lemma submitted_without_uid_witness :
  let d : gmap string pyval := {[ "message" := PyStr "queued" ]} in
  let p := BannerPage.fresh_page (script [JsonBody (PyDict d)] pending) in
  let r := BannerPage.submitted BannerPage.loads_urls "key" (PyStr "tpl-1")
             [PyDict ∅] p in
  (net (BannerPage.outside p) 0 = JsonBody (PyDict d)
   ∧ py_truthy (PyDict d) = true ∧ d !! "uid" = None)
  ∧ fst r = Fails (Subscript (KeyError "uid"))
  ∧ calls (BannerPage.outside p) (BannerPage.outside (snd r)) = 1.
Proof.
  cbv zeta. split; [repeat split; reflexivity |].
  destruct (submitted_without_uid BannerPage.loads_urls "key" (PyStr "tpl-1")
              (PyDict ∅) []
              (BannerPage.fresh_page
                 (script [JsonBody (PyDict {[ "message" := PyStr "queued" ]})]
                    pending))
              {[ "message" := PyStr "queued" ]} ltac:(reflexivity)
              ltac:(reflexivity) ltac:(reflexivity))
    as (H1 & H2 & _).
  split; [exact H1 | exact H2].
Defined.

(** * The conversation sent to the model *)

Section Conversation.

Import Gemini.

Lemma replay_message_unfold msg c :
  replay_message msg c =
  match py_getitem msg "role" with
  | Raise e => (Raise e, c)
  | Return role =>
      if py_eq role (PyStr "user") then
        match py_getitem msg "content" with
        | Raise e => (Raise e, c)
        | Return content => (Return tt, c ++ [turn "user" content])
        end
      else if py_eq role (PyStr "assistant") then
        match py_getitem msg "content" with
        | Raise e => (Raise e, c)
        | Return content =>
            match py_in "![Generated Image]" content with
            | Raise e => (Raise e, c)
            | Return marked =>
                if marked then (Return tt, c)
                else (Return tt, c ++ [turn "model" content])
            end
        end
      else (Return tt, c)
  end.
Proof.
  unfold replay_message, bind, eval, append, ret.
  destruct (py_getitem msg "role") as [role | e]; [| reflexivity].
  destruct (py_eq role (PyStr "user")).
  - destruct (py_getitem msg "content"); reflexivity.
  - destruct (py_eq role (PyStr "assistant")); [| reflexivity].
    destruct (py_getitem msg "content") as [content | e]; [| reflexivity].
    destruct (py_in "![Generated Image]" content) as [[|] | e]; reflexivity.
Qed.

Lemma replay_message_translate msg c :
  replay_message msg c =
  match translate msg with
  | Return items => (Return tt, c ++ items)
  | Raise e => (Raise e, c)
  end.
Proof.
  unfold translate, bind. rewrite !replay_message_unfold.
  destruct (py_getitem msg "role") as [role | e]; [| reflexivity].
  destruct (py_eq role (PyStr "user")).
  - destruct (py_getitem msg "content"); reflexivity.
  - destruct (py_eq role (PyStr "assistant"));
      [| cbn; by rewrite app_nil_r].
    destruct (py_getitem msg "content") as [content | e]; [| reflexivity].
    destruct (py_in "![Generated Image]" content) as [[|] | e];
      cbn; by rewrite ?app_nil_r.
Qed.

Lemma replay_translate_all msgs c :
  fst (replay msgs c)
  = match translate_all msgs with
    | Return _ => Return tt
    | Raise e => Raise e
    end
  ∧ ∀ items, translate_all msgs = Return items →
             snd (replay msgs c) = c ++ items.
Proof.
  revert c. induction msgs as [| msg rest IH]; intros c.
  - cbn. split; [reflexivity |]. intros items [= <-]. by rewrite app_nil_r.
  - cbn [replay translate_all]. unfold bind.
    rewrite replay_message_translate.
    destruct (translate msg) as [items | e]; [| split; [done | discriminate]].
    destruct (IH (c ++ items)) as [Hv Hs].
    destruct (translate_all rest) as [more | e].
    + split; [exact Hv |]. intros ? [= <-].
      rewrite (Hs more eq_refl). by rewrite app_assoc.
    + split; [exact Hv | discriminate].
Qed.

(** The conversation in closed form. *)
Lemma build_conversation_translate context_prompt chat_history user_prompt :
  build_conversation context_prompt chat_history user_prompt =
  match translate_all (last_six chat_history) with
  | Return items =>
      Return (turn "user" context_prompt :: turn "model" understood
              :: items ++ [turn "user" user_prompt])
  | Raise e => Raise e
  end.
Proof.
  unfold build_conversation. unfold bind at 1.
  destruct (replay_translate_all (last_six chat_history)
              [turn "user" context_prompt; turn "model" understood])
    as [Hv Hs].
  destruct (replay (last_six chat_history) _) as [[[] | e] c] eqn:Hr;
    cbn [fst snd] in Hv, Hs.
  - destruct (translate_all (last_six chat_history)) as [items | e];
      [| discriminate].
    rewrite (Hs items eq_refl). reflexivity.
  - destruct (translate_all (last_six chat_history)) as [items | e'];
      [discriminate |].
    cbn. congruence.
Qed.

Lemma last_six_app {A} (old recent : list A) :
  6 ≤ length recent → last_six (old ++ recent) = last_six recent.
Proof.
  intros H. unfold last_six. rewrite length_app.
  replace (length old + length recent - 6)
    with (length old + (length recent - 6)) by lia.
  by rewrite drop_app_add.
Qed.

Lemma length_last_six {A} (l : list A) :
  length (last_six l) ≤ 6 ∧ length (last_six l) ≤ length l.
Proof. unfold last_six. rewrite length_drop. lia. Qed.

Lemma last_six_snoc {A} (l : list A) x :
  ∃ before, last_six (l ++ [x]) = before ++ [x].
Proof.
  unfold last_six. rewrite length_app. cbn [length].
  destruct (decide (length l + 1 - 6 ≤ length l)) as [H | H]; [| lia].
  rewrite drop_app_le by exact H. eauto.
Qed.

Lemma turn_inj role role' part part' :
  turn role part = turn role' part' → role = role' ∧ part = part'.
Proof.
  intros H.
  pose proof (f_equal (λ v, py_getitem v "role") H) as Hr.
  pose proof (f_equal (λ v, py_getitem v "parts") H) as Hp.
  vm_compute in Hr, Hp. split; congruence.
Qed.

(** What a single message can contribute. *)
Lemma translate_items msg items :
  translate msg = Return items →
  length items ≤ 1
  ∧ ∀ t, t ∈ items →
      (∃ content, t = turn "user" content)
      ∨ (∃ content, t = turn "model" content
                    ∧ py_in "![Generated Image]" content = Return false).
Proof.
  unfold translate, bind. rewrite replay_message_unfold.
  destruct (py_getitem msg "role") as [role | e]; [| discriminate].
  destruct (py_eq role (PyStr "user")).
  - destruct (py_getitem msg "content") as [content | e]; [| discriminate].
    cbn. intros [= <-]. split; [cbn; lia |].
    intros t Ht. apply list_elem_of_singleton in Ht as ->. left. eauto.
  - destruct (py_eq role (PyStr "assistant")).
    2:{ cbn. intros [= <-]. split; [cbn; lia |]. intros t Ht.
        inversion Ht. }
    destruct (py_getitem msg "content") as [content | e]; [| discriminate].
    destruct (py_in "![Generated Image]" content) as [[|] | e] eqn:Hin;
      [| | discriminate]; cbn; intros [= <-]; (split; [cbn; lia |]).
    + intros t Ht. inversion Ht.
    + intros t Ht. apply list_elem_of_singleton in Ht as ->. right. eauto.
Qed.

Lemma translate_all_items msgs items :
  translate_all msgs = Return items →
  length items ≤ length msgs
  ∧ ∀ t, t ∈ items →
      (∃ content, t = turn "user" content)
      ∨ (∃ content, t = turn "model" content
                    ∧ py_in "![Generated Image]" content = Return false).
Proof.
  revert items. induction msgs as [| msg rest IH]; intros items; cbn.
  - intros [= <-]. split; [cbn; lia |]. intros t Ht. inversion Ht.
  - destruct (translate msg) as [a |] eqn:Ha; [| discriminate].
    destruct (translate_all rest) as [b |]; [| discriminate].
    intros [= <-]. destruct (translate_items _ _ Ha) as [Hla Hsa].
    destruct (IH b eq_refl) as [Hlb Hsb].
    split; [rewrite length_app; lia |].
    intros t Ht. apply elem_of_app in Ht as [Ht | Ht]; auto.
Qed.

Lemma translate_chat_message msg :
  chat_message msg → ∃ items, translate msg = Return items.
Proof.
  intros (d & role & content & -> & Hr & Hc & Hkind).
  unfold translate, bind. rewrite replay_message_unfold.
  cbn [py_getitem]. rewrite Hr, Hc.
  destruct (py_eq (PyStr role) (PyStr "user")); [cbn; eauto |].
  destruct (py_eq (PyStr role) (PyStr "assistant")); [| cbn; eauto].
  destruct Hkind as [[text ->] | [fields ->]]; cbn [py_in];
    match goal with |- context [if ?b then _ else _] => destruct b end;
    cbn; eauto.
Qed.

Lemma translate_all_chat_messages msgs :
  Forall chat_message msgs → ∃ items, translate_all msgs = Return items.
Proof.
  induction 1 as [| msg rest Hm _ IH]; cbn; [eauto |].
  destruct (translate_chat_message msg Hm) as [a ->].
  destruct IH as [b ->]. eauto.
Qed.

Lemma translate_all_app a b :
  translate_all (a ++ b) =
  match translate_all a with
  | Raise e => Raise e
  | Return x =>
      match translate_all b with
      | Raise e => Raise e
      | Return y => Return (x ++ y)
      end
  end.
Proof.
  induction a as [| msg a IH]; cbn.
  - destruct (translate_all b); reflexivity.
  - destruct (translate msg) as [i |]; [| reflexivity]. rewrite IH.
    destruct (translate_all a) as [x |]; [| reflexivity].
    destruct (translate_all b) as [y |]; [| reflexivity].
    by rewrite app_assoc.
Qed.

End Conversation.

(** X15.  Only the last six messages of the chat reach the model: whatever
    precedes six or more messages changes nothing in the conversation built,
    not even by raising. *)
Theorem conversation_window :
  ∀ context_prompt older recent user_prompt,
    6 ≤ length recent →
    Gemini.build_conversation context_prompt (older ++ recent) user_prompt
    = Gemini.build_conversation context_prompt recent user_prompt.
Proof.
  intros context_prompt older recent user_prompt H.
  rewrite !build_conversation_translate. by rewrite last_six_app.
Qed.

Lemma conversation_window_witness :
  let recent := replicate 6 (Gemini.user_message (PyStr "hi")) in
  6 ≤ length recent
  ∧ Gemini.build_conversation (PyStr "context") [PyNone] (PyStr "go")
    = Raise TypeError
  ∧ Gemini.build_conversation (PyStr "context") (PyNone :: recent)
      (PyStr "go")
    = Gemini.build_conversation (PyStr "context") recent (PyStr "go").
Proof.
  cbv zeta. split; [cbn; lia |]. split; [reflexivity |].
  apply (conversation_window (PyStr "context") [PyNone]
           (replicate 6 (Gemini.user_message (PyStr "hi"))) (PyStr "go")).
  cbn. lia.
Defined.

(** X16.  The shape of the conversation: the context prompt as a user turn,
    the canned acknowledgement as a model turn, then at most six turns (and
    no more than the chat has messages), each a user or a model turn, and
    last the user's prompt; between 3 and 9 turns in all. *)
Theorem conversation_shape :
  ∀ context_prompt chat_history user_prompt conversation,
    Gemini.build_conversation context_prompt chat_history user_prompt
    = Return conversation →
    ∃ middle,
      conversation
      = Gemini.turn "user" context_prompt
        :: Gemini.turn "model" Gemini.understood
        :: middle ++ [Gemini.turn "user" user_prompt]
      ∧ length middle ≤ 6
      ∧ length middle ≤ length chat_history
      ∧ (∀ t, t ∈ middle →
           ∃ content, t = Gemini.turn "user" content
                      ∨ t = Gemini.turn "model" content)
      ∧ 3 ≤ length conversation ≤ 9.
Proof.
  intros context_prompt chat_history user_prompt conversation.
  rewrite build_conversation_translate.
  destruct (Gemini.translate_all (Gemini.last_six chat_history))
    as [items |] eqn:Hi; [| discriminate].
  intros [= <-]. exists items.
  destruct (translate_all_items _ _ Hi) as [Hlen Hshape].
  destruct (length_last_six chat_history) as [H6 Hh].
  split; [reflexivity |]. split; [lia |]. split; [lia |]. split.
  - intros t Ht. destruct (Hshape t Ht) as [[c ->] | (c & -> & _)]; eauto.
  - cbn [length]. rewrite length_app. cbn [length]. lia.
Qed.

Lemma conversation_shape_witness :
  let history := [Gemini.assistant_message (PyStr "Hello!");
                  Gemini.user_message (PyStr "choose template")] in
  Gemini.build_conversation (PyStr "context") history (PyStr "go")
  = Return [Gemini.turn "user" (PyStr "context");
            Gemini.turn "model" Gemini.understood;
            Gemini.turn "model" (PyStr "Hello!");
            Gemini.turn "user" (PyStr "choose template");
            Gemini.turn "user" (PyStr "go")]
  ∧ ∃ middle,
      length middle ≤ 6
      ∧ [Gemini.turn "user" (PyStr "context");
         Gemini.turn "model" Gemini.understood;
         Gemini.turn "model" (PyStr "Hello!");
         Gemini.turn "user" (PyStr "choose template");
         Gemini.turn "user" (PyStr "go")]
        = Gemini.turn "user" (PyStr "context")
          :: Gemini.turn "model" Gemini.understood
          :: middle ++ [Gemini.turn "user" (PyStr "go")].
Proof.
  cbv zeta. split; [reflexivity |].
  destruct (conversation_shape (PyStr "context")
              [Gemini.assistant_message (PyStr "Hello!");
               Gemini.user_message (PyStr "choose template")]
              (PyStr "go") _ eq_refl) as (middle & Hc & Hl & _).
  exists middle. split; [exact Hl | exact Hc].
Defined.

(** X17.  A generated image is never sent back to the model: no model turn
    of the conversation has a text that contains ["![Generated Image]"]. *)
Theorem conversation_omits_generated_images :
  ∀ context_prompt chat_history user_prompt conversation text,
    Gemini.build_conversation context_prompt chat_history user_prompt
    = Return conversation →
    Gemini.turn "model" (PyStr text) ∈ conversation →
    Gemini.contains "![Generated Image]" text = false.
Proof.
  intros context_prompt chat_history user_prompt conversation text.
  rewrite build_conversation_translate.
  destruct (Gemini.translate_all (Gemini.last_six chat_history))
    as [items |] eqn:Hi; [| discriminate].
  intros [= <-] Hin.
  destruct (translate_all_items _ _ Hi) as [_ Hshape].
  apply elem_of_cons in Hin as [Hin | Hin];
    [apply turn_inj in Hin as [[=] _] |].
  apply elem_of_cons in Hin as [Hin | Hin].
  { apply turn_inj in Hin as [_ [= ->]]. reflexivity. }
  apply elem_of_app in Hin as [Hin | Hin].
  - destruct (Hshape _ Hin) as [[c Hc] | (c & Hc & Hm)];
      apply turn_inj in Hc as [Hr Hp]; [discriminate |].
    subst c. cbn in Hm. congruence.
  - apply list_elem_of_singleton in Hin. apply turn_inj in Hin as [[=] _].
Qed.

Lemma conversation_omits_generated_images_witness :
  let history :=
    [Gemini.assistant_message
       (PyStr "Here is your generated image! ![Generated Image](https://x/y.png)");
     Gemini.assistant_message (PyStr "DOWNLOAD_BUTTON")] in
  Gemini.build_conversation (PyStr "context") history (PyStr "thanks")
  = Return [Gemini.turn "user" (PyStr "context");
            Gemini.turn "model" Gemini.understood;
            Gemini.turn "model" (PyStr "DOWNLOAD_BUTTON");
            Gemini.turn "user" (PyStr "thanks")]
  ∧ Gemini.contains "![Generated Image]" "DOWNLOAD_BUTTON" = false.
Proof.
  cbv zeta. split; [reflexivity |].
  apply (conversation_omits_generated_images (PyStr "context")
           [Gemini.assistant_message
              (PyStr "Here is your generated image! ![Generated Image](https://x/y.png)");
            Gemini.assistant_message (PyStr "DOWNLOAD_BUTTON")]
           (PyStr "thanks") _ "DOWNLOAD_BUTTON" eq_refl).
  vm_compute. do 2 right. left.
Defined.

(** X18.  The prompt is sent twice: [main] appends the user's message to the
    chat before [process_prompt] passes that chat and the same prompt to
    [generate_gemini_response], so the conversation ends with two identical
    user turns. *)
Theorem conversation_repeats_prompt :
  ∀ context_prompt chat_history user_prompt conversation,
    Gemini.build_conversation context_prompt
      (chat_history ++ [Gemini.user_message user_prompt]) user_prompt
    = Return conversation →
    ∃ before,
      conversation
      = before ++ [Gemini.turn "user" user_prompt;
                   Gemini.turn "user" user_prompt].
Proof.
  intros context_prompt chat_history user_prompt conversation.
  rewrite build_conversation_translate.
  destruct (last_six_snoc chat_history (Gemini.user_message user_prompt))
    as [before ->].
  rewrite translate_all_app.
  destruct (Gemini.translate_all before) as [x |]; [| discriminate].
  change (Gemini.translate_all [Gemini.user_message user_prompt])
    with (Return (A:=list pyval) ([Gemini.turn "user" user_prompt] ++ [])).
  intros [= <-].
  exists (Gemini.turn "user" context_prompt
          :: Gemini.turn "model" Gemini.understood :: x).
  cbn. by rewrite <- app_assoc.
Qed.

Lemma conversation_repeats_prompt_witness :
  Gemini.build_conversation (PyStr "context")
    ([] ++ [Gemini.user_message (PyStr "make it blue")])
    (PyStr "make it blue")
  = Return [Gemini.turn "user" (PyStr "context");
            Gemini.turn "model" Gemini.understood;
            Gemini.turn "user" (PyStr "make it blue");
            Gemini.turn "user" (PyStr "make it blue")]
  ∧ ∃ before,
      [Gemini.turn "user" (PyStr "context");
       Gemini.turn "model" Gemini.understood;
       Gemini.turn "user" (PyStr "make it blue");
       Gemini.turn "user" (PyStr "make it blue")]
      = before ++ [Gemini.turn "user" (PyStr "make it blue");
                   Gemini.turn "user" (PyStr "make it blue")].
Proof.
  split; [reflexivity |].
  apply (conversation_repeats_prompt (PyStr "context") []
           (PyStr "make it blue") _ eq_refl).
Defined.

(** X19.  On a chat made of the application's own messages (a dict with a
    string role and a string or dict content) building the conversation never
    raises. *)
Theorem conversation_total_on_chat_messages :
  ∀ context_prompt chat_history user_prompt,
    Forall Gemini.chat_message chat_history →
    ∃ conversation,
      Gemini.build_conversation context_prompt chat_history user_prompt
      = Return conversation.
Proof.
  intros context_prompt chat_history user_prompt H.
  rewrite build_conversation_translate.
  destruct (translate_all_chat_messages (Gemini.last_six chat_history))
    as [items ->]; [by apply Forall_drop | eauto].
Qed.

Lemma conversation_total_on_chat_messages_witness :
  let picker :=
    Gemini.assistant_message
      (PyDict {[ "type" := PyStr "template_picker"; "data" := PyList [] ]}) in
  Forall Gemini.chat_message [picker]
  ∧ (∃ conversation,
       Gemini.build_conversation (PyStr "context") [picker] (PyStr "go")
       = Return conversation)
  ∧ Gemini.build_conversation (PyStr "context") [picker] (PyStr "go")
    = Return [Gemini.turn "user" (PyStr "context");
              Gemini.turn "model" Gemini.understood;
              Gemini.turn "model"
                (PyDict {[ "type" := PyStr "template_picker";
                           "data" := PyList [] ]});
              Gemini.turn "user" (PyStr "go")].
Proof.
  cbv zeta.
  assert (H : Forall Gemini.chat_message
                [Gemini.assistant_message
                   (PyDict {[ "type" := PyStr "template_picker";
                              "data" := PyList [] ]})]).
  { constructor; [| constructor].
    eexists _, "assistant", _. split; [reflexivity |].
    split; [reflexivity |]. split; [reflexivity |]. right. eauto. }
  split; [exact H |]. split; [| reflexivity].
  exact (conversation_total_on_chat_messages (PyStr "context") _
           (PyStr "go") H).
Defined.

(** X20.  The loop over the chat is outside the [try]: a message without a
    ["role"], anywhere among the last six, makes [generate_gemini_response]
    raise [KeyError] instead of returning [None], provided the messages
    before it in that window are the application's own (a message of
    another shape there would raise first, with its own exception). *)
Theorem conversation_raises_on_missing_role :
  ∀ context_prompt chat_history before d after user_prompt,
    Gemini.last_six chat_history = before ++ PyDict d :: after →
    Forall Gemini.chat_message before →
    d !! "role" = None →
    Gemini.build_conversation context_prompt chat_history user_prompt
    = Raise (KeyError "role").
Proof.
  intros context_prompt chat_history before d after user_prompt Hw Hb Hd.
  rewrite build_conversation_translate, Hw, translate_all_app.
  destruct (translate_all_chat_messages before Hb) as [items ->].
  cbn [Gemini.translate_all].
  unfold Gemini.translate, bind. rewrite replay_message_unfold.
  cbn [py_getitem]. rewrite Hd. reflexivity.
Qed.

Lemma conversation_raises_on_missing_role_witness :
  let d : gmap string pyval := {[ "content" := PyStr "hi" ]} in
  let hello := Gemini.assistant_message (PyStr "Hello!") in
  let chat_history :=
    [PyNone; hello; hello; hello; hello; PyDict d; hello] in
  (Gemini.last_six chat_history = [hello; hello; hello; hello] ++ PyDict d :: [hello]
   ∧ Forall Gemini.chat_message [hello; hello; hello; hello]
   ∧ d !! "role" = None)
  ∧ Gemini.build_conversation (PyStr "context") chat_history (PyStr "go")
    = Raise (KeyError "role").
Proof.
  cbv zeta.
  assert (Hm : Gemini.chat_message (Gemini.assistant_message (PyStr "Hello!"))).
  { eexists _, "assistant", _. split; [reflexivity |].
    split; [reflexivity |]. split; [reflexivity |]. left. eauto. }
  assert (Hb : Forall Gemini.chat_message
                 [Gemini.assistant_message (PyStr "Hello!");
                  Gemini.assistant_message (PyStr "Hello!");
                  Gemini.assistant_message (PyStr "Hello!");
                  Gemini.assistant_message (PyStr "Hello!")]).
  { repeat constructor; exact Hm. }
  split; [split; [reflexivity | split; [exact Hb | reflexivity]] |].
  apply (conversation_raises_on_missing_role (PyStr "context") _
           [Gemini.assistant_message (PyStr "Hello!");
            Gemini.assistant_message (PyStr "Hello!");
            Gemini.assistant_message (PyStr "Hello!");
            Gemini.assistant_message (PyStr "Hello!")]
           {[ "content" := PyStr "hi" ]}
           [Gemini.assistant_message (PyStr "Hello!")] (PyStr "go"));
    [reflexivity | exact Hb | reflexivity].
Defined.

(** * Selecting a template *)

Section TemplateSelection.

Import Banchat Selection.

Variable py_str : pyval → string.

Lemma scan_layers_dicts mods :
  Forall (λ d : gmap string pyval, is_Some (d !! "name")) mods →
  ∃ names, scan_layers (PyDict <$> mods) = Return (mods, names).
Proof.
  induction 1 as [| d mods [v Hv] _ [names IH]]; cbn; [eauto |].
  rewrite Hv, IH. eauto.
Qed.

Lemma set_modifications_store (st : loc → gmap string pyval)
    (mods : list (gmap string pyval)) :
  (λ l, default (st l) (mods !! l)) <$> seq 0 (length mods) = mods.
Proof.
  apply list_eq. intros i. rewrite list_lookup_fmap.
  destruct (mods !! i) as [d |] eqn:Hd.
  - rewrite (lookup_seq_lt 0 _ i) by (by apply lookup_lt_Some in Hd).
    cbn. by rewrite Hd.
  - rewrite lookup_seq_ge by (by apply lookup_ge_None in Hd). reflexivity.
Qed.

(** The block after the fetch on a template whose layers are dictionaries
    with a name. *)
Lemma loaded_template_success full mods template_name c w :
  py_truthy full = true →
  py_getitem full "available_modifications"
  = Return (PyList (PyDict <$> mods)) →
  Forall (λ d : gmap string pyval, is_Some (d !! "name")) mods →
  py_getitem full "name" = Return template_name →
  ∃ text,
    loaded_template py_str full (c, w)
    = (Return tt,
       ({| transcript := transcript c ++ [chat_entry "assistant" text];
           details := full;
           layers := seq 0 (length mods);
           store := λ l, default (store c l) (mods !! l) |}, w)).
Proof.
  intros Ht Hav Hn Hname.
  destruct (scan_layers_dicts mods Hn) as [names Hs].
  unfold loaded_template, read_layers. rewrite Ht, Hav. cbn [negb scan].
  rewrite Hs.
  cbv [bind set_details set_modifications say eval fst snd transcript
       details layers store].
  rewrite Hname. eauto.
Qed.

(** The block after the fetch when reading the layers raises. *)
Lemma loaded_template_failure full e c w :
  py_truthy full = true →
  read_layers full = Raise e →
  ∃ more,
    snd (loaded_template py_str full (c, w))
    = ({| transcript := transcript c ++ more;
          details := full;
          layers := layers c;
          store := store c |}, w)
    ∧ fst (loaded_template py_str full (c, w))
      = match e with KeyError _ => Return tt | TypeError => Raise TypeError end.
Proof.
  intros Ht He. unfold loaded_template. rewrite Ht, He. cbn [negb].
  destruct e as [k |].
  - eexists [_]. split; reflexivity.
  - exists []. cbn. rewrite app_nil_r. split; reflexivity.
Qed.

Variable get_template_details : string → pyval → M world pyval.
Variable key : string.

Lemma handle_template_selection_unfold template_summary c w :
  handle_template_selection py_str get_template_details key template_summary
    (c, w) =
  match without_pickers (transcript c) with
  | Raise e => (Raise e, (c, w))
  | Return kept =>
      let c0 := {| transcript := kept; details := details c;
                   layers := layers c; store := store c |} in
      match py_getitem template_summary "name" with
      | Raise e => (Raise e, (c0, w))
      | Return summary_name =>
          let c1 :=
            {| transcript :=
                 kept ++ [chat_entry "user"
                            ("I'll use the '" +:+ py_str summary_name
                             +:+ "' template.")];
               details := details c; layers := layers c;
               store := store c |} in
          match py_getitem template_summary "uid" with
          | Raise e => (Raise e, (c1, w))
          | Return uid =>
              match get_template_details key uid w with
              | (Raise e, w') => (Raise e, (c1, w'))
              | (Return full, w') => loaded_template py_str full (c1, w')
              end
          end
      end
  end.
Proof.
  unfold handle_template_selection, bind, set_transcript, say, eval,
    in_world_of_chat.
  cbn [fst snd].
  destruct (without_pickers (transcript c)) as [kept | e]; [| reflexivity].
  cbn [fst snd transcript details layers store].
  destruct (py_getitem template_summary "name") as [sname | e];
    [| reflexivity].
  cbn [fst snd transcript details layers store].
  destruct (py_getitem template_summary "uid") as [uid | e]; [| reflexivity].
  destruct (get_template_details key uid w) as [[full | e] w']; reflexivity.
Qed.

Lemma handle_template_selection_fetched template_summary c w full w' :
  fetched get_template_details key template_summary c w full w' →
  ∃ kept text,
    without_pickers (transcript c) = Return kept
    ∧ handle_template_selection py_str get_template_details key
        template_summary (c, w)
      = loaded_template py_str full
          ({| transcript := kept ++ [chat_entry "user" text];
              details := details c; layers := layers c;
              store := store c |}, w').
Proof.
  intros ([kept Hk] & [sname Hn] & uid & Hu & Hg).
  rewrite handle_template_selection_unfold, Hk. cbv zeta.
  rewrite Hn, Hu, Hg. eauto.
Qed.

Lemma without_pickers_kept msgs kept :
  without_pickers msgs = Return kept → Forall not_picker kept.
Proof.
  revert kept. induction msgs as [| msg rest IH]; intros kept; cbn.
  - intros [= <-]. constructor.
  - destruct (py_getitem msg "content") as [content |] eqn:Hc;
      [| discriminate].
    destruct (without_pickers rest) as [k |]; [| discriminate].
    destruct (is_picker content) eqn:Hp; intros [= <-]; [by apply IH |].
    constructor; [by exists content | by apply IH].
Qed.

Lemma chat_entry_not_picker role text : not_picker (chat_entry role text).
Proof. exists (PyStr text). split; reflexivity. Qed.

(** The block after the fetch appends at most one message, an entry with a
    text, and exactly one when it returns. *)
Lemma loaded_template_transcript full c w :
  let r := loaded_template py_str full (c, w) in
  ∃ more,
    transcript (snd r).1 = transcript c ++ more
    ∧ Forall not_picker more
    ∧ length more ≤ 1
    ∧ (fst r = Return tt → length more = 1).
Proof.
  cbv zeta. unfold loaded_template.
  destruct (py_truthy full); cbn [negb].
  2:{ eexists [_]. cbn. repeat split; [| lia].
      repeat constructor. apply chat_entry_not_picker. }
  destruct (read_layers full) as [[mods names] | [k |]].
  - cbv [bind set_details set_modifications say eval fst snd transcript
         details layers store].
    destruct (py_getitem full "name") as [tname | e].
    + eexists [_]. cbn. repeat split; [| lia].
      repeat constructor. apply chat_entry_not_picker.
    + exists []. cbn. rewrite app_nil_r. repeat split; [constructor | lia |].
      discriminate.
  - eexists [_]. cbn. repeat split; [| lia].
    repeat constructor. apply chat_entry_not_picker.
  - exists []. cbn. rewrite app_nil_r. repeat split; [constructor | lia |].
    discriminate.
Qed.

End TemplateSelection.

(** X21.  A successful selection loads the template's layers as they came:
    when the details are truthy, their [available_modifications] is a list
    of dictionaries that each have a name, and they have a ["name"], the
    handler returns normally, the selected template is the fetched one, the
    modifications are the layer dictionaries in order and unchanged, each has
    a name, and so no later field update can raise. *)
Theorem selection_loads_layers :
  ∀ py_str get_template_details key template_summary c w full w'
    mods template_name ms fc,
    Selection.fetched get_template_details key template_summary c w full w' →
    py_truthy full = true →
    py_getitem full "available_modifications"
    = Return (PyList (PyDict <$> mods)) →
    Forall (λ d : gmap string pyval, is_Some (d !! "name")) mods →
    py_getitem full "name" = Return template_name →
    let r := Selection.handle_template_selection py_str get_template_details
               key template_summary (c, w) in
    let c' := (snd r).1 in
    fst r = Return tt
    ∧ (snd r).2 = w'
    ∧ Selection.details c' = full
    ∧ Selection.store c' <$> Selection.layers c' = mods
    ∧ named (Selection.session_of c' ms)
    ∧ fst (Banchat.handle_gemini_function_call fc
             (Selection.session_of c' ms)) = Return tt.
Proof.
  intros py_str get_template_details key template_summary c w full w'
    mods template_name ms fc Hf Ht Hav Hn Hname. cbv zeta.
  destruct (handle_template_selection_fetched py_str get_template_details
              key template_summary c w full w' Hf) as (kept & text & _ & ->).
  destruct (loaded_template_success py_str full mods template_name
              {| Selection.transcript :=
                   kept ++ [Selection.chat_entry "user" text];
                 Selection.details := Selection.details c;
                 Selection.layers := Selection.layers c;
                 Selection.store := Selection.store c |} w'
              Ht Hav Hn Hname) as [text' ->].
  cbn [fst snd].
  match goal with
  | |- _ ∧ _ ∧ Selection.details ?x = _ ∧ _ => set (c' := x)
  end.
  assert (Hnamed : named (Selection.session_of c' ms)).
  { intros l Hl. cbn in Hl |- *. apply elem_of_seq in Hl.
    destruct (lookup_lt_is_Some_2 mods l) as [d Hd]; [lia |].
    rewrite Hd. cbn. exact (Forall_lookup_1 _ _ _ _ Hn Hd). }
  split; [reflexivity |]. split; [reflexivity |]. split; [reflexivity |].
  split; [apply set_modifications_store |]. split; [exact Hnamed |].
  rewrite handle_gemini_function_call_locate.
  destruct (locate_named (layer_of fc) _ _ Hnamed) as [[l |] ->];
    reflexivity.
Qed.

Lemma promo_fetched :
  Selection.fetched (Selection.answers Selection.promo_details) "key"
    Selection.promo_summary Selection.earlier_chat
    (fresh_world (script [] pending)) Selection.promo_details
    (fresh_world (script [] pending)).
Proof.
  split; [eexists; reflexivity |]. split; [eexists; reflexivity |].
  eexists. split; reflexivity.
Defined.

Lemma selection_loads_layers_witness :
  let mods : list (gmap string pyval) :=
    [ {[ "name" := PyStr "headline"; "text" := PyNone; "color" := PyNone ]};
      {[ "name" := PyStr "logo"; "image_url" := PyNone ]} ] in
  let r := Selection.handle_template_selection Selection.str_of
             (Selection.answers Selection.promo_details) "key"
             Selection.promo_summary
             (Selection.earlier_chat, fresh_world (script [] pending)) in
  (py_truthy Selection.promo_details = true
   ∧ py_getitem Selection.promo_details "available_modifications"
     = Return (PyList (PyDict <$> mods))
   ∧ Forall (λ d : gmap string pyval, is_Some (d !! "name")) mods
   ∧ py_getitem Selection.promo_details "name" = Return (PyStr "Promo"))
  ∧ fst r = Return tt
  ∧ Selection.layers (snd r).1 = [0; 1]
  ∧ Selection.store (snd r).1 <$> Selection.layers (snd r).1 = mods.
Proof.
  cbv zeta.
  assert (Hn : Forall (λ d : gmap string pyval, is_Some (d !! "name"))
                 [ {[ "name" := PyStr "headline"; "text" := PyNone;
                      "color" := PyNone ]};
                   {[ "name" := PyStr "logo"; "image_url" := PyNone ]} ]).
  { repeat constructor; eexists; reflexivity. }
  split; [split; [reflexivity | split; [reflexivity
                  | split; [exact Hn | reflexivity]]] |].
  destruct (selection_loads_layers Selection.str_of
              (Selection.answers Selection.promo_details) "key"
              Selection.promo_summary Selection.earlier_chat
              (fresh_world (script [] pending)) Selection.promo_details
              (fresh_world (script [] pending))
              [ {[ "name" := PyStr "headline"; "text" := PyNone;
                   "color" := PyNone ]};
                {[ "name" := PyStr "logo"; "image_url" := PyNone ]} ]
              (PyStr "Promo") []
              Examples.set_title_text promo_fetched
              ltac:(reflexivity) ltac:(reflexivity) Hn ltac:(reflexivity))
    as (H1 & _ & _ & H4 & _).
  split; [exact H1 |]. split; [reflexivity | exact H4].
Defined.

Lemma broken_fetched :
  Selection.fetched (Selection.answers Selection.broken_details) "key"
    Selection.promo_summary Selection.earlier_chat
    (fresh_world (script [] pending)) Selection.broken_details
    (fresh_world (script [] pending)).
Proof.
  split; [eexists; reflexivity |]. split; [eexists; reflexivity |].
  eexists. split; reflexivity.
Defined.

(** X22.  A template whose layers cannot be read leaves the session
    inconsistent.  The details are stored before the layers are read, so
    when the read raises (a missing [available_modifications], a layer
    without a name: the handler reports a critical error and returns; a
    layer that is not a dictionary: it raises), the selected template is the
    new one while the modifications are still those of the previous
    template; an image generation that follows submits the previous
    template's modifications under the new template's uid. *)
Theorem selection_keeps_stale_modifications :
  ∀ py_str get_template_details key template_summary c w full w' e
    ms w2 uid,
    Selection.fetched get_template_details key template_summary c w full w' →
    py_truthy full = true →
    Selection.read_layers full = Raise e →
    py_getitem full "uid" = Return uid →
    let r := Selection.handle_template_selection py_str get_template_details
               key template_summary (c, w) in
    let c' := (snd r).1 in
    fst r = match e with
            | KeyError _ => Return tt
            | TypeError => Raise TypeError
            end
    ∧ Selection.details c' = full
    ∧ Selection.layers c' = Selection.layers c
    ∧ Selection.store c' = Selection.store c
    ∧ exchanges
        (snd (Banchat.handle_image_generation key
                (Selection.session_of c' ms, w2))).2
      = exchanges w2
        ++ [(job_creation key uid
               (PyList (PyDict <$> Banchat.final_modifications
                                     (Selection.session_of c ms))),
             net w2 0)].
Proof.
  intros py_str get_template_details key template_summary c w full w' e
    ms w2 uid Hf Ht He Hu. cbv zeta.
  destruct (handle_template_selection_fetched py_str get_template_details
              key template_summary c w full w' Hf) as (kept & text & _ & ->).
  destruct (loaded_template_failure py_str full e
              {| Selection.transcript :=
                   kept ++ [Selection.chat_entry "user" text];
                 Selection.details := Selection.details c;
                 Selection.layers := Selection.layers c;
                 Selection.store := Selection.store c |} w' Ht He)
    as (more & -> & ->).
  cbn [fst snd Selection.details Selection.layers Selection.store].
  repeat split.
  etransitivity;
    [apply handle_image_generation_exchanges; [exact Ht | exact Hu] |].
  reflexivity.
Qed.

Lemma selection_keeps_stale_modifications_witness :
  let r := Selection.handle_template_selection Selection.str_of
             (Selection.answers Selection.broken_details) "key"
             Selection.promo_summary
             (Selection.earlier_chat, fresh_world (script [] pending)) in
  (py_truthy Selection.broken_details = true
   ∧ Selection.read_layers Selection.broken_details = Raise (KeyError "name")
   ∧ py_getitem Selection.broken_details "uid" = Return (PyStr "tpl-2"))
  ∧ fst r = Return tt
  ∧ Selection.details (snd r).1 = Selection.broken_details
  ∧ Selection.layers (snd r).1 = [0]
  ∧ Selection.store (snd r).1 0 !! "text" = Some (PyStr "Hello").
Proof.
  cbv zeta. split; [repeat split; reflexivity |].
  destruct (selection_keeps_stale_modifications Selection.str_of
              (Selection.answers Selection.broken_details) "key"
              Selection.promo_summary Selection.earlier_chat
              (fresh_world (script [] pending)) Selection.broken_details
              (fresh_world (script [] pending)) (KeyError "name") []
              (fresh_world (script [] pending)) (PyStr "tpl-2")
              broken_fetched ltac:(reflexivity) ltac:(reflexivity)
              ltac:(reflexivity)) as (H1 & H2 & H3 & H4 & _).
  split; [exact H1 |]. split; [exact H2 |]. split; [exact H3 |].
  rewrite H4. reflexivity.
Defined.

(** X23.  When the details cannot be fetched (a falsy result), a selection
    changes nothing but the chat: the selected template and the
    modifications are as before, and the chat, its pickers removed, gains
    the user's choice and the apology. *)
Theorem selection_fetch_failure :
  ∀ py_str get_template_details key template_summary c w full w',
    Selection.fetched get_template_details key template_summary c w full w' →
    py_truthy full = false →
    let r := Selection.handle_template_selection py_str get_template_details
               key template_summary (c, w) in
    let c' := (snd r).1 in
    fst r = Return tt
    ∧ (snd r).2 = w'
    ∧ Selection.details c' = Selection.details c
    ∧ Selection.layers c' = Selection.layers c
    ∧ Selection.store c' = Selection.store c
    ∧ ∃ kept text,
        Selection.without_pickers (Selection.transcript c) = Return kept
        ∧ Selection.transcript c'
          = kept
            ++ [Selection.chat_entry "user" text;
                Selection.chat_entry "assistant"
                  "Sorry, I failed to load the detailed information for that template."].
Proof.
  intros py_str get_template_details key template_summary c w full w' Hf Ht.
  cbv zeta.
  destruct (handle_template_selection_fetched py_str get_template_details
              key template_summary c w full w' Hf) as (kept & text & Hk & ->).
  unfold Selection.loaded_template. rewrite Ht. cbn.
  repeat split. exists kept, text. split; [exact Hk |].
  by rewrite <- app_assoc.
Qed.

Lemma selection_fetch_failure_witness :
  let r := Selection.handle_template_selection Selection.str_of
             (Selection.answers PyNone) "key" Selection.promo_summary
             (Selection.earlier_chat, fresh_world (script [] pending)) in
  (Selection.fetched (Selection.answers PyNone) "key"
     Selection.promo_summary Selection.earlier_chat
     (fresh_world (script [] pending)) PyNone
     (fresh_world (script [] pending))
   ∧ py_truthy PyNone = false)
  ∧ fst r = Return tt
  ∧ Selection.details (snd r).1 = Selection.details Selection.earlier_chat
  ∧ Selection.layers (snd r).1 = [0].
Proof.
  cbv zeta.
  assert (Hf : Selection.fetched (Selection.answers PyNone) "key"
                 Selection.promo_summary Selection.earlier_chat
                 (fresh_world (script [] pending)) PyNone
                 (fresh_world (script [] pending))).
  { split; [eexists; reflexivity |]. split; [eexists; reflexivity |].
    eexists. split; reflexivity. }
  split; [split; [exact Hf | reflexivity] |].
  destruct (selection_fetch_failure Selection.str_of
              (Selection.answers PyNone) "key" Selection.promo_summary
              Selection.earlier_chat (fresh_world (script [] pending))
              PyNone (fresh_world (script [] pending)) Hf eq_refl)
    as (H1 & _ & H3 & H4 & _).
  split; [exact H1 |]. split; [exact H3 | exact H4].
Defined.

Lemma without_pickers_complete msgs kept :
  Selection.without_pickers msgs = Return kept →
  sublist kept msgs
  ∧ ∀ msg, msg ∈ msgs → Selection.not_picker msg → msg ∈ kept.
Proof.
  revert kept. induction msgs as [| msg rest IH]; intros kept; cbn.
  - intros [= <-]. split; [constructor |]. intros msg Hm. inversion Hm.
  - destruct (py_getitem msg "content") as [content |] eqn:Hc;
      [| discriminate].
    destruct (Selection.without_pickers rest) as [k |]; [| discriminate].
    destruct (IH k eq_refl) as [Hsub Hall].
    destruct (Selection.is_picker content) eqn:Hp; intros [= <-].
    + split; [by constructor |]. intros m Hm Hnp.
      apply elem_of_cons in Hm as [-> | Hm]; [| by apply Hall].
      destruct Hnp as (content' & Hc' & Hp'). congruence.
    + split; [by constructor |]. intros m Hm Hnp.
      apply elem_of_cons in Hm as [-> | Hm]; [left | right; by apply Hall].
Qed.

(** X24.  After a selection that returns, no template picker is left in the
    chat: the chat is the old one without its picker messages, every other
    message kept and in order, followed by exactly two new messages, the
    user's choice and the assistant's answer. *)
Theorem selection_removes_pickers :
  ∀ py_str get_template_details key template_summary c w,
    let r := Selection.handle_template_selection py_str get_template_details
               key template_summary (c, w) in
    fst r = Return tt →
    Forall Selection.not_picker (Selection.transcript (snd r).1)
    ∧ ∃ kept more,
        Selection.transcript (snd r).1 = kept ++ more
        ∧ length more = 2
        ∧ sublist kept (Selection.transcript c)
        ∧ ∀ msg, msg ∈ Selection.transcript c → Selection.not_picker msg →
                 msg ∈ kept.
Proof.
  intros py_str get_template_details key template_summary c w. cbv zeta.
  rewrite handle_template_selection_unfold.
  destruct (Selection.without_pickers (Selection.transcript c))
    as [kept | e] eqn:Hk; [| discriminate].
  cbv zeta.
  destruct (py_getitem template_summary "name") as [sname | e];
    [| discriminate].
  destruct (py_getitem template_summary "uid") as [uid | e];
    [| discriminate].
  destruct (get_template_details key uid w) as [[full | e] w'];
    [| discriminate].
  intros Hr.
  destruct (loaded_template_transcript py_str full
              {| Selection.transcript :=
                   kept ++ [Selection.chat_entry "user"
                              ("I'll use the '" +:+ py_str sname
                               +:+ "' template.")];
                 Selection.details := Selection.details c;
                 Selection.layers := Selection.layers c;
                 Selection.store := Selection.store c |} w')
    as (more & Ht & Hnp & _ & Hlen).
  rewrite Ht. cbn [Selection.transcript].
  destruct (without_pickers_complete _ _ Hk) as [Hsub Hall].
  split.
  - rewrite !Forall_app. split; [split |]; [| | exact Hnp].
    + exact (without_pickers_kept _ _ Hk).
    + repeat constructor. apply chat_entry_not_picker.
  - eexists kept, (_ :: more). split; [by rewrite <- app_assoc |].
    split; [cbn; by rewrite (Hlen Hr) |]. split; [exact Hsub | exact Hall].
Qed.

Lemma selection_removes_pickers_witness :
  let r := Selection.handle_template_selection Selection.str_of
             (Selection.answers Selection.promo_details) "key"
             Selection.promo_summary
             (Selection.earlier_chat, fresh_world (script [] pending)) in
  fst r = Return tt
  ∧ length (Selection.transcript Selection.earlier_chat) = 2
  ∧ length (Selection.transcript (snd r).1) = 3
  ∧ Forall Selection.not_picker (Selection.transcript (snd r).1).
Proof.
  cbv zeta. split; [reflexivity |]. split; [reflexivity |].
  split; [reflexivity |].
  apply (selection_removes_pickers Selection.str_of
           (Selection.answers Selection.promo_details) "key"
           Selection.promo_summary Selection.earlier_chat
           (fresh_world (script [] pending))).
  reflexivity.
Defined.

(** X25.  Generating right after a selection sends the template's layers
    without their null fields: the job creation is for the fetched
    template's uid, and its modifications are the layer dictionaries in
    order, each reduced to the fields whose value is not [None]. *)
Theorem selection_then_generation :
  ∀ py_str get_template_details key template_summary c w full w'
    mods template_name ms w2 uid,
    Selection.fetched get_template_details key template_summary c w full w' →
    py_truthy full = true →
    py_getitem full "available_modifications"
    = Return (PyList (PyDict <$> mods)) →
    Forall (λ d : gmap string pyval, is_Some (d !! "name")) mods →
    py_getitem full "name" = Return template_name →
    py_getitem full "uid" = Return uid →
    let c' := (snd (Selection.handle_template_selection py_str
                      get_template_details key template_summary (c, w))).1 in
    exchanges
      (snd (Banchat.handle_image_generation key
              (Selection.session_of c' ms, w2))).2
    = exchanges w2
      ++ [(job_creation key uid
             (PyList ((λ d, PyDict (Banchat.clean_mod d)) <$> mods)),
           net w2 0)].
Proof.
  intros py_str get_template_details key template_summary c w full w'
    mods template_name ms w2 uid Hf Ht Hav Hn Hname Hu. cbv zeta.
  destruct (handle_template_selection_fetched py_str get_template_details
              key template_summary c w full w' Hf) as (kept & text & _ & ->).
  destruct (loaded_template_success py_str full mods template_name
              {| Selection.transcript :=
                   kept ++ [Selection.chat_entry "user" text];
                 Selection.details := Selection.details c;
                 Selection.layers := Selection.layers c;
                 Selection.store := Selection.store c |} w'
              Ht Hav Hn Hname) as [text' ->].
  cbn [fst snd].
  erewrite handle_image_generation_exchanges; [| exact Ht | exact Hu].
  do 3 f_equal. unfold Banchat.final_modifications. cbn.
  rewrite <- (set_modifications_store (Selection.store c) mods) at 2.
  rewrite <- !list_fmap_compose. reflexivity.
Qed.

Lemma selection_then_generation_witness :
  let mods : list (gmap string pyval) :=
    [ {[ "name" := PyStr "headline"; "text" := PyNone; "color" := PyNone ]};
      {[ "name" := PyStr "logo"; "image_url" := PyNone ]} ] in
  let c' := (snd (Selection.handle_template_selection Selection.str_of
                    (Selection.answers Selection.promo_details) "key"
                    Selection.promo_summary
                    (Selection.earlier_chat,
                     fresh_world (script [] pending)))).1 in
  (py_truthy Selection.promo_details = true
   ∧ py_getitem Selection.promo_details "available_modifications"
     = Return (PyList (PyDict <$> mods))
   ∧ Forall (λ d : gmap string pyval, is_Some (d !! "name")) mods
   ∧ py_getitem Selection.promo_details "name" = Return (PyStr "Promo")
   ∧ py_getitem Selection.promo_details "uid" = Return (PyStr "tpl-2"))
  ∧ exchanges
      (snd (Banchat.handle_image_generation "key"
              (Selection.session_of c' [],
               fresh_world (script [] pending)))).2
    = [(job_creation "key" (PyStr "tpl-2")
          (PyList [PyDict {[ "name" := PyStr "headline" ]};
                   PyDict {[ "name" := PyStr "logo" ]}]),
        pending)].
Proof.
  cbv zeta.
  assert (Hn : Forall (λ d : gmap string pyval, is_Some (d !! "name"))
                 [ {[ "name" := PyStr "headline"; "text" := PyNone;
                      "color" := PyNone ]};
                   {[ "name" := PyStr "logo"; "image_url" := PyNone ]} ]).
  { repeat constructor; eexists; reflexivity. }
  split; [split; [reflexivity | split; [reflexivity
                  | split; [exact Hn | split; reflexivity]]] |].
  rewrite (selection_then_generation Selection.str_of
             (Selection.answers Selection.promo_details) "key"
             Selection.promo_summary Selection.earlier_chat
             (fresh_world (script [] pending)) Selection.promo_details
             (fresh_world (script [] pending))
             [ {[ "name" := PyStr "headline"; "text" := PyNone;
                  "color" := PyNone ]};
               {[ "name" := PyStr "logo"; "image_url" := PyNone ]} ]
             (PyStr "Promo") [] (fresh_world (script [] pending))
             (PyStr "tpl-2") promo_fetched ltac:(reflexivity)
             ltac:(reflexivity) Hn ltac:(reflexivity) ltac:(reflexivity)).
  reflexivity.
Defined.

(** * The cost of polling *)

(** X26.  What a poll costs.  [poll_for_image_completion] issues between 1
    and 20 requests, each the status fetch of the image it was given (a GET
    with the bearer key and no body), answered by the provider's successive
    answers; it sleeps two seconds after every status it waits on, the
    twentieth included, so 40 seconds at most, and not after the answer on
    which it stops. *)
Theorem poll_cost :
  ∀ key image_uid w,
    let w' := snd (Banner.poll_for_image_completion key image_uid w) in
    ∃ fetched waited,
      exchanges w'
      = exchanges w
        ++ ((λ j, (status_fetch key image_uid, net w j)) <$> seq 0 fetched)
      ∧ 1 ≤ fetched ≤ 20
      ∧ slept w' = slept w + 2 * waited
      ∧ (∀ j, j < waited → observe (net w j) = ObsPending)
      ∧ ((fetched = waited ∧ waited = 20)
         ∨ (fetched = S waited
            ∧ observe (net w waited) ≠ ObsPending)).
Proof.
  intros key image_uid w. cbv zeta.
  unfold Banner.poll_for_image_completion.
  destruct (first_terminal_dec 20 w) as [Hp | (k & o & Hk & Ho & Hf)].
  - destruct (poll_attempts_exhausted key image_uid 20 w Hp)
      as (_ & Hex & _ & Hs).
    exists 20, 20. split; [exact Hex |]. split; [lia |].
    split; [exact Hs |]. split; [exact Hp |]. by left.
  - destruct (poll_attempts_stops key image_uid 20 w k o Hk Ho Hf)
      as (_ & Hex & _ & Hs).
    destruct Hf as [Hobs Hprev].
    exists (S k), k. split; [exact Hex |]. split; [lia |].
    split; [exact Hs |]. split; [exact Hprev |]. right.
    split; [reflexivity | congruence].
Qed.
